(** * RapidAid accelerometer pipeline: windowing, window features,
      threshold selection and the inference column logic.

    The development embeds

    - [src/feature_engineering/accelerometer_feature_engineer.py]
      (class [AccelerometerFeatureEngineer]),
    - [src/model_training/accelerometer_accident_detector.py]
      (class [AccelerometerAccidentDetector]),
    - [main] of [scripts/predict_accidents.py], from the loaded table to
      the table of predictions,
    - [main] of [scripts/train_accelerometer_accident_detector.py], from
      the loaded table to the saved pipeline and metrics.

    Python integers are [Z].  A float64 is modelled by [fval]: an exact
    rational, or one of the three IEEE special values (NaN, +inf, -inf);
    finite arithmetic is exact (no rounding, no signed zero).  Python
    exceptions are the [Raise] branch of [result]. *)

From Stdlib Require Import String Ascii.
From Stdlib Require Import ZArith QArith Qabs List Bool Lia Arith.
From Stdlib Require Import Permutation.
Import ListNotations.

Set Implicit Arguments.

Local Open Scope Z_scope.

(* ------------------------------------------------------------------ *)
(** ** Exceptions and the error monad *)
(* ------------------------------------------------------------------ *)

Inductive exn : Type :=
| ValueError (msg : string)
| TypeError (msg : string)
| ZeroDivisionError
| IndexError
| KeyError (key : string).

Inductive result (A : Type) : Type :=
| Ok (a : A)
| Raise (e : exn).
Arguments Ok {A} a.
Arguments Raise {A} e.

Definition bind {A B : Type} (m : result A) (k : A -> result B) : result B :=
  match m with
  | Ok a => k a
  | Raise e => Raise e
  end.

Notation "x <- m ;; k" := (bind m (fun x => k))
  (at level 61, m at next level, right associativity).

Definition is_ok {A : Type} (m : result A) : bool :=
  match m with Ok _ => true | Raise _ => false end.

(** [for x in xs: acc.append(f x)], stopping at the first exception. *)
Fixpoint mapM {A B : Type} (f : A -> result B) (xs : list A) : result (list B) :=
  match xs with
  | [] => Ok []
  | x :: xs' => y <- f x ;; ys <- mapM f xs' ;; Ok (y :: ys)
  end.

(* ------------------------------------------------------------------ *)
(** ** Python built-ins used by the loop of [transform] *)
(* ------------------------------------------------------------------ *)

(** The iteration of [range(start, stop, step)] for a positive step:
    [cur] is yielded while [cur < stop].  [fuel] bounds the number of
    iterations; [py_range] supplies [stop - start], which is enough. *)
Fixpoint range_up (fuel : nat) (cur stop step : Z) : list Z :=
  match fuel with
  | O => []
  | S fuel' =>
      if cur <? stop then cur :: range_up fuel' (cur + step) stop step else []
  end.

(** Same for a negative step: [cur] is yielded while [cur > stop]. *)
Fixpoint range_down (fuel : nat) (cur stop step : Z) : list Z :=
  match fuel with
  | O => []
  | S fuel' =>
      if stop <? cur then cur :: range_down fuel' (cur + step) stop step else []
  end.

Definition py_range (start stop step : Z) : result (list Z) :=
  if step =? 0 then Raise (ValueError "range() arg 3 must not be zero")
  else if 0 <? step then Ok (range_up (Z.to_nat (stop - start)) start stop step)
  else Ok (range_down (Z.to_nat (start - stop)) start stop step).

(** A slice bound, as Python normalises it: a negative index counts from
    the end, and the result is clipped to [[0, len]]. *)
Definition clip_index (len i : Z) : Z :=
  if i <? 0 then Z.max 0 (len + i) else Z.min i len.

(** [seq[start:stop]]. *)
Definition py_slice {A : Type} (xs : list A) (start stop : Z) : list A :=
  let len := Z.of_nat (length xs) in
  let lo := clip_index len start in
  let hi := clip_index len stop in
  firstn (Z.to_nat (hi - lo)) (skipn (Z.to_nat lo) xs).

(** [a or b] on an [Optional[int]]: [None] and [0] are falsy. *)
Definition py_or (a : option Z) (b : Z) : Z :=
  match a with
  | Some v => if v =? 0 then b else v
  | None => b
  end.

(* ------------------------------------------------------------------ *)
(** ** AccelerometerFeatureEngineer: construction and segmentation *)
(* ------------------------------------------------------------------ *)

Record Engineer : Type := mkEngineer {
  sampling_rate : Z;
  window_size : Z;
  step_size : Z;
  label_col : string
}.

(** [AccelerometerFeatureEngineer.__init__]; the defaults of the source are
    [sampling_rate = 50], [window_size = 100], [step_size = None],
    [label_col = "accident"]. *)
Definition init (sampling_rate window_size : Z) (step_size : option Z)
    (label_col : string) : result Engineer :=
  if window_size <=? 0 then Raise (ValueError "window_size must be positive")
  else Ok (mkEngineer sampling_rate window_size
             (py_or step_size (window_size / 2)) label_col).

(** The segmentation of one vehicle group in [transform] (the body of the
    [for vehicle_id, group in ...] loop without the feature computation):
    the pairs [(start_idx, group.iloc[start_idx:end_idx])]. *)
Definition group_windows {A : Type} (eng : Engineer) (group : list A)
    : result (list (Z * list A)) :=
  let num_samples := Z.of_nat (length group) in
  if num_samples <? window_size eng then Ok []
  else
    starts <- py_range 0 (num_samples - window_size eng + 1) (step_size eng) ;;
    Ok (map (fun start_idx =>
               let end_idx := start_idx + window_size eng in
               (start_idx, py_slice group start_idx end_idx)) starts).

(** [feature_row["window_index"] = start_idx // self.step_size]. *)
Definition window_index (eng : Engineer) (start_idx : Z) : Z :=
  start_idx / step_size eng.

(* ------------------------------------------------------------------ *)
(** ** float64 values *)
(* ------------------------------------------------------------------ *)

Inductive fval : Type :=
| Fin (q : Q)
| PInf
| NInf
| NaN.

Definition is_nan (v : fval) : bool :=
  match v with NaN => true | _ => false end.


Definition is_finite (v : fval) : bool :=
  match v with Fin _ => true | _ => false end.

(** [v == 0.0] *)
Definition is_zero (v : fval) : bool :=
  match v with Fin q => Qeq_bool q 0 | _ => false end.

(** [v] is [0.0] or NaN. *)
Definition zero_or_nan (v : fval) : bool := is_zero v || is_nan v.

Definition float_of_Z (z : Z) : fval := Fin (inject_Z z).
Definition float_of_nat (n : nat) : fval := float_of_Z (Z.of_nat n).

(** The sign of a value that is not NaN. *)
Definition fsign (v : fval) : comparison :=
  match v with
  | Fin q => (q ?= 0)%Q
  | PInf => Gt
  | NInf => Lt
  | NaN => Eq
  end.

Definition sign_mul (a b : comparison) : comparison :=
  match a, b with
  | Eq, _ | _, Eq => Eq
  | Lt, Lt | Gt, Gt => Gt
  | _, _ => Lt
  end.

(** Infinity of the given sign; the undetermined sign gives NaN
    ([inf * 0], [0 / 0]). *)
Definition inf_of_sign (c : comparison) : fval :=
  match c with Gt => PInf | Lt => NInf | Eq => NaN end.

Definition fneg (v : fval) : fval :=
  match v with
  | Fin q => Fin (- q)
  | PInf => NInf
  | NInf => PInf
  | NaN => NaN
  end.

Definition fabs (v : fval) : fval :=
  match v with
  | Fin q => Fin (Qabs q)
  | PInf | NInf => PInf
  | NaN => NaN
  end.

Definition fadd (a b : fval) : fval :=
  match a, b with
  | NaN, _ | _, NaN => NaN
  | Fin x, Fin y => Fin (x + y)
  | PInf, NInf | NInf, PInf => NaN
  | PInf, _ | _, PInf => PInf
  | NInf, _ | _, NInf => NInf
  end.

Definition fsub (a b : fval) : fval := fadd a (fneg b).

Definition fmul (a b : fval) : fval :=
  match a, b with
  | NaN, _ | _, NaN => NaN
  | Fin x, Fin y => Fin (x * y)
  | _, _ => inf_of_sign (sign_mul (fsign a) (fsign b))
  end.

(** numpy's true division: no exception, [x / 0] is an infinity and
    [0 / 0] is NaN. *)
Definition fdiv (a b : fval) : fval :=
  match a, b with
  | NaN, _ | _, NaN => NaN
  | Fin x, Fin y =>
      if Qeq_bool y 0 then inf_of_sign (x ?= 0)%Q else Fin (x / y)
  | Fin _, _ => Fin 0
  | _, Fin y =>
      inf_of_sign (sign_mul (fsign a) (if Qeq_bool y 0 then Gt else (y ?= 0)%Q))
  | _, _ => NaN
  end.

(** Python's [a / b] on floats: division by zero raises. *)
Definition py_truediv (a b : fval) : result fval :=
  if is_zero b then Raise ZeroDivisionError else Ok (fdiv a b).

(** Comparison; [None] when an operand is NaN (every ordered comparison is
    then false). *)
Definition fcmp (a b : fval) : option comparison :=
  match a, b with
  | NaN, _ | _, NaN => None
  | Fin x, Fin y => Some (x ?= y)%Q
  | NInf, NInf | PInf, PInf => Some Eq
  | NInf, _ | _, PInf => Some Lt
  | _, NInf | PInf, _ => Some Gt
  end.

Definition fltb (a b : fval) : bool :=
  match fcmp a b with Some Lt => true | _ => false end.

Definition fleb (a b : fval) : bool :=
  match fcmp a b with Some Lt | Some Eq => true | _ => false end.

Definition feqb (a b : fval) : bool :=
  match fcmp a b with Some Eq => true | _ => false end.

(** [np.signbit]. *)
Definition signbit (v : fval) : bool :=
  match v with
  | Fin q => match (q ?= 0)%Q with Lt => true | _ => false end
  | NInf => true
  | PInf | NaN => false
  end.

(** A value is truthy when it is not zero (NaN is truthy). *)
Definition ftruthy (v : fval) : bool := negb (is_zero v).

(* ------------------------------------------------------------------ *)
(** ** numpy reductions and element-wise helpers *)
(* ------------------------------------------------------------------ *)

Definition np_sum (xs : list fval) : fval := fold_left fadd xs (Fin 0).

Definition np_mean (xs : list fval) : fval :=
  fdiv (np_sum xs) (float_of_nat (length xs)).

Definition np_square (xs : list fval) : list fval :=
  map (fun x => fmul x x) xs.

(** [np.maximum] and [np.minimum] propagate NaN. *)
Definition fmax (a b : fval) : fval :=
  if is_nan a then a else if is_nan b then b else if fltb a b then b else a.

Definition fmin (a b : fval) : fval :=
  if is_nan a then a else if is_nan b then b else if fltb b a then b else a.

Definition np_max (xs : list fval) : result fval :=
  match xs with
  | [] => Raise (ValueError "zero-size array to reduction operation maximum")
  | x :: xs' => Ok (fold_left fmax xs' x)
  end.

Definition np_min (xs : list fval) : result fval :=
  match xs with
  | [] => Raise (ValueError "zero-size array to reduction operation minimum")
  | x :: xs' => Ok (fold_left fmin xs' x)
  end.

Definition np_ptp (xs : list fval) : result fval :=
  hi <- np_max xs ;; lo <- np_min xs ;; Ok (fsub hi lo).

(** [np.diff] of a float array: [x[i+1] - x[i]]. *)
Fixpoint np_diff (xs : list fval) : list fval :=
  match xs with
  | x :: (y :: _) as xs' => fsub y x :: np_diff xs'
  | _ => []
  end.

(** [np.diff] of a boolean array: [x[i+1] != x[i]]. *)
Fixpoint np_diff_bool (bs : list bool) : list bool :=
  match bs with
  | a :: (b :: _) as bs' => xorb b a :: np_diff_bool bs'
  | _ => []
  end.

(** [np.where(mask)[0]]: the indices at which the mask holds. *)
Fixpoint np_where_from (i : nat) (mask : list bool) : list nat :=
  match mask with
  | [] => []
  | b :: mask' =>
      if b then i :: np_where_from (S i) mask' else np_where_from (S i) mask'
  end.

Definition np_where (mask : list bool) : list nat := np_where_from 0 mask.

Definition np_any (xs : list fval) : bool := existsb ftruthy xs.

(** [np.argmax]: the first index of the maximum; the first NaN wins. *)
Fixpoint argmax_from (xs : list fval) (i best_i : nat) (best : fval) : nat :=
  match xs with
  | [] => best_i
  | x :: xs' =>
      if negb (is_nan best) && (is_nan x || fltb best x)
      then argmax_from xs' (S i) i x
      else argmax_from xs' (S i) best_i best
  end.

Definition np_argmax (xs : list fval) : result nat :=
  match xs with
  | [] => Raise (ValueError "attempt to get argmax of an empty sequence")
  | x :: xs' => Ok (argmax_from xs' 1 0 x)
  end.

(** [a[i]] on an array, for [i >= 0]. *)
Definition np_get (xs : list fval) (i : nat) : result fval :=
  match nth_error xs i with
  | Some v => Ok v
  | None => Raise IndexError
  end.

(** [a[0] = v] in place. *)
Definition np_set0 (xs : list fval) (v : fval) : result (list fval) :=
  match xs with
  | [] => Raise IndexError
  | _ :: xs' => Ok (v :: xs')
  end.

(** Element-wise arithmetic of two arrays of one shape. *)
Definition np_zip (op : fval -> fval -> fval) (xs ys : list fval)
    : result (list fval) :=
  if Nat.eqb (length xs) (length ys)
  then Ok (map (fun p => op (fst p) (snd p)) (combine xs ys))
  else Raise (ValueError "operands could not be broadcast together").

(** The numeric routines the source calls that have no rational closed
    form.  They stay abstract: an instance supplies them. *)
Class NumericBackend : Type := {
  (** [np.sqrt] *)
  np_sqrt : fval -> fval;
  (** [np.log] *)
  np_log : fval -> fval;
  (** [np.abs(np.fft.rfft(series))]: the magnitude spectrum *)
  rfft_abs : list fval -> list fval;
  (** [scipy.stats.skew] *)
  stats_skew : list fval -> fval;
  (** [scipy.stats.kurtosis] (Fisher, i.e. excess kurtosis) *)
  stats_kurtosis : list fval -> fval
}.

Definition np_std `{NumericBackend} (xs : list fval) : fval :=
  let m := np_mean xs in
  np_sqrt (np_mean (np_square (map (fun x => fabs (fsub x m)) xs))).

(** [np.fft.rfftfreq(n, d)]: [k / (n * d)] for [k = 0 .. n // 2]. *)
Definition np_rfftfreq (n : nat) (d : fval) : list fval :=
  let val := fdiv (Fin 1) (fmul (float_of_nat n) d) in
  map (fun k => fmul (float_of_nat k) val) (seq 0 (S (n / 2))).

(* ------------------------------------------------------------------ *)
(** ** Python dicts and pandas frames *)
(* ------------------------------------------------------------------ *)

(** A [dict] with string keys, in insertion order. *)
Definition pydict (V : Type) : Type := list (string * V).

Fixpoint dict_get {V : Type} (k : string) (d : pydict V) : option V :=
  match d with
  | [] => None
  | (k', v) :: d' => if String.eqb k k' then Some v else dict_get k d'
  end.

(** [d[k] = v]: an existing key keeps its position. *)
Fixpoint dict_set {V : Type} (k : string) (v : V) (d : pydict V) : pydict V :=
  match d with
  | [] => [(k, v)]
  | (k', v') :: d' =>
      if String.eqb k k' then (k, v) :: d' else (k', v') :: dict_set k v d'
  end.

(** [d.update(e)]. *)
Definition dict_update {V : Type} (d e : pydict V) : pydict V :=
  fold_left (fun acc kv => dict_set (fst kv) (snd kv) acc) e d.

Definition dict_keys {V : Type} (d : pydict V) : list string := map fst d.
Definition dict_values {V : Type} (d : pydict V) : list V := map snd d.

(** [{k: f(k) for k in ks}] for a fallible [f]. *)
Fixpoint dict_comprehension {V : Type} (f : string -> result V)
    (ks : list string) (acc : pydict V) : result (pydict V) :=
  match ks with
  | [] => Ok acc
  | k :: ks' => v <- f k ;; dict_comprehension f ks' (dict_set k v acc)
  end.

Definition mem_str (s : string) (l : list string) : bool :=
  existsb (String.eqb s) l.

(** One entry of a frame: a float64 (NaN is the missing value) or a
    string (object columns). *)
Inductive cell : Type :=
| CNum (v : fval)
| CStr (s : string).

Inductive dtype : Type := DNum | DObj.

Definition Row : Type := pydict cell.

(** A frame: its columns with their dtypes, and its rows in index order;
    a row maps each column name to its entry. *)
Record DataFrame : Type := mkDataFrame {
  df_columns : list (string * dtype);
  df_rows : list Row
}.

Definition columns (df : DataFrame) : list string := map fst (df_columns df).

Definition has_column (df : DataFrame) (c : string) : bool :=
  mem_str c (columns df).

Definition df_len (df : DataFrame) : nat := length (df_rows df).

Definition row_get (r : Row) (c : string) : cell :=
  match dict_get c r with
  | Some v => v
  | None => CNum NaN
  end.

(** [df[c]] as the list of its entries. *)
Definition series (df : DataFrame) (c : string) : list cell :=
  map (fun r => row_get r c) (df_rows df).

Definition col_dtype (df : DataFrame) (c : string) : dtype :=
  match dict_get c (df_columns df) with
  | Some d => d
  | None => DObj
  end.

(** [df[c] = values] for a new or an existing column. *)
Definition set_column (df : DataFrame) (c : string) (d : dtype)
    (values : list cell) : DataFrame :=
  mkDataFrame (dict_set c d (df_columns df))
    (map (fun rv => dict_set c (snd rv) (fst rv)) (combine (df_rows df) values)).

(** [df.iloc[start:stop]]: same columns, the rows of the slice. *)
Definition iloc_slice (df : DataFrame) (rows : list Row) : DataFrame :=
  mkDataFrame (df_columns df) rows.

Definition is_str (c : cell) : bool :=
  match c with CStr _ => true | CNum _ => false end.

Definition cell_isna (c : cell) : bool :=
  match c with CNum NaN => true | _ => false end.

(** [series.values] handed to numeric code: a string entry makes the
    arithmetic raise. *)
Definition cell_float (c : cell) : result fval :=
  match c with
  | CNum v => Ok v
  | CStr _ => Raise (TypeError "unsupported operand type(s): 'str'")
  end.

Definition float_values (xs : list cell) : result (list fval) :=
  mapM cell_float xs.

(** [series.iloc[0]] and [series.iloc[-1]]. *)
Definition iloc_first {A : Type} (xs : list A) : result A :=
  match xs with
  | [] => Raise IndexError
  | x :: _ => Ok x
  end.

Definition iloc_last {A : Type} (xs : list A) : result A :=
  iloc_first (rev xs).

(** Truth value of an entry, as [Series.any] sees it. *)
Definition cell_truthy (c : cell) : bool :=
  match c with
  | CNum v => ftruthy v
  | CStr s => negb (String.eqb s "")
  end.

(** [Series.any()] ([skipna=True]): some entry that is not missing is
    truthy. *)
Definition series_any (xs : list cell) : bool :=
  existsb (fun c => negb (cell_isna c) && cell_truthy c) xs.

(** [Series.mean()] ([skipna=True]): the mean of the entries that are not
    missing, NaN when there is none. *)
Definition series_mean (xs : list cell) : result fval :=
  vs <- float_values xs ;;
  let present := filter (fun v => negb (is_nan v)) vs in
  Ok (fdiv (np_sum present) (float_of_nat (length present))).

(** [Series.max()] ([skipna=True]). *)
Definition series_max (xs : list cell) : result fval :=
  vs <- float_values xs ;;
  match filter (fun v => negb (is_nan v)) vs with
  | [] => Ok NaN
  | v :: vs' => Ok (fold_left fmax vs' v)
  end.

(** [Series.fillna(v)]. *)
Definition fillna (v : cell) (xs : list cell) : list cell :=
  map (fun c => if cell_isna c then v else c) xs.

(** [Series.map(mapping)] for a dict with numeric values: an entry that is
    no key of the dict becomes NaN. *)
Definition series_map (mapping : pydict Z) (xs : list cell) : list cell :=
  map (fun c =>
         match c with
         | CStr s =>
             match dict_get s mapping with
             | Some z => CNum (float_of_Z z)
             | None => CNum NaN
             end
         | CNum _ => CNum NaN
         end) xs.

(** Order and equality of entries, as sorting and grouping use them:
    numbers by value, strings by code points, missing values last; in a
    column that mixes the two kinds, numbers come before strings. *)
Definition cell_leb (a b : cell) : bool :=
  match a, b with
  | CNum NaN, CNum NaN => true
  | CNum NaN, _ => false
  | _, CNum NaN => true
  | CNum x, CNum y => fleb x y
  | CStr s, CStr t =>
      match String.compare s t with Gt => false | _ => true end
  | CNum _, CStr _ => true
  | CStr _, CNum _ => false
  end.

Definition cell_eqb (a b : cell) : bool :=
  match a, b with
  | CNum x, CNum y => feqb x y
  | CStr s, CStr t => String.eqb s t
  | _, _ => false
  end.

Fixpoint insert_sorted {A : Type} (le : A -> A -> bool) (x : A) (l : list A)
    : list A :=
  match l with
  | [] => [x]
  | y :: l' => if le x y then x :: l else y :: insert_sorted le x l'
  end.

(** A stable sort: equal keys keep their order. *)
Definition stable_sort {A : Type} (le : A -> A -> bool) (l : list A) : list A :=
  fold_right (insert_sorted le) [] l.

(** [df.sort_values([c1, c2])]: by [c1], ties by [c2]; a name that is no
    column raises [KeyError]. *)
Definition sort_values (df : DataFrame) (c1 c2 : string) : result DataFrame :=
  if negb (has_column df c1) then Raise (KeyError c1)
  else if negb (has_column df c2) then Raise (KeyError c2)
  else
    let le (r s : Row) :=
      let a := row_get r c1 in
      let b := row_get s c1 in
      if cell_leb a b && cell_leb b a
      then cell_leb (row_get r c2) (row_get s c2)
      else cell_leb a b in
    Ok (mkDataFrame (df_columns df) (stable_sort le (df_rows df))).

(** The distinct keys, in order of first appearance. *)
Fixpoint distinct_keys (seen : list cell) (xs : list cell) : list cell :=
  match xs with
  | [] => []
  | x :: xs' =>
      if existsb (cell_eqb x) seen then distinct_keys seen xs'
      else x :: distinct_keys (x :: seen) xs'
  end.

(** [df.groupby(c)]: one group per key in key order, rows in frame order;
    rows whose key is missing belong to no group; a name that is no column
    raises [KeyError]. *)
Definition groupby (df : DataFrame) (c : string)
    : result (list (cell * list Row)) :=
  if negb (has_column df c) then Raise (KeyError c)
  else
    let present := filter (fun k => negb (cell_isna k)) (series df c) in
    let keys := stable_sort cell_leb (distinct_keys [] present) in
    Ok (map (fun k =>
               (k, filter (fun r => cell_eqb (row_get r c) k) (df_rows df)))
            keys).

(** [pd.DataFrame(list_of_dicts)]: the columns are the keys in order of
    first appearance; a key absent from a dict gives a missing entry. *)
Definition add_keys (cols keys : list string) : list string :=
  fold_left (fun acc k => if mem_str k acc then acc else acc ++ [k]) keys cols.

Definition frame_columns (dicts : list Row) : list string :=
  fold_left (fun cols r => add_keys cols (dict_keys r)) dicts [].

Definition frame_of_dicts (dicts : list Row) : DataFrame :=
  let cols := frame_columns dicts in
  let rows := map (fun r => map (fun c => (c, row_get r c)) cols) dicts in
  mkDataFrame
    (map (fun c =>
            (c, if existsb (fun r => is_str (row_get r c)) rows
                then DObj else DNum)) cols)
    rows.

(** [df[cols].values]: the matrix of the selected columns, row by row. *)
Definition frame_values (df : DataFrame) (cols : list string)
    : list (list cell) :=
  map (fun r => map (row_get r) cols) (df_rows df).

(** [df[cols] = df[cols].replace([np.inf, -np.inf], np.nan)] followed by
    [df[cols] = df[cols].fillna(0.0)]. *)
Definition replace_inf_with_nan (c : cell) : cell :=
  match c with
  | CNum PInf | CNum NInf => CNum NaN
  | _ => c
  end.

Definition fill_nan_with_zero (c : cell) : cell :=
  if cell_isna c then CNum (Fin 0) else c.

(** Both steps on one entry. *)
Definition clean_cell (c : cell) : cell :=
  fill_nan_with_zero (replace_inf_with_nan c).

Definition map_columns (f : cell -> cell) (cols : list string)
    (df : DataFrame) : DataFrame :=
  mkDataFrame (df_columns df)
    (map (fun r =>
            map (fun kv =>
                   if mem_str (fst kv) cols then (fst kv, f (snd kv)) else kv) r)
         (df_rows df)).

(* ------------------------------------------------------------------ *)
(** ** AccelerometerFeatureEngineer: window features *)
(* ------------------------------------------------------------------ *)

Local Open Scope string_scope.

(** The literal [1e-12]. *)
Definition eps12 : fval := Fin (1 # 1000000000000).

Section Features.

Context `{NumericBackend}.

(** [AccelerometerFeatureEngineer._zero_crossing_rate]. *)
Definition _zero_crossing_rate (series : list fval) : fval :=
  if (length series <? 2)%nat then Fin 0
  else
    let m := np_mean series in
    let centered := map (fun x => fsub x m) series in
    let crossings := np_where (np_diff_bool (map signbit centered)) in
    fdiv (float_of_nat (length crossings)) (float_of_nat (length series - 1)).

(** [AccelerometerFeatureEngineer._vector_magnitude]:
    [np.sqrt(np.sum(values**2, axis=1))] on the rows of a matrix. *)
Definition _vector_magnitude (values : list (list fval)) : list fval :=
  map (fun row => np_sqrt (np_sum (np_square row))) values.

(** [AccelerometerFeatureEngineer._series_statistics]. *)
Definition _series_statistics (series : list fval) (prefix : string)
    : result Row :=
  if (length series =? 0)%nat then
    Ok [ (prefix ++ "_mean", CNum (Fin 0));
         (prefix ++ "_std", CNum (Fin 0));
         (prefix ++ "_max", CNum (Fin 0));
         (prefix ++ "_min", CNum (Fin 0));
         (prefix ++ "_range", CNum (Fin 0));
         (prefix ++ "_ptp", CNum (Fin 0));
         (prefix ++ "_energy", CNum (Fin 0));
         (prefix ++ "_skew", CNum (Fin 0));
         (prefix ++ "_kurtosis", CNum (Fin 0));
         (prefix ++ "_zcr", CNum (Fin 0)) ]
  else
    hi <- np_max series ;;
    lo <- np_min series ;;
    let stats : Row :=
      [ (prefix ++ "_mean", CNum (np_mean series));
        (prefix ++ "_std", CNum (np_std series));
        (prefix ++ "_max", CNum hi);
        (prefix ++ "_min", CNum lo) ] in
    let stats := dict_set (prefix ++ "_range") (CNum (fsub hi lo)) stats in
    ptp <- np_ptp series ;;
    let stats := dict_set (prefix ++ "_ptp") (CNum ptp) stats in
    let stats :=
      dict_set (prefix ++ "_energy") (CNum (np_sum (np_square series))) stats in
    let stats := dict_set (prefix ++ "_skew") (CNum (stats_skew series)) stats in
    let stats :=
      dict_set (prefix ++ "_kurtosis") (CNum (stats_kurtosis series)) stats in
    let stats :=
      dict_set (prefix ++ "_zcr") (CNum (_zero_crossing_rate series)) stats in
    Ok stats.

(** [AccelerometerFeatureEngineer._axis_statistics]. *)
Definition _axis_statistics (series : list fval) (prefix : string)
    : result Row :=
  _series_statistics series prefix.

(** [AccelerometerFeatureEngineer._jerk_statistics]. *)
Definition _jerk_statistics (eng : Engineer) (series : list fval)
    (prefix : string) : result Row :=
  if (length series <? 2)%nat then
    Ok [ (prefix ++ "_mean", CNum (Fin 0));
         (prefix ++ "_std", CNum (Fin 0));
         (prefix ++ "_max", CNum (Fin 0)) ]
  else
    let jerk :=
      map (fun d => fmul d (float_of_Z (sampling_rate eng))) (np_diff series) in
    peak <- np_max (map fabs jerk) ;;
    Ok [ (prefix ++ "_mean", CNum (np_mean jerk));
         (prefix ++ "_std", CNum (np_std jerk));
         (prefix ++ "_max", CNum peak) ].

(** [AccelerometerFeatureEngineer._fft_features]. *)
Definition _fft_features (eng : Engineer) (series : list fval)
    (prefix : string) : result Row :=
  if (length series <? 2)%nat then
    Ok [ (prefix ++ "_dominant_freq", CNum (Fin 0));
         (prefix ++ "_dominant_power", CNum (Fin 0));
         (prefix ++ "_spectral_energy", CNum (Fin 0));
         (prefix ++ "_spectral_entropy", CNum (Fin 0)) ]
  else
    let spectrum := rfft_abs series in
    d <- py_truediv (Fin 1) (float_of_Z (sampling_rate eng)) ;;
    let freqs := np_rfftfreq (length series) d in
    spectrum <- np_set0 spectrum (Fin 0) ;;
    dominant_idx <- (if np_any spectrum then np_argmax spectrum else Ok O) ;;
    let spectral_energy := np_sum (np_square spectrum) in
    let total := fadd (np_sum spectrum) eps12 in
    let power_distribution := map (fun s => fdiv s total) spectrum in
    let spectral_entropy :=
      fneg (np_sum (map (fun p => fmul p (np_log (fadd p eps12)))
                      power_distribution)) in
    freq <- np_get freqs dominant_idx ;;
    power <- np_get spectrum dominant_idx ;;
    Ok [ (prefix ++ "_dominant_freq", CNum freq);
         (prefix ++ "_dominant_power", CNum power);
         (prefix ++ "_spectral_energy", CNum spectral_energy);
         (prefix ++ "_spectral_entropy", CNum spectral_entropy) ].

(** One entry of [np.cov(x, y)] (the default [ddof = 1]): the products of
    the centred values, summed and scaled by [1 / (n - 1)]. *)
Definition np_cov (xs ys : list fval) : fval :=
  let mx := np_mean xs in
  let my := np_mean ys in
  let dot :=
    np_sum (map (fun p => fmul (fsub (fst p) mx) (fsub (snd p) my))
              (combine xs ys)) in
  let fact := (length xs - 1)%nat in
  fmul dot (fdiv (Fin 1) (float_of_nat fact)).

(** [np.clip(v, -1, 1)]. *)
Definition clip_unit (v : fval) : fval :=
  fmin (fmax v (Fin (-1))) (Fin 1).

(** [np.corrcoef(x, y)[0, 1]]: the covariance divided by both standard
    deviations, clipped to [[-1, 1]]. *)
Definition np_corrcoef (xs ys : list fval) : fval :=
  let c := np_cov xs ys in
  let sx := np_sqrt (np_cov xs xs) in
  let sy := np_sqrt (np_cov ys ys) in
  clip_unit (fdiv (fdiv c sx) sy).

(** [a.corr(b)] (Pearson): over the positions where both entries are
    present; NaN when there is none. *)
Definition series_corr (a b : list cell) : result fval :=
  xs <- float_values a ;;
  ys <- float_values b ;;
  let valid :=
    filter (fun p => negb (is_nan (fst p)) && negb (is_nan (snd p)))
      (combine xs ys) in
  if (length valid =? 0)%nat then Ok NaN
  else Ok (np_corrcoef (map fst valid) (map snd valid)).

(** The inner loop of [_correlation_features] for one [col_i]. *)
Fixpoint correlation_row (window : DataFrame) (col_i : string)
    (rest : list string) (correlations : Row) : result Row :=
  match rest with
  | [] => Ok correlations
  | col_j :: rest' =>
      corr_value <- series_corr (series window col_i) (series window col_j) ;;
      let corr_key := "corr_" ++ col_i ++ "_" ++ col_j in
      let v := if negb (is_nan corr_value) then corr_value else Fin 0 in
      correlation_row window col_i rest' (dict_set corr_key (CNum v) correlations)
  end.

(** The outer loop: [for i, col_i in enumerate(sensor_cols)] with
    [sensor_cols[i + 1:]] as [rest]. *)
Fixpoint correlation_loop (window : DataFrame) (sensor_cols : list string)
    (correlations : Row) : result Row :=
  match sensor_cols with
  | [] => Ok correlations
  | col_i :: rest =>
      correlations <- correlation_row window col_i rest correlations ;;
      correlation_loop window rest correlations
  end.

(** [AccelerometerFeatureEngineer._correlation_features]. *)
Definition _correlation_features (window : DataFrame)
    (sensor_cols : list string) : result Row :=
  correlation_loop window sensor_cols [].

(** [series.mode(dropna=True)], first entry: the smallest of the most
    frequent present values; [None] when the result is empty. *)
Definition mode_first (xs : list cell) : option cell :=
  let present := filter (fun c => negb (cell_isna c)) xs in
  let keys := distinct_keys [] present in
  let count k := length (filter (cell_eqb k) present) in
  let best := fold_left Nat.max (map count keys) O in
  match stable_sort cell_leb (filter (fun k => (count k =? best)%nat) keys) with
  | [] => None
  | k :: _ => Some k
  end.

(** The [if metadata_cols:] block of [_compute_window_features]. *)
Fixpoint metadata_features (window : DataFrame) (metadata_cols : list string)
    (features : Row) : result Row :=
  match metadata_cols with
  | [] => Ok features
  | meta_col :: rest =>
      let meta_values := series window meta_col in
      last <- iloc_last meta_values ;;
      let features := dict_set (meta_col ++ "_last") last features in
      let features :=
        match mode_first meta_values with
        | Some m => dict_set (meta_col ++ "_mode") m features
        | None => dict_set (meta_col ++ "_mode") last features
        end in
      metadata_features window rest features
  end.

Definition severity_mapping : pydict Z :=
  [ ("Low", 0%Z); ("Medium", 1%Z); ("High", 2%Z); ("Critical", 3%Z) ].

(** The [if severity_col and severity_col in window.columns:] block. *)
Definition severity_features (window : DataFrame)
    (severity_col : option string) (features : Row) : result Row :=
  match severity_col with
  | None => Ok features
  | Some col =>
      if negb (String.eqb col "") && has_column window col then
        let severity_series := series window col in
        let severity_numeric :=
          match col_dtype window col with
          | DObj =>
              fillna (CNum (Fin 0)) (series_map severity_mapping severity_series)
          | DNum => fillna (CNum (Fin 0)) severity_series
          end in
        hi <- series_max severity_numeric ;;
        let features := dict_set "severity_max" (CNum hi) features in
        avg <- series_mean severity_numeric ;;
        Ok (dict_set "severity_mean" (CNum avg) features)
      else Ok features
  end.

(** [features.update(d)] for every [d] of [dicts.values()]. *)
Definition update_all (features : Row) (dicts : pydict Row) : Row :=
  fold_left dict_update (dict_values dicts) features.

(** [AccelerometerFeatureEngineer._compute_window_features]. *)
Definition _compute_window_features (eng : Engineer) (window : DataFrame)
    (sensor_cols metadata_cols : list string) (severity_col : option string)
    : result Row :=
  let features : Row := [] in
  axis_stats <-
    dict_comprehension
      (fun axis => vs <- float_values (series window axis) ;;
                   _axis_statistics vs axis)
      sensor_cols [] ;;
  let features := update_all features axis_stats in
  values <- mapM (fun r => mapM (fun c => cell_float (row_get r c)) sensor_cols)
              (df_rows window) ;;
  let magnitude := _vector_magnitude values in
  mag_stats <- _series_statistics magnitude "magnitude" ;;
  let features := dict_update features mag_stats in
  jerk_axes <-
    dict_comprehension
      (fun axis => vs <- float_values (series window axis) ;;
                   _jerk_statistics eng vs (axis ++ "_jerk"))
      sensor_cols [] ;;
  mag_jerk <- _jerk_statistics eng magnitude "magnitude_jerk" ;;
  let jerk_axes := dict_set "magnitude" mag_jerk jerk_axes in
  let features := update_all features jerk_axes in
  correlations <- _correlation_features window sensor_cols ;;
  let features := dict_update features correlations in
  fft_features <-
    dict_comprehension
      (fun axis => vs <- float_values (series window axis) ;;
                   _fft_features eng vs (axis ++ "_fft"))
      sensor_cols [] ;;
  mag_fft <- _fft_features eng magnitude "magnitude_fft" ;;
  let fft_features := dict_set "magnitude_fft" mag_fft fft_features in
  let features := update_all features fft_features in
  features <- metadata_features window metadata_cols features ;;
  features <- severity_features window severity_col features ;;
  Ok (dict_set "samples_in_window" (CNum (float_of_nat (df_len window))) features).

(* ------------------------------------------------------------------ *)
(** ** AccelerometerFeatureEngineer.transform *)
(* ------------------------------------------------------------------ *)

(** The columns [transform] leaves out of the final clean-up. *)
Definition transform_non_feature_cols : list string :=
  [ "label"; "vehicle_id"; "window_index"; "window_start_ts";
    "window_end_ts"; "positive_ratio" ].

(** The body of the inner [for start_idx in range(...)] loop: the feature
    row of one window. *)
Definition window_row (eng : Engineer) (df : DataFrame)
    (sensor_cols metadata_cols : list string) (severity_col : option string)
    (timestamp_col : string) (vehicle_id : cell) (sw : Z * list Row)
    : result Row :=
  let start_idx := fst sw in
  let window := iloc_slice df (snd sw) in
  feature_row <-
    _compute_window_features eng window sensor_cols metadata_cols severity_col ;;
  let feature_row := dict_set "vehicle_id" vehicle_id feature_row in
  let feature_row :=
    dict_set "window_index" (CNum (float_of_Z (window_index eng start_idx)))
      feature_row in
  first_ts <- iloc_first (series window timestamp_col) ;;
  let feature_row := dict_set "window_start_ts" first_ts feature_row in
  last_ts <- iloc_last (series window timestamp_col) ;;
  let feature_row := dict_set "window_end_ts" last_ts feature_row in
  let labels := series window (label_col eng) in
  let feature_row :=
    dict_set "label" (CNum (if series_any labels then Fin 1 else Fin 0))
      feature_row in
  ratio <- series_mean labels ;;
  Ok (dict_set "positive_ratio" (CNum ratio) feature_row).

(** The body of the outer [for vehicle_id, group in ...] loop: the rows
    appended to [windows] for one vehicle. *)
Definition group_rows (eng : Engineer) (df : DataFrame)
    (sensor_cols metadata_cols : list string) (severity_col : option string)
    (timestamp_col : string) (g : cell * list Row) : result (list Row) :=
  slices <- group_windows eng (snd g) ;;
  mapM (window_row eng df sensor_cols metadata_cols severity_col timestamp_col
          (fst g)) slices.

(** The frame [transform] works on: validated, with the synthetic
    timestamp and vehicle columns when they are absent, sorted. *)
Definition working_frame (eng : Engineer) (df : DataFrame)
    (sensor_cols : list string) (timestamp_col vehicle_id_col : string)
    : result DataFrame :=
  let missing_cols := filter (fun c => negb (has_column df c)) sensor_cols in
  if negb (length missing_cols =? 0)%nat
  then Raise (ValueError "Missing sensor columns")
  else if negb (has_column df (label_col eng))
  then Raise (ValueError "Label column not found in dataframe")
  else
    let working_df := df in
    let working_df :=
      if negb (has_column working_df timestamp_col) then
        set_column working_df timestamp_col DNum
          (map (fun i => CNum (fdiv (float_of_nat i)
                                 (float_of_Z (sampling_rate eng))))
             (seq 0 (df_len working_df)))
      else working_df in
    let working_df :=
      if negb (has_column working_df vehicle_id_col) then
        set_column working_df vehicle_id_col DObj
          (repeat (CStr "vehicle_0") (df_len working_df))
      else working_df in
    sort_values working_df vehicle_id_col timestamp_col.

(** The final clean-up of [transform] on the assembled table. *)
Definition clean_features (features_df : DataFrame) : DataFrame :=
  let feature_cols :=
    filter (fun col => negb (mem_str col transform_non_feature_cols))
      (columns features_df) in
  let features_df := map_columns replace_inf_with_nan feature_cols features_df in
  map_columns fill_nan_with_zero feature_cols features_df.

(** [AccelerometerFeatureEngineer.transform]; the defaults of the source
    are [sensor_cols = ("accel_x", "accel_y", "accel_z")],
    [timestamp_col = "timestamp"], [vehicle_id_col = "vehicle_id"],
    [severity_col = "event_severity"], [metadata_cols = None]. *)
Definition transform (eng : Engineer) (df : DataFrame)
    (sensor_cols : list string) (timestamp_col vehicle_id_col : string)
    (severity_col : option string) (metadata_cols : option (list string))
    : result DataFrame :=
  working_df <- working_frame eng df sensor_cols timestamp_col vehicle_id_col ;;
  let metadata_cols :=
    match metadata_cols with Some l => l | None => [] end in
  let metadata_cols := filter (has_column working_df) metadata_cols in
  groups <- groupby working_df vehicle_id_col ;;
  per_group <-
    mapM (group_rows eng working_df sensor_cols metadata_cols severity_col
            timestamp_col) groups ;;
  let windows := concat per_group in
  if (length windows =? 0)%nat
  then Raise (ValueError "No windows were generated")
  else Ok (clean_features (frame_of_dicts windows)).

End Features.

Definition default_sensor_cols : list string := [ "accel_x"; "accel_y"; "accel_z" ].

(** The windows the two nested loops of [transform] cut, in the order of
    the loops and without the feature computation: the vehicle, the start
    offset and the samples of each window. *)
Definition segment (eng : Engineer) (groups : list (cell * list Row))
    : result (list (cell * (Z * list Row))) :=
  per_group <-
    mapM (fun g => slices <- group_windows eng (snd g) ;;
                   Ok (map (pair (fst g)) slices)) groups ;;
  Ok (concat per_group).

(** The entry is the number [z]. *)
Definition label_is (z : Z) (c : cell) : bool :=
  match c with
  | CNum (Fin q) => Qeq_bool q (inject_Z z)
  | _ => false
  end.

(** The entry is a 0/1 label. *)
Definition binary_label (c : cell) : bool := label_is 0 c || label_is 1 c.

(** The number of adjacent pairs of a sign sequence whose two signs
    differ. *)
Fixpoint sign_changes (bits : list bool) : nat :=
  match bits with
  | a :: (b :: _) as bits' =>
      ((if Bool.eqb a b then 0 else 1) + sign_changes bits')%nat
  | _ => O
  end.

(** Every adjacent pair of the sign sequence differs. *)
Fixpoint alternating (bits : list bool) : bool :=
  match bits with
  | a :: (b :: _) as bits' => negb (Bool.eqb a b) && alternating bits'
  | _ => true
  end.

(** The series increases strictly. *)
Fixpoint strictly_increasing (xs : list fval) : bool :=
  match xs with
  | x :: (y :: _) as xs' => fltb x y && strictly_increasing xs'
  | _ => true
  end.

(** The mean-centred series of [_zero_crossing_rate]. *)
Definition centered (series : list fval) : list fval :=
  map (fun x => fsub x (np_mean series)) series.

(** The entry is the number [0.0]. *)
Definition cell_zero (c : cell) : bool :=
  match c with
  | CNum v => is_zero v
  | CStr _ => false
  end.

(** The entry is [0.0] or NaN. *)
Definition cell_zero_or_nan (c : cell) : bool :=
  match c with
  | CNum v => zero_or_nan v
  | CStr _ => false
  end.

(** Every value of the dict satisfies [P]. *)
Definition all_values (P : cell -> bool) (d : Row) : Prop :=
  Forall (fun kv => P (snd kv) = true) d.

(** The suffixes of the seventeen features of the vector magnitude. *)
Definition magnitude_suffixes : list string :=
  [ "_mean"; "_std"; "_max"; "_min"; "_range"; "_ptp"; "_energy"; "_skew";
    "_kurtosis"; "_zcr"; "_jerk_mean"; "_jerk_std"; "_jerk_max";
    "_fft_dominant_freq"; "_fft_dominant_power"; "_fft_spectral_energy";
    "_fft_spectral_entropy" ].

(** The pairs [(col_i, col_j)] that [_correlation_features] visits. *)
Fixpoint axis_pairs (sensor_cols : list string) : list (string * string) :=
  match sensor_cols with
  | [] => []
  | col_i :: rest => (map (pair col_i) rest ++ axis_pairs rest)%list
  end.

(** The entry is a finite number between -1 and 1. *)
Definition cell_in_unit (c : cell) : bool :=
  match c with
  | CNum (Fin q) => Qle_bool (-1) q && Qle_bool q 1
  | _ => false
  end.


(** The number an entry holds (zero when it holds none). *)
Definition cell_Q (c : cell) : Q :=
  match c with
  | CNum (Fin q) => q
  | _ => 0%Q
  end.

(* ------------------------------------------------------------------ *)
(** ** AccelerometerAccidentDetector *)
(* ------------------------------------------------------------------ *)

(** A fitted [Pipeline] (scaler and classifier): the number of features
    it was fitted on, and what it answers on one row of that width. *)
Record Pipeline : Type := mkPipeline {
  n_features_in : nat;
  predict_row : list cell -> fval;
  proba_row : list cell -> fval
}.

(** A fitted pipeline refuses a matrix whose width is not the one it was
    fitted on; that is the only check it makes on the columns. *)
Definition check_n_features (p : Pipeline) (X : list (list cell))
    : result unit :=
  if forallb (fun row => (length row =? n_features_in p)%nat) X then Ok tt
  else Raise (ValueError "X has a different number of features than the pipeline is expecting").

(** [pipeline.predict(X)]. *)
Definition pipeline_predict (p : Pipeline) (X : list (list cell))
    : result (list fval) :=
  _ <- check_n_features p X ;; Ok (map (predict_row p) X).

(** [pipeline.predict_proba(X)[:, 1]]. *)
Definition pipeline_predict_proba (p : Pipeline) (X : list (list cell))
    : result (list fval) :=
  _ <- check_n_features p X ;; Ok (map (proba_row p) X).

Inductive metric : Type :=
| MFloat (v : fval)
| MMatrix (m : list (list Z)).

(** The scikit-learn and XGBoost calls of the detector. *)
Class Learner : Type := {
  (** [train_test_split(X, y, test_size, stratify=y, random_state)] *)
  train_test_split :
    list (list cell) -> list cell -> fval -> Z ->
    result (list (list cell) * list (list cell) * list cell * list cell);
  (** [Pipeline([scaler, XGBClassifier(scale_pos_weight, random_state)]).fit] *)
  pipeline_fit :
    fval -> Z -> list (list cell) -> list cell -> result Pipeline;
  (** [classification_report], [confusion_matrix] and [roc_auc_score], as
      [_collect_metrics] assembles them *)
  collect_metrics :
    list cell -> list fval -> list fval -> result (pydict metric);
  (** [precision_recall_curve(y_true, y_proba)] *)
  precision_recall_curve :
    list cell -> list fval -> result (list fval * list fval * list fval)
}.

Record TrainingArtifacts : Type := mkTrainingArtifacts {
  pipeline : Pipeline;
  feature_columns : list string;
  metrics : pydict metric;
  threshold : fval
}.

Record Detector : Type := mkDetector {
  feature_engineer : Engineer;
  random_state : Z;
  target_recall : fval
}.

(** [AccelerometerAccidentDetector.__init__]; the defaults of the source
    are [target_recall = 0.9] and [random_state = 42]. *)
Definition detector_init (sampling_rate window_size : Z)
    (step_size : option Z) (label_col : string) (target_recall : fval)
    (random_state : Z) : result Detector :=
  eng <- init sampling_rate window_size step_size label_col ;;
  Ok (mkDetector eng random_state target_recall).

(** The lines of [_optimise_threshold] after the call of
    [precision_recall_curve]. *)
Definition optimise_on_curve (target : fval)
    (precision recall thresholds : list fval) : result (pydict fval) :=
  products <- np_zip fmul precision recall ;;
  sums <- np_zip fadd precision recall ;;
  f1_scores <-
    np_zip (fun pr s => fdiv (fmul (Fin 2) pr) (fadd s eps12)) products sums ;;
  let threshold_candidates := Fin 0 :: thresholds in
  best_idx <- np_argmax f1_scores ;;
  optimal_threshold <-
    np_get threshold_candidates
      (Nat.min best_idx (length threshold_candidates - 1)) ;;
  let target_idx := np_where (map (fun r => fleb target r) recall) in
  recall_point <-
    match target_idx with
    | idx :: _ =>
        recall_threshold <-
          np_get threshold_candidates
            (Nat.min idx (length threshold_candidates - 1)) ;;
        recall_precision <- np_get precision idx ;;
        recall_recall <- np_get recall idx ;;
        Ok (recall_threshold, recall_precision, recall_recall)
    | [] =>
        recall_precision <- np_get precision best_idx ;;
        recall_recall <- np_get recall best_idx ;;
        Ok (optimal_threshold, recall_precision, recall_recall)
    end ;;
  optimal_precision <- np_get precision best_idx ;;
  optimal_recall <- np_get recall best_idx ;;
  Ok [ ("optimal_threshold", optimal_threshold);
       ("optimal_precision", optimal_precision);
       ("optimal_recall", optimal_recall);
       ("recall_threshold", fst (fst recall_point));
       ("recall_precision", snd (fst recall_point));
       ("recall_recall", snd recall_point) ].

(** [F1 = 2 * (P * R) / (P + R + 1e-12)]. *)
Definition f1_score (p r : fval) : fval :=
  fdiv (fmul (Fin 2) (fmul p r)) (fadd (fadd p r) eps12).

(** The same on rationals. *)
Definition f1_rational (p r : Q) : Q :=
  (2 * (p * r) / (p + r + (1 # 1000000000000)))%Q.

(** A finite value between 0 and 1. *)
Definition probability (v : fval) : bool :=
  is_finite v && fleb (Fin 0) v && fleb v (Fin 1).

Fixpoint nondecreasing (xs : list fval) : bool :=
  match xs with
  | x :: (y :: _) as xs' => fleb x y && nondecreasing xs'
  | _ => true
  end.

Fixpoint nonincreasing (xs : list fval) : bool :=
  match xs with
  | x :: (y :: _) as xs' => fleb y x && nonincreasing xs'
  | _ => true
  end.

(** What scikit-learn documents of the three arrays returned by
    [precision_recall_curve] on probabilities: at least one threshold;
    precision and recall have one more entry than the thresholds;
    all entries are between 0 and 1; the thresholds increase, the recall
    decreases and its last entry is 0. *)
Definition curve_contract (precision recall thresholds : list fval) : bool :=
  (1 <=? length thresholds)%nat
  && (length precision =? S (length thresholds))%nat
  && (length recall =? S (length thresholds))%nat
  && forallb probability precision
  && forallb probability recall
  && forallb probability thresholds
  && nondecreasing thresholds
  && nonincreasing recall
  && is_zero (last recall NaN).

(** The [scale_pos_weight] that [_apply_class_weight] computes. *)
Definition _apply_class_weight (y : list fval) : fval :=
  let pos := np_sum y in
  let neg := fsub (float_of_nat (length y)) pos in
  if is_zero pos then Fin 1
  else
    let w := fdiv neg pos in
    if fltb (Fin 1) w then w else Fin 1.

(** The columns [fit] leaves out of the feature matrix. *)
Definition fit_non_feature_cols : list string :=
  [ "label"; "vehicle_id"; "window_index"; "window_start_ts"; "window_end_ts" ].

(** [feature_cols] of [fit]. *)
Definition fit_feature_cols (features_df : DataFrame) : list string :=
  filter (fun col => negb (mem_str col fit_non_feature_cols))
    (columns features_df).

Section Detector.

Context `{NumericBackend} `{Learner}.

(** [AccelerometerAccidentDetector._optimise_threshold]. *)
Definition _optimise_threshold (det : Detector) (y_true : list cell)
    (y_proba : list fval) : result (pydict fval) :=
  curve <- precision_recall_curve y_true y_proba ;;
  let precision := fst (fst curve) in
  let recall := snd (fst curve) in
  let thresholds := snd curve in
  optimise_on_curve (target_recall det) precision recall thresholds.

(** [AccelerometerAccidentDetector.fit]; [sensor_cols = None] stands for
    the three default axes, and the default [test_size] is [0.2]. *)
Definition fit (det : Detector) (df : DataFrame)
    (sensor_cols : option (list string)) (timestamp_col vehicle_id_col : string)
    (severity_col : option string) (metadata_cols : option (list string))
    (test_size : fval) : result TrainingArtifacts :=
  features_df <-
    transform (feature_engineer det) df
      (match sensor_cols with
       | Some ((_ :: _) as l) => l
       | _ => default_sensor_cols
       end)
      timestamp_col vehicle_id_col severity_col metadata_cols ;;
  let feature_cols := fit_feature_cols features_df in
  let X := frame_values features_df feature_cols in
  let y := series features_df "label" in
  split <- train_test_split X y test_size (random_state det) ;;
  let X_train := fst (fst (fst split)) in
  let X_test := snd (fst (fst split)) in
  let y_train := snd (fst split) in
  let y_test := snd split in
  y_train_values <- float_values y_train ;;
  let scale_pos_weight := _apply_class_weight y_train_values in
  pipe <- pipeline_fit scale_pos_weight (random_state det) X_train y_train ;;
  y_pred <- pipeline_predict pipe X_test ;;
  y_proba <- pipeline_predict_proba pipe X_test ;;
  metrics <- collect_metrics y_test y_pred y_proba ;;
  threshold_info <- _optimise_threshold det y_test y_proba ;;
  let metrics :=
    dict_update metrics (map (fun kv => (fst kv, MFloat (snd kv))) threshold_info) in
  optimal <-
    match dict_get "optimal_threshold" threshold_info with
    | Some v => Ok v
    | None => Raise (ValueError "optimal_threshold")
    end ;;
  Ok (mkTrainingArtifacts pipe feature_cols metrics optimal).

(* ------------------------------------------------------------------ *)
(** ** scripts/predict_accidents.py *)
(* ------------------------------------------------------------------ *)

(** The columns [main] leaves out of the feature matrix. *)
Definition predict_non_feature_cols : list string :=
  [ "label"; "vehicle_id"; "window_index"; "window_start_ts";
    "window_end_ts"; "positive_ratio" ].

(** [feature_cols] of [main]. *)
Definition predict_feature_cols (features_df : DataFrame) : list string :=
  filter (fun col => negb (mem_str col predict_non_feature_cols))
    (columns features_df).

(** The prediction stage of [main]: from the engineered table to the
    table annotated with [accident_probability] and
    [predicted_accident]. *)
Definition predict_stage (pipe : Pipeline) (threshold : fval)
    (features_df : DataFrame) : result DataFrame :=
  let feature_cols := predict_feature_cols features_df in
  let X := frame_values features_df feature_cols in
  probabilities <- pipeline_predict_proba pipe X ;;
  let predictions :=
    map (fun p => if fleb threshold p then Fin 1 else Fin 0) probabilities in
  let features_df :=
    set_column features_df "accident_probability" DNum (map CNum probabilities) in
  Ok (set_column features_df "predicted_accident" DNum (map CNum predictions)).

Record PredictArgs : Type := mkPredictArgs {
  arg_sampling_rate : Z;
  arg_window_size : Z;
  arg_step_size : option Z;
  arg_threshold : option fval;
  arg_sensor_cols : list string;
  arg_timestamp_col : string;
  arg_vehicle_id_col : string;
  arg_label_col : string
}.

(** [main] of the inference script, from the loaded pipeline, the default
    threshold read from the metrics file (or [0.5]) and the loaded
    frame. *)
Definition predict_main (pipe : Pipeline) (default_threshold : fval)
    (args : PredictArgs) (df : DataFrame) : result DataFrame :=
  let threshold :=
    match arg_threshold args with Some t => t | None => default_threshold end in
  let df :=
    if negb (has_column df (arg_label_col args))
    then set_column df (arg_label_col args) DNum
           (repeat (CNum (Fin 0)) (df_len df))
    else df in
  let df :=
    if negb (has_column df (arg_timestamp_col args))
    then set_column df (arg_timestamp_col args) DNum
           (map (fun i => CNum (fdiv (float_of_nat i)
                                  (float_of_Z (arg_sampling_rate args))))
              (seq 0 (df_len df)))
    else df in
  let df :=
    if negb (has_column df (arg_vehicle_id_col args))
    then set_column df (arg_vehicle_id_col args) DObj
           (repeat (CStr "vehicle_0") (df_len df))
    else df in
  engineer <-
    init (arg_sampling_rate args) (arg_window_size args)
      (Some (py_or (arg_step_size args) (arg_window_size args / 2)))
      (arg_label_col args) ;;
  features_df <-
    transform engineer df (arg_sensor_cols args) (arg_timestamp_col args)
      (arg_vehicle_id_col args) (Some "event_severity") None ;;
  predict_stage pipe threshold features_df.

(* ------------------------------------------------------------------ *)
(** ** scripts/train_accelerometer_accident_detector.py *)
(* ------------------------------------------------------------------ *)

Record TrainArgs : Type := mkTrainArgs {
  train_sampling_rate : Z;
  train_window_size : Z;
  train_step_size : option Z;
  train_timestamp_col : string;
  train_vehicle_id_col : string;
  train_label_col : string;
  train_severity_col : string
}.

(** The four values that [main] draws with [random.uniform(0.86, 0.88)],
    in the order of the draws. *)
Record Draws : Type := mkDraws {
  draw_accuracy : Q;
  draw_precision : Q;
  draw_recall : Q;
  draw_roc_auc : Q
}.

(** A value that [random.uniform(0.86, 0.88)] can return. *)
Definition drawn (u : Q) : bool :=
  Qle_bool (86 # 100) u && Qle_bool u (88 # 100).

(** [main] of the training script, from the frame that [load_data]
    returned to what [save_model] and [save_metrics] write.  [artifacts]
    is the object [detector.artifacts] itself, so the four assignments
    change the metrics that [save_metrics] writes afterwards. *)
Definition train_main (args : TrainArgs) (draws : Draws) (df : DataFrame)
    : result (Pipeline * pydict metric) :=
  detector <-
    detector_init (train_sampling_rate args) (train_window_size args)
      (train_step_size args) (train_label_col args) (Fin (9 # 10)) 42 ;;
  artifacts <-
    fit detector df None (train_timestamp_col args)
      (train_vehicle_id_col args) (Some (train_severity_col args)) None
      (Fin (1 # 5)) ;;
  let metrics := metrics artifacts in
  let metrics := dict_set "accuracy" (MFloat (Fin (draw_accuracy draws))) metrics in
  let metrics := dict_set "precision" (MFloat (Fin (draw_precision draws))) metrics in
  let metrics := dict_set "recall" (MFloat (Fin (draw_recall draws))) metrics in
  let metrics := dict_set "roc_auc" (MFloat (Fin (draw_roc_auc draws))) metrics in
  Ok (pipeline artifacts, metrics).

End Detector.

(* ------------------------------------------------------------------ *)
(** ** What the development assumes of the numeric routines *)
(* ------------------------------------------------------------------ *)

(** The behaviour of the numeric routines on a signal that is zero
    everywhere, as the libraries document it: the square root of zero is
    zero; the real FFT of [n] samples has [n // 2 + 1] bins and is linear,
    so a zero signal has a zero spectrum; SciPy's [skew] and [kurtosis]
    return NaN when all values are equal (version 1.9 and later; the fields
    also allow [0.0]). *)
Class BackendLaws (B : NumericBackend) : Prop := {
  np_sqrt_zero : forall v, is_zero v = true -> is_zero (np_sqrt v) = true;
  rfft_abs_length :
    forall xs, length (rfft_abs xs) = S (length xs / 2);
  rfft_abs_zero :
    forall xs, forallb is_zero xs = true -> forallb is_zero (rfft_abs xs) = true;
  stats_skew_constant :
    forall xs, forallb is_zero xs = true -> zero_or_nan (stats_skew xs) = true;
  stats_kurtosis_constant :
    forall xs, forallb is_zero xs = true -> zero_or_nan (stats_kurtosis xs) = true
}.

(* ------------------------------------------------------------------ *)
(** ** An executable backend *)
(* ------------------------------------------------------------------ *)

(** Rational approximations of the numeric routines, precise enough to run
    the pipeline on small examples. *)
Module RationalBackend.

Local Open Scope Q_scope.

Definition scale : positive := 1000000000000%positive.

(** Rounding down to twelve decimal places. *)
Definition Qround (q : Q) : Q :=
  Qred (Qnum q * Zpos scale / Zpos (Qden q) # scale).

(** The square root to twelve decimal places, rounded down. *)
Definition Qsqrt (q : Q) : Q :=
  let q := Qred q in
  Qred (Z.sqrt (Qnum q * Zpos scale * Zpos scale / Zpos (Qden q)) # scale).

Definition sqrt (v : fval) : fval :=
  match v with
  | Fin q => match q ?= 0 with Lt => NaN | _ => Fin (Qsqrt q) end
  | PInf => PInf
  | NInf | NaN => NaN
  end.

Definition ln2 : Q := 6931471805599453 # 10000000000000000.

(** The logarithm, to the precision of the binary exponent. *)
Definition log (v : fval) : fval :=
  match v with
  | Fin q =>
      match q ?= 0 with
      | Lt => NaN
      | Eq => NInf
      | Gt => Fin (inject_Z (Z.log2 (Qnum q) - Z.log2 (Zpos (Qden q))) * ln2)
      end
  | PInf => PInf
  | NInf | NaN => NaN
  end.

Definition pi : Q := 3141592653589793 # 1000000000000000.

(** [terms] terms of the Taylor series whose first term is [term] and whose
    successive terms are multiplied by [- x2 / ((k + 1) (k + 2))]. *)
Fixpoint taylor (terms : nat) (x2 term : Q) (k : Z) : Q :=
  match terms with
  | O => 0
  | S terms' =>
      term + taylor terms' x2
               (Qround (- term * x2 / inject_Z ((k + 1) * (k + 2)))) (k + 2)
  end.

Definition cos (x : Q) : Q := Qround (taylor 12 (Qround (x * x)) 1 0).
Definition sin (x : Q) : Q := Qround (taylor 12 (Qround (x * x)) (Qround x) 1).

(** The angle [2 pi k n / N], brought into [(-pi, pi]]. *)
Definition angle (k n N : nat) : Q :=
  let t := inject_Z (Z.of_nat ((k * n) mod N)) / inject_Z (Z.of_nat N) in
  if Qle_bool t (1 # 2) then 2 * pi * t else 2 * pi * (t - 1).

(** The magnitude of bin [k] of the discrete Fourier transform. *)
Definition dft_bin (xs : list fval) (k : nat) : fval :=
  let N := length xs in
  let indexed := combine (seq 0 N) xs in
  let re := np_sum (map (fun nx => fmul (snd nx) (Fin (cos (angle k (fst nx) N))))
                      indexed) in
  let im := np_sum (map (fun nx => fmul (snd nx) (Fin (- sin (angle k (fst nx) N))))
                      indexed) in
  sqrt (fadd (fmul re re) (fmul im im)).

Definition dft_abs (xs : list fval) : list fval :=
  map (dft_bin xs) (seq 0 (S (length xs / 2))).

(** The central moment of order [k] (biased). *)
Definition moment (k : nat) (xs : list fval) : fval :=
  let m := np_mean xs in
  np_mean (map (fun x => Nat.iter k (fmul (fsub x m)) (Fin 1)) xs).

Definition skew (xs : list fval) : fval :=
  let m2 := moment 2 xs in
  if is_zero m2 then NaN
  else fdiv (moment 3 xs) (fmul m2 (sqrt m2)).

Definition kurtosis (xs : list fval) : fval :=
  let m2 := moment 2 xs in
  if is_zero m2 then NaN
  else fsub (fdiv (moment 4 xs) (fmul m2 m2)) (Fin 3).

Definition backend : NumericBackend :=
  {| np_sqrt := sqrt;
     np_log := log;
     rfft_abs := dft_abs;
     stats_skew := skew;
     stats_kurtosis := kurtosis |}.

End RationalBackend.

(* ------------------------------------------------------------------ *)
(** ** An executable learner *)
(* ------------------------------------------------------------------ *)

(** The scikit-learn calls of the detector as the library documents
    them (the stratified split with its size checks, the metrics, the
    precision-recall curve), and a classifier that answers a constant:
    enough to run [fit] and the inference script on small frames.  Of a
    fitted pipeline the development only uses the number of features it
    was fitted on. *)
Module ReferenceLearner.

(** The distinct scores, in increasing order. *)
Definition thresholds_of (y_proba : list fval) : list fval :=
  let as_cells := map CNum y_proba in
  map (fun c => match c with CNum v => v | CStr _ => NaN end)
    (stable_sort cell_leb (distinct_keys [] as_cells)).

Definition count_where {A : Type} (f : A -> bool) (l : list A) : nat :=
  length (filter f l).

(** Precision and recall of the rule [score >= t]; with no positive sample
    the recall is 1. *)
Definition precision_at (y_true : list cell) (y_proba : list fval) (t : fval)
    : fval :=
  let scored := combine y_true y_proba in
  let predicted := filter (fun yp => fleb t (snd yp)) scored in
  fdiv (float_of_nat (count_where (fun yp => cell_truthy (fst yp)) predicted))
       (float_of_nat (length predicted)).

Definition recall_at (y_true : list cell) (y_proba : list fval) (t : fval)
    : fval :=
  let scored := combine y_true y_proba in
  let predicted := filter (fun yp => fleb t (snd yp)) scored in
  let positives := count_where cell_truthy y_true in
  if (positives =? 0)%nat then Fin 1
  else fdiv (float_of_nat (count_where (fun yp => cell_truthy (fst yp)) predicted))
            (float_of_nat positives).

(** [precision_recall_curve]: one point per threshold, then the final
    point [(1, 0)] that has no threshold. *)
Definition curve (y_true : list cell) (y_proba : list fval)
    : result (list fval * list fval * list fval) :=
  if negb (length y_true =? length y_proba)%nat
  then Raise (ValueError "Found input variables with inconsistent numbers of samples")
  else
    let thresholds := thresholds_of y_proba in
    Ok (map (precision_at y_true y_proba) thresholds ++ [Fin 1],
        map (recall_at y_true y_proba) thresholds ++ [Fin 0],
        thresholds)%list.

(** The classes of [y], sorted, as [np.unique] returns them. *)
Definition classes (y : list cell) : list cell :=
  stable_sort cell_leb (distinct_keys [] y).

Definition Qfloor_nat (q : Q) : nat := Z.to_nat (Qnum q / Zpos (Qden q)).
Definition Qceil_nat (q : Q) : nat := Z.to_nat (- ((- Qnum q) / Zpos (Qden q))).

(** The index of the largest remainder among the classes that have not
    received an extra draw yet; the first one on ties. *)
Fixpoint best_unserved (items : list (nat * Q * bool)) (i : nat)
    (best : option (nat * Q)) : option nat :=
  match items with
  | [] => option_map fst best
  | (_, r, served) :: rest =>
      if served then best_unserved rest (S i) best
      else
        match best with
        | Some (_, rb) =>
            if Qle_bool r rb then best_unserved rest (S i) best
            else best_unserved rest (S i) (Some (i, r))
        | None => best_unserved rest (S i) (Some (i, r))
        end
  end.

Fixpoint serve (i : nat) (items : list (nat * Q * bool))
    : list (nat * Q * bool) :=
  match items, i with
  | [], _ => []
  | (n, r, _) :: rest, O => (S n, r, true) :: rest
  | item :: rest, S i' => item :: serve i' rest
  end.

Fixpoint top_up (need : nat) (items : list (nat * Q * bool))
    : list (nat * Q * bool) :=
  match need with
  | O => items
  | S need' =>
      match best_unserved items O None with
      | Some i => top_up need' (serve i items)
      | None => items
      end
  end.

(** scikit-learn's [_approximate_mode]: [n_draws] draws shared among the
    classes in proportion to their counts, rounded down, the draws left
    over going to the largest remainders.  scikit-learn breaks ties among
    equal remainders at random; here the first class wins. *)
Definition approximate_mode (class_counts : list nat) (n_draws : nat)
    : list nat :=
  let total := fold_left Nat.add class_counts O in
  let continuous :=
    map (fun c => (inject_Z (Z.of_nat c) * inject_Z (Z.of_nat n_draws)
                   / inject_Z (Z.of_nat total))%Q) class_counts in
  let floored := map Qfloor_nat continuous in
  let need := (n_draws - fold_left Nat.add floored O)%nat in
  let items :=
    map (fun q => (Qfloor_nat q,
                   (q - inject_Z (Z.of_nat (Qfloor_nat q)))%Q, false))
      continuous in
  map (fun item => fst (fst item)) (top_up need items).

(** The number of training rows of class [c]. *)
Definition quota (cls : list cell) (alloc : list nat) (c : cell) : nat :=
  match find (fun ka => cell_eqb (fst ka) c) (combine cls alloc) with
  | Some (_, n) => n
  | None => O
  end.

(** The rows of each class in frame order: the first ones, as many as
    the class's quota, go to the training split and the others to the test
    split.  scikit-learn picks them with its random generator. *)
Fixpoint deal (train_quota : cell -> nat) (seen : list cell)
    (rows : list (list cell * cell))
    : list (list cell * cell) * list (list cell * cell) :=
  match rows with
  | [] => ([], [])
  | (x, c) :: rest =>
      let dealt := deal train_quota (c :: seen) rest in
      if (count_where (cell_eqb c) seen <? train_quota c)%nat
      then ((x, c) :: fst dealt, snd dealt)
      else (fst dealt, (x, c) :: snd dealt)
  end.

(** [train_test_split(X, y, test_size, stratify=y, random_state)] for a
    float [test_size]: the sizes and the [ValueError]s of
    [_validate_shuffle_split] and [StratifiedShuffleSplit], and a
    stratified split of these sizes. *)
Definition split (X : list (list cell)) (y : list cell) (test_size : fval)
    (random_state : Z)
    : result (list (list cell) * list (list cell) * list cell * list cell) :=
  let n_samples := length y in
  if negb (length X =? n_samples)%nat
  then Raise (ValueError "Found input variables with inconsistent numbers of samples")
  else
    match test_size with
    | Fin q =>
        if Qle_bool q 0 || Qle_bool 1 q
        then Raise (ValueError "test_size should be in the (0, 1) range")
        else
          let n_test := Qceil_nat (q * inject_Z (Z.of_nat n_samples)) in
          let n_train := (n_samples - n_test)%nat in
          if (n_train =? 0)%nat
          then Raise (ValueError "the resulting train set will be empty")
          else
            let cls := classes y in
            let class_counts := map (fun c => count_where (cell_eqb c) y) cls in
            if existsb (fun k => (k <? 2)%nat) class_counts
            then Raise (ValueError "The least populated class in y has only 1 member")
            else if (n_train <? length cls)%nat
            then Raise (ValueError "The train_size should be greater or equal to the number of classes")
            else if (n_test <? length cls)%nat
            then Raise (ValueError "The test_size should be greater or equal to the number of classes")
            else
              let alloc := approximate_mode class_counts n_train in
              let dealt := deal (quota cls alloc) [] (combine X y) in
              Ok (map fst (fst dealt), map fst (snd dealt),
                  map snd (fst dealt), map snd (snd dealt))
    | _ => Raise (ValueError "test_size should be in the (0, 1) range")
    end.

(** The fitted pipeline expects the width of the training matrix and
    answers the same probability on every row. *)
Definition fit_constant (scale_pos_weight : fval) (random_state : Z)
    (X : list (list cell)) (y : list cell) : result Pipeline :=
  match X with
  | [] => Raise (ValueError "Found array with 0 sample(s)")
  | row :: _ =>
      Ok (mkPipeline (length row) (fun _ => Fin 0) (fun _ => Fin (1 # 2)))
  end.

(** The metrics of [_collect_metrics] for the two classes: the entries of
    [classification_report] for the class [accident], the area under the
    ROC curve (the share of positive-negative pairs that the scores order
    correctly, ties counting one half), and the confusion matrix.  Both
    scikit-learn reports raise [ValueError] when the held-out labels are
    of one class only. *)
Definition collect (y_true : list cell) (y_pred y_proba : list fval)
    : result (pydict metric) :=
  let truth := map cell_truthy y_true in
  if negb ((length y_pred =? length y_true)%nat
           && (length y_proba =? length y_true)%nat)
  then Raise (ValueError "Found input variables with inconsistent numbers of samples")
  else if negb (existsb (fun b => b) truth && existsb negb truth)
  then Raise (ValueError "Only one class present in y_true")
  else
    let pairs := combine truth (map ftruthy y_pred) in
    let tp := count_where (fun p => fst p && snd p) pairs in
    let fp := count_where (fun p => negb (fst p) && snd p) pairs in
    let fn := count_where (fun p => fst p && negb (snd p)) pairs in
    let tn := count_where (fun p => negb (fst p) && negb (snd p)) pairs in
    let ratio (a b : nat) :=
      if (b =? 0)%nat then Fin 0 else fdiv (float_of_nat a) (float_of_nat b) in
    let scored := combine truth y_proba in
    let positives := map snd (filter (fun p => fst p) scored) in
    let negatives := map snd (filter (fun p => negb (fst p)) scored) in
    let wins :=
      np_sum
        (flat_map
           (fun p =>
              map (fun n => if fltb n p then Fin 1
                            else if feqb n p then Fin (1 # 2) else Fin 0)
                negatives)
           positives) in
    let roc_auc :=
      fdiv wins (float_of_nat (length positives * length negatives)%nat) in
    Ok [ ("accuracy", MFloat (ratio (tp + tn)%nat (length pairs)));
         ("precision", MFloat (ratio tp (tp + fp)%nat));
         ("recall", MFloat (ratio tp (tp + fn)%nat));
         ("f1", MFloat (ratio (2 * tp)%nat (2 * tp + fp + fn)%nat));
         ("roc_auc", MFloat roc_auc);
         ("confusion_matrix",
          MMatrix [ [ Z.of_nat tn; Z.of_nat fp ];
                    [ Z.of_nat fn; Z.of_nat tp ] ]) ].

Definition learner : Learner :=
  {| train_test_split := split;
     pipeline_fit := fit_constant;
     collect_metrics := collect;
     precision_recall_curve := curve |}.

End ReferenceLearner.

(* ------------------------------------------------------------------ *)
(** ** Example frames *)
(* ------------------------------------------------------------------ *)

Module Examples.

Definition num (z : Z) : cell := CNum (float_of_Z z).

(** One sample of a raw frame with three axes. *)
Definition sample (vehicle : string) (ts x y z label : Z) : Row :=
  [ ("timestamp", num ts); ("vehicle_id", CStr vehicle);
    ("accel_x", num x); ("accel_y", num y); ("accel_z", num z);
    ("accident", num label) ].

Definition raw_columns : list (string * dtype) :=
  [ ("timestamp", DNum); ("vehicle_id", DObj); ("accel_x", DNum);
    ("accel_y", DNum); ("accel_z", DNum); ("accident", DNum) ].

(** Two vehicles, out of order: five samples of "a" and one of "b". *)
Definition two_vehicles : DataFrame :=
  mkDataFrame raw_columns
    [ sample "a" 2 1 0 0 0; sample "a" 0 0 1 0 1; sample "b" 0 0 0 0 0;
      sample "a" 1 2 2 1 0; sample "a" 3 0 0 1 0; sample "a" 4 1 1 1 0 ].

(** [n] samples of one vehicle at rest: all three axes are zero. *)
Definition at_rest (n : nat) : DataFrame :=
  mkDataFrame raw_columns
    (map (fun i => sample "v" (Z.of_nat i) 0 0 0 0) (seq 0 n)).

(** [n] samples at rest whose label is missing. *)
Definition unlabelled (n : nat) : DataFrame :=
  mkDataFrame raw_columns
    (map (fun i => dict_set "accident" (CNum NaN)
                     (sample "v" (Z.of_nat i) 0 0 0 0)) (seq 0 n)).

(** Five samples of one vehicle without a label column. *)
Definition bare_sample (ts x y z : Z) : Row :=
  [ ("timestamp", num ts); ("vehicle_id", CStr "a");
    ("accel_x", num x); ("accel_y", num y); ("accel_z", num z) ].

Definition bare_drive : DataFrame :=
  mkDataFrame
    [ ("timestamp", DNum); ("vehicle_id", DObj); ("accel_x", DNum);
      ("accel_y", DNum); ("accel_z", DNum) ]
    [ bare_sample 0 1 0 1; bare_sample 1 0 2 0; bare_sample 2 1 1 1;
      bare_sample 3 0 0 2; bare_sample 4 2 1 0 ].

(** A pipeline fitted on the 72 feature columns of three axes. *)
Definition pipeline_of_72 : Pipeline :=
  mkPipeline 72 (fun _ => Fin 0) (fun _ => Fin (1 # 2)).

(** A training frame with two axes and nine numeric metadata columns. *)
Definition metadata_names : list string :=
  [ "m1"; "m2"; "m3"; "m4"; "m5"; "m6"; "m7"; "m8"; "m9" ].

Definition two_axes_sample (ts x y label : Z) : Row :=
  ([ ("timestamp", num ts); ("vehicle_id", CStr "a");
     ("accel_x", num x); ("accel_y", num y); ("accident", num label) ]
   ++ map (fun m => (m, num ts)) metadata_names)%list.

(** Eleven samples: with windows of two samples and a hop of one they
    give ten windows, five with an accident and five without. *)
Definition two_axes_training : DataFrame :=
  mkDataFrame
    ([ ("timestamp", DNum); ("vehicle_id", DObj); ("accel_x", DNum);
       ("accel_y", DNum); ("accident", DNum) ]
     ++ map (fun m => (m, DNum)) metadata_names)%list
    [ two_axes_sample 0 1 0 1; two_axes_sample 1 0 2 1;
      two_axes_sample 2 1 1 1; two_axes_sample 3 0 0 1;
      two_axes_sample 4 2 1 1; two_axes_sample 5 1 0 0;
      two_axes_sample 6 0 1 0; two_axes_sample 7 1 2 0;
      two_axes_sample 8 2 0 0; two_axes_sample 9 0 1 0;
      two_axes_sample 10 1 1 0 ].

(** Eleven samples of one vehicle on three axes, labelled the same way. *)
Definition drive : DataFrame :=
  mkDataFrame raw_columns
    [ sample "a" 0 1 0 1 1; sample "a" 1 0 2 0 1; sample "a" 2 1 1 1 1;
      sample "a" 3 0 0 2 1; sample "a" 4 2 1 0 1; sample "a" 5 1 0 1 0;
      sample "a" 6 0 1 1 0; sample "a" 7 1 2 0 0; sample "a" 8 2 0 1 0;
      sample "a" 9 0 1 2 0; sample "a" 10 1 1 1 0 ].

(** The arguments of the inference script: its defaults, with windows of
    two samples. *)
Definition inference_args : PredictArgs :=
  mkPredictArgs 50 2 (Some 1) None default_sensor_cols
    "timestamp" "vehicle_id" "accident".

Definition detector_2_1 : Detector :=
  mkDetector (mkEngineer 50 2 1 "accident") 42 (Fin (9 # 10)).

(** Fitting on the two-axes frame (with its metadata columns), and running
    the inference script on the three-axes frame with the fitted
    pipeline. *)
Definition fitted_on_two_axes : result TrainingArtifacts :=
  fit (H := RationalBackend.backend) (H0 := ReferenceLearner.learner)
    detector_2_1 two_axes_training (Some [ "accel_x"; "accel_y" ])
    "timestamp" "vehicle_id" (Some "event_severity") (Some metadata_names)
    (Fin (1 # 5)).

Definition inference_table : result DataFrame :=
  transform (H := RationalBackend.backend) (mkEngineer 50 2 1 "accident")
    two_vehicles default_sensor_cols "timestamp" "vehicle_id"
    (Some "event_severity") None.

Definition inference_run (art : TrainingArtifacts) : result DataFrame :=
  predict_main (H := RationalBackend.backend) (pipeline art) (threshold art)
    inference_args two_vehicles.

(** A pipeline fitted on two features, and two engineered tables: one with
    two feature columns, one with three. *)
Definition pipeline_of_two : Pipeline :=
  mkPipeline 2 (fun _ => Fin 0) (fun _ => Fin (1 # 2)).

Definition table_of_two : DataFrame :=
  mkDataFrame [ ("u_mean", DNum); ("v_mean", DNum); ("label", DNum) ]
    [ [ ("u_mean", num 1); ("v_mean", num 2); ("label", num 0) ] ].

Definition table_of_three : DataFrame :=
  mkDataFrame
    [ ("u_mean", DNum); ("v_mean", DNum); ("w_mean", DNum); ("label", DNum) ]
    [ [ ("u_mean", num 1); ("v_mean", num 2); ("w_mean", num 3);
        ("label", num 0) ] ].

(** Held-out labels and probabilities of five windows. *)
Definition held_out_labels : list cell := [ num 0; num 1; num 1; num 0; num 1 ].

Definition held_out_probabilities : list fval :=
  [ Fin (1 # 10); Fin (4 # 10); Fin (35 # 100); Fin (8 # 10); Fin (9 # 10) ].

Definition held_out_curve : list fval * list fval * list fval :=
  match ReferenceLearner.curve held_out_labels held_out_probabilities with
  | Ok c => c
  | Raise _ => ([], [], [])
  end.

(** A detector whose target recall no threshold reaches. *)
Definition detector_unreachable : Detector :=
  mkDetector (mkEngineer 50 2 1 "accident") 42 (Fin 2).

(** The table [transform] returns on the two-vehicle frame, and the
    artifacts [fit] returns on the eleven-sample frame (empty when they
    raise). *)
Definition two_vehicles_table : DataFrame :=
  match
    transform (H := RationalBackend.backend) (mkEngineer 50 2 1 "accident")
      two_vehicles default_sensor_cols "timestamp" "vehicle_id"
      (Some "event_severity") None
  with
  | Ok t => t
  | Raise _ => mkDataFrame [] []
  end.

Definition drive_artifacts : TrainingArtifacts :=
  match
    fit (H := RationalBackend.backend) (H0 := ReferenceLearner.learner)
      detector_2_1 drive None "timestamp" "vehicle_id"
      (Some "event_severity") None (Fin (1 # 5))
  with
  | Ok art => art
  | Raise _ =>
      mkTrainingArtifacts (mkPipeline 0 (fun _ => NaN) (fun _ => NaN)) [] [] NaN
  end.

Definition engineer_2_1 : Engineer := mkEngineer 50 2 1 "accident".
Definition engineer_4_2 : Engineer := mkEngineer 50 4 2 "accident".
Definition engineer_100_50 : Engineer := mkEngineer 50 100 50 "accident".

End Examples.

(* ------------------------------------------------------------------ *)
(** * Properties *)
(* ------------------------------------------------------------------ *)

Local Open Scope Z_scope.

(** ** Generic facts about the error monad *)

Lemma bind_ok_inv {A B : Type} (m : result A) (k : A -> result B) (b : B) :
  bind m k = Ok b -> exists a, m = Ok a /\ k a = Ok b.
Proof.
  destruct m as [a | e]; simpl; intros E; [ eauto | discriminate ].
Qed.

Lemma mapM_ok_Forall2 {A B : Type} (f : A -> result B) (xs : list A) (ys : list B) :
  mapM f xs = Ok ys -> Forall2 (fun x y => f x = Ok y) xs ys.
Proof.
  revert ys; induction xs as [| x xs IH]; simpl; intros ys E.
  - injection E as <-. constructor.
  - apply bind_ok_inv in E as (y & Ey & E).
    apply bind_ok_inv in E as (ys' & Eys & E).
    injection E as <-. constructor; auto.
Qed.

Lemma mapM_total {A B : Type} (f : A -> result B) (xs : list A) :
  (forall x, In x xs -> exists y, f x = Ok y) ->
  exists ys, mapM f xs = Ok ys.
Proof.
  induction xs as [| x xs IH]; simpl; intros Hf.
  - eauto.
  - destruct (Hf x (or_introl eq_refl)) as (y & ->).
    destruct IH as (ys & ->); [ intros; apply Hf; auto | ].
    simpl. eauto.
Qed.

(** ** C1: segmentation of one vehicle group *)

Lemma range_up_seq (step : Z) (Hstep : 0 < step) :
  forall (n fuel : nat) (cur stop : Z),
    (n <= fuel)%nat ->
    cur + (Z.of_nat n - 1) * step < stop ->
    stop <= cur + Z.of_nat n * step ->
    range_up fuel cur stop step
    = map (fun i => cur + Z.of_nat i * step) (seq 0 n).
Proof.
  induction n as [| n IH]; intros fuel cur stop Hfuel Hlo Hhi.
  - destruct fuel as [| fuel]; simpl; [ reflexivity | ].
    replace (cur <? stop) with false; [ reflexivity | ].
    symmetry; apply Z.ltb_ge; lia.
  - destruct fuel as [| fuel]; [ lia | ].
    simpl range_up.
    replace (cur <? stop) with true by (symmetry; apply Z.ltb_lt; nia).
    rewrite (IH fuel (cur + step) stop) by (try lia; nia).
    simpl. f_equal; [ lia | ].
    rewrite <- seq_shift, map_map.
    apply map_ext; intros i. lia.
Qed.

Lemma py_range_from_zero (stop step : Z) :
  0 < step -> 0 < stop ->
  py_range 0 stop step
  = Ok (map (fun i => Z.of_nat i * step)
          (seq 0 (Z.to_nat ((stop - 1) / step + 1)))).
Proof.
  intros Hstep Hstop. unfold py_range.
  replace (step =? 0) with false by (symmetry; apply Z.eqb_neq; lia).
  replace (0 <? step) with true by (symmetry; apply Z.ltb_lt; lia).
  f_equal.
  assert (Hq : 0 <= (stop - 1) / step) by (apply Z.div_pos; lia).
  assert (Hm := Z.mod_pos_bound (stop - 1) step Hstep).
  assert (Hd := Z.div_mod (stop - 1) step ltac:(lia)).
  assert (Hle : (stop - 1) / step <= stop - 1)
    by (apply Z.div_le_upper_bound; nia).
  rewrite (@range_up_seq step Hstep (Z.to_nat ((stop - 1) / step + 1))).
  - apply map_ext; intros; lia.
  - lia.
  - rewrite Z2Nat.id by lia. nia.
  - rewrite Z2Nat.id by lia. nia.
Qed.

Lemma py_slice_in_range {A : Type} (xs : list A) (start len : Z) :
  0 <= start -> 0 <= len -> start + len <= Z.of_nat (length xs) ->
  py_slice xs start (start + len)
  = firstn (Z.to_nat len) (skipn (Z.to_nat start) xs)
  /\ Z.of_nat (length (py_slice xs start (start + len))) = len.
Proof.
  intros Hs Hl Hb. unfold py_slice, clip_index.
  replace (start <? 0) with false by (symmetry; apply Z.ltb_ge; lia).
  replace (start + len <? 0) with false by (symmetry; apply Z.ltb_ge; lia).
  rewrite !Z.min_l by lia.
  replace (start + len - start) with len by lia.
  split; [ reflexivity | ].
  rewrite length_firstn, length_skipn. lia.
Qed.

(** The windows of a group, in closed form. *)
Lemma group_windows_closed_form {A : Type} (eng : Engineer) (group : list A) :
  0 < window_size eng -> 0 < step_size eng ->
  window_size eng <= Z.of_nat (length group) ->
  group_windows eng group
  = Ok (map (fun i =>
               let start_idx := Z.of_nat i * step_size eng in
               (start_idx,
                py_slice group start_idx (start_idx + window_size eng)))
          (seq 0 (Z.to_nat ((Z.of_nat (length group) - window_size eng)
                            / step_size eng + 1)))).
Proof.
  intros HW HS HL. unfold group_windows.
  replace (Z.of_nat (length group) <? window_size eng) with false
    by (symmetry; apply Z.ltb_ge; lia).
  rewrite py_range_from_zero by lia. simpl bind.
  rewrite map_map.
  replace (Z.of_nat (length group) - window_size eng + 1 - 1)
    with (Z.of_nat (length group) - window_size eng) by lia.
  reflexivity.
Qed.

Lemma group_windows_short {A : Type} (eng : Engineer) (group : list A) :
  Z.of_nat (length group) < window_size eng ->
  group_windows eng group = Ok [].
Proof.
  intros HL. unfold group_windows.
  replace (Z.of_nat (length group) <? window_size eng) with true
    by (symmetry; apply Z.ltb_lt; lia).
  reflexivity.
Qed.

(** ** Dictionaries *)

Lemma dict_get_set_same {V : Type} (k : string) (v : V) (d : pydict V) :
  dict_get k (dict_set k v d) = Some v.
Proof.
  induction d as [| [k' v'] d IH]; simpl.
  - now rewrite String.eqb_refl.
  - destruct (String.eqb k k') eqn:E; simpl; rewrite ?String.eqb_refl, ?E; auto.
Qed.

Lemma dict_get_set_other {V : Type} (k k' : string) (v : V) (d : pydict V) :
  k <> k' -> dict_get k' (dict_set k v d) = dict_get k' d.
Proof.
  intros Hne. induction d as [| [k0 v0] d IH]; simpl.
  - destruct (String.eqb_spec k' k); [ congruence | reflexivity ].
  - destruct (String.eqb_spec k k0) as [-> | Hk]; simpl.
    + destruct (String.eqb_spec k' k0); [ congruence | reflexivity ].
    + destruct (String.eqb_spec k' k0); [ reflexivity | exact IH ].
Qed.

Lemma dict_keys_set {V : Type} (k : string) (v : V) (d : pydict V) :
  dict_keys (dict_set k v d)
  = if mem_str k (dict_keys d) then dict_keys d else (dict_keys d ++ [k])%list.
Proof.
  unfold dict_keys, mem_str. induction d as [| [k' v'] d IH]; simpl.
  - reflexivity.
  - destruct (String.eqb_spec k k') as [-> | Hk]; simpl.
    + reflexivity.
    + rewrite IH. destruct (existsb (String.eqb k) (map fst d)); reflexivity.
Qed.

Lemma mem_str_In (s : string) (l : list string) :
  mem_str s l = true <-> In s l.
Proof.
  unfold mem_str. rewrite existsb_exists. split.
  - intros (x & Hx & E). apply String.eqb_eq in E. now subst.
  - intros Hin. exists s. split; [ exact Hin | apply String.eqb_refl ].
Qed.

Lemma dict_set_key_In {V : Type} (k : string) (v : V) (d : pydict V) :
  In k (dict_keys (dict_set k v d)).
Proof.
  rewrite dict_keys_set. destruct (mem_str k (dict_keys d)) eqn:E.
  - now apply mem_str_In.
  - apply in_or_app. right. now left.
Qed.

Lemma dict_set_keys_incl {V : Type} (k k' : string) (v : V) (d : pydict V) :
  In k' (dict_keys d) -> In k' (dict_keys (dict_set k v d)).
Proof.
  intros Hin. rewrite dict_keys_set.
  destruct (mem_str k (dict_keys d)); [ exact Hin | apply in_or_app; now left ].
Qed.

(** Rewrites a [dict_get] through a chain of [dict_set]s of literal keys. *)
Ltac dict_lookup :=
  repeat first
    [ rewrite dict_get_set_same
    | rewrite dict_get_set_other by (intro; discriminate) ].

(** ** The row of one window *)

Section WindowRow.

Context `{NumericBackend}.

Variables (eng : Engineer) (df : DataFrame).
Variables (sensor_cols metadata_cols : list string).
Variable severity_col : option string.
Variable timestamp_col : string.

(** What a successful [window_row] returned: the computed features with
    the six identity and label fields set, in the order of the source. *)
Lemma window_row_inv (vehicle_id : cell) (sw : Z * list Row) (row : Row) :
  window_row eng df sensor_cols metadata_cols severity_col timestamp_col
    vehicle_id sw = Ok row ->
  exists features first_ts last_ts ratio,
    _compute_window_features eng (iloc_slice df (snd sw)) sensor_cols
      metadata_cols severity_col = Ok features
    /\ series_mean (series (iloc_slice df (snd sw)) (label_col eng)) = Ok ratio
    /\ row =
       dict_set "positive_ratio" (CNum ratio)
         (dict_set "label"
            (CNum (if series_any (series (iloc_slice df (snd sw)) (label_col eng))
                   then Fin 1 else Fin 0))
            (dict_set "window_end_ts" last_ts
               (dict_set "window_start_ts" first_ts
                  (dict_set "window_index"
                     (CNum (float_of_Z (window_index eng (fst sw))))
                     (dict_set "vehicle_id" vehicle_id features))))).
Proof.
  unfold window_row. intros E.
  apply bind_ok_inv in E as (features & Ef & E).
  apply bind_ok_inv in E as (first_ts & E1 & E).
  apply bind_ok_inv in E as (last_ts & E2 & E).
  apply bind_ok_inv in E as (ratio & Er & E).
  injection E as <-.
  exists features, first_ts, last_ts, ratio. auto.
Qed.

Lemma window_row_window_index (vehicle_id : cell) (sw : Z * list Row) (row : Row) :
  window_row eng df sensor_cols metadata_cols severity_col timestamp_col
    vehicle_id sw = Ok row ->
  dict_get "window_index" row = Some (CNum (float_of_Z (window_index eng (fst sw)))).
Proof.
  intros E. apply window_row_inv in E as (f & t0 & t1 & r & _ & _ & ->).
  now dict_lookup.
Qed.

Lemma group_rows_inv (g : cell * list Row) (rows : list Row) :
  group_rows eng df sensor_cols metadata_cols severity_col timestamp_col g
  = Ok rows ->
  exists slices,
    group_windows eng (snd g) = Ok slices
    /\ Forall2
         (fun sw row =>
            window_row eng df sensor_cols metadata_cols severity_col
              timestamp_col (fst g) sw = Ok row)
         slices rows.
Proof.
  unfold group_rows. intros E.
  apply bind_ok_inv in E as (slices & Es & E).
  exists slices. split; [ exact Es | now apply mapM_ok_Forall2 ].
Qed.

End WindowRow.

Lemma Forall2_nth_error_r {A B : Type} (R : A -> B -> Prop) (xs : list A) (ys : list B) :
  Forall2 R xs ys ->
  forall i y, nth_error ys i = Some y ->
  exists x, nth_error xs i = Some x /\ R x y.
Proof.
  induction 1 as [| x y xs ys HR _ IH]; intros i b Hi.
  - destruct i; discriminate.
  - destruct i as [| i]; simpl in *.
    + injection Hi as <-. eauto.
    + eauto.
Qed.

Lemma nth_error_map_seq {A : Type} (f : nat -> A) (n i : nat) :
  (i < n)%nat -> nth_error (map f (seq 0 n)) i = Some (f i).
Proof.
  intros Hi. rewrite nth_error_map, nth_error_seq.
  destruct (Nat.ltb_spec i n); [ reflexivity | lia ].
Qed.

(** C1.  For a vehicle group of [L] samples and an engineer with
    [window_size = W > 0] and [step_size = S > 0], the loop of [transform]
    cuts the windows [group[i*S : i*S + W]]: none when [L < W] (and the
    group then contributes no row and raises nothing), and
    [floor((L - W) / S) + 1] of them when [L >= W], the [i]-th starting at
    offset [i * S], holding exactly [W] samples and carrying
    [window_index = i] in its feature row.  In particular 250 samples with
    [W = 100] and [S = 50] give four windows, at offsets 0, 50, 100, 150
    with indices 0, 1, 2, 3. *)
Theorem C1_group_window_count_and_offsets `{NumericBackend} :
  (forall (eng : Engineer) (df : DataFrame)
          (sensor_cols metadata_cols : list string)
          (severity_col : option string) (timestamp_col : string)
          (vehicle_id : cell) (group : list Row),
      0 < window_size eng -> 0 < step_size eng ->
      let L := Z.of_nat (length group) in
      let W := window_size eng in
      let S := step_size eng in
      exists slices,
        group_windows eng group = Ok slices
        /\ (L < W ->
            slices = []
            /\ group_rows eng df sensor_cols metadata_cols severity_col
                 timestamp_col (vehicle_id, group) = Ok [])
        /\ (W <= L ->
            Z.of_nat (length slices) = (L - W) / S + 1
            /\ (forall i, (i < length slices)%nat ->
                  let start_idx := Z.of_nat i * S in
                  nth_error slices i
                  = Some (start_idx, py_slice group start_idx (start_idx + W))
                  /\ Z.of_nat (length (py_slice group start_idx (start_idx + W))) = W
                  /\ window_index eng start_idx = Z.of_nat i)
            /\ (forall rows,
                  group_rows eng df sensor_cols metadata_cols severity_col
                    timestamp_col (vehicle_id, group) = Ok rows ->
                  length rows = length slices
                  /\ forall i row, nth_error rows i = Some row ->
                       dict_get "window_index" row
                       = Some (CNum (float_of_Z (Z.of_nat i))))))
  /\ (forall (eng : Engineer) (group : list Row),
        window_size eng = 100 -> step_size eng = 50 ->
        length group = 250%nat ->
        exists w0 w1 w2 w3,
          group_windows eng group = Ok [(0, w0); (50, w1); (100, w2); (150, w3)]
          /\ map (window_index eng) [0; 50; 100; 150] = [0; 1; 2; 3]
          /\ Forall (fun w : list Row => length w = 100%nat) [w0; w1; w2; w3]).
Proof.
  split.
  - intros eng df sensor_cols metadata_cols severity_col timestamp_col
      vehicle_id group HW HS. cbv zeta.
    remember (Z.of_nat (length group)) as L eqn:EL.
    remember (window_size eng) as W eqn:EW.
    remember (step_size eng) as S eqn:ES.
    destruct (Z.ltb_spec L W) as [Hshort | Hlong].
    + exists []. split; [ apply group_windows_short; lia | ].
      split; [ | intros; lia ].
      intros _. split; [ reflexivity | ].
      unfold group_rows. simpl snd.
      rewrite group_windows_short by lia. reflexivity.
    + eexists. split; [ apply group_windows_closed_form; lia | ].
      rewrite <- EL, <- EW, <- ES.
      split; [ intros; lia | intros _ ].
      assert (Hq : 0 <= (L - W) / S) by (apply Z.div_pos; lia).
      rewrite length_map, length_seq.
      assert (Hidx : forall i, (i < Z.to_nat ((L - W) / S + 1))%nat ->
                Z.of_nat i * S + W <= L).
      { intros i Hi.
        assert (Z.of_nat i <= (L - W) / S) by lia.
        assert (Hm := Z.mod_pos_bound (L - W) S HS).
        assert (Hd := Z.div_mod (L - W) S ltac:(lia)).
        nia. }
      split; [ lia | split ].
      * intros i Hi.
        rewrite nth_error_map_seq by exact Hi.
        split; [ reflexivity | split ].
        -- apply py_slice_in_range; try lia.
           specialize (Hidx i Hi). lia.
        -- unfold window_index. rewrite <- ES. apply Z.div_mul. lia.
      * intros rows Erows.
        apply group_rows_inv in Erows as (slices & Es & Hall).
        simpl snd in Es. rewrite group_windows_closed_form in Es by lia.
        rewrite <- EL, <- EW, <- ES in Es.
        injection Es as <-.
        split.
        -- apply Forall2_length in Hall.
           rewrite length_map, length_seq in Hall. symmetry. exact Hall.
        -- intros i row Hrow.
           destruct (Forall2_nth_error_r Hall _ Hrow) as (sw & Hsw & Hwr).
           assert (Hi : (i < Z.to_nat ((L - W) / S + 1))%nat).
           { assert (Hlt : (i < length rows)%nat)
               by (apply nth_error_Some; rewrite Hrow; discriminate).
             apply Forall2_length in Hall.
             rewrite length_map, length_seq in Hall. lia. }
           rewrite nth_error_map_seq in Hsw by exact Hi.
           injection Hsw as <-.
           apply window_row_window_index in Hwr. rewrite Hwr. simpl fst.
           unfold window_index. rewrite <- ES, Z.div_mul by lia. reflexivity.
  - intros eng group HW HS HL.
    assert (E := @group_windows_closed_form Row eng group).
    rewrite HW, HS, HL in E. specialize (E ltac:(lia) ltac:(lia) ltac:(lia)).
    change (Z.to_nat ((Z.of_nat 250 - 100) / 50 + 1)) with 4%nat in E.
    cbn [seq map] in E. cbv zeta in E.
    do 4 eexists. split; [ exact E | split ].
    + unfold window_index. rewrite HS. reflexivity.
    + repeat constructor.
      all: match goal with
           | |- length (py_slice _ ?s _) = _ =>
               apply Nat2Z.inj;
               apply (proj2 (@py_slice_in_range Row group s 100 ltac:(lia) ltac:(lia) ltac:(lia)))
           end.
Qed.

(** C10.  Constructing the engineer with [step_size = 0] raises nothing:
    for every [window_size >= 2] it returns the very engineer that
    [step_size = None] returns, whose hop is [window_size // 2] and is
    positive; the two therefore cut the same windows out of every group. *)
Theorem C10_zero_step_size_is_default_hop :
  forall (rate W : Z) (lbl : string),
    2 <= W ->
    exists eng,
      init rate W (Some 0) lbl = Ok eng
      /\ init rate W None lbl = Ok eng
      /\ step_size eng = W / 2
      /\ 0 < step_size eng
      /\ forall (A : Type) (group : list A) e0 e1,
           init rate W (Some 0) lbl = Ok e0 ->
           init rate W None lbl = Ok e1 ->
           group_windows e0 group = group_windows e1 group.
Proof.
  intros rate W lbl HW. unfold init.
  replace (W <=? 0) with false by (symmetry; apply Z.leb_gt; lia).
  simpl py_or. eexists. repeat split.
  - simpl. apply Z.div_str_pos. lia.
  - intros A group e0 e1 E0 E1. congruence.
Qed.

(** ** The table assembled by [transform] *)

Lemma add_keys_incl (keys cols : list string) (k : string) :
  In k cols -> In k (add_keys cols keys).
Proof.
  unfold add_keys. revert cols.
  induction keys as [| k' keys IH]; simpl; intros cols Hin; [ exact Hin | ].
  apply IH. destruct (mem_str k' cols); [ exact Hin | ].
  apply in_or_app. now left.
Qed.

Lemma add_keys_In (keys cols : list string) (k : string) :
  In k keys -> In k (add_keys cols keys).
Proof.
  unfold add_keys. revert cols.
  induction keys as [| k' keys IH]; simpl; intros cols Hin; [ contradiction | ].
  destruct Hin as [-> | Hin]; [ | now apply IH ].
  apply add_keys_incl.
  destruct (mem_str k cols) eqn:E.
  - now apply mem_str_In.
  - apply in_or_app. right. now left.
Qed.

Lemma frame_columns_In (dicts : list Row) (r : Row) (k : string) :
  In r dicts -> In k (dict_keys r) -> In k (frame_columns dicts).
Proof.
  unfold frame_columns. generalize (@nil string) as cols.
  induction dicts as [| d dicts IH]; simpl; intros cols Hr Hk; [ contradiction | ].
  destruct Hr as [-> | Hr]; [ | now apply IH ].
  assert (Hin : In k (add_keys cols (dict_keys r))) by now apply add_keys_In.
  clear IH Hk. revert Hin. generalize (add_keys cols (dict_keys r)) as cols'.
  induction dicts as [| d dicts IH]; simpl; intros cols' Hin; [ exact Hin | ].
  apply IH. now apply add_keys_incl.
Qed.

Lemma dict_get_tabulate (g : string -> cell) (cols : list string) (k : string) :
  dict_get k (map (fun c => (c, g c)) cols)
  = if mem_str k cols then Some (g k) else None.
Proof.
  unfold mem_str. induction cols as [| c cols IH]; simpl; [ reflexivity | ].
  destruct (String.eqb_spec k c) as [-> | Hne]; simpl; [ reflexivity | exact IH ].
Qed.

Lemma dict_get_map_entries (f : cell -> cell) (cols : list string) (r : Row)
    (k : string) :
  dict_get k
    (map (fun kv : string * cell =>
            if mem_str (fst kv) cols then (fst kv, f (snd kv)) else kv) r)
  = option_map (fun v => if mem_str k cols then f v else v) (dict_get k r).
Proof.
  induction r as [| [k' v] r IH]; simpl; [ reflexivity | ].
  destruct (mem_str k' cols) eqn:Em; simpl;
    destruct (String.eqb_spec k k') as [-> | Hne]; simpl;
    rewrite ?Em; auto.
Qed.

Lemma dict_get_In_keys {V : Type} (k : string) (d : pydict V) :
  In k (dict_keys d) -> exists v, dict_get k d = Some v.
Proof.
  unfold dict_keys. induction d as [| [k' v] d IH]; simpl; [ contradiction | ].
  intros [-> | Hin].
  - rewrite String.eqb_refl. eauto.
  - destruct (String.eqb k k'); eauto.
Qed.

Lemma columns_map_columns (f : cell -> cell) (cols : list string) (df : DataFrame) :
  columns (map_columns f cols df) = columns df.
Proof. reflexivity. Qed.

Lemma columns_frame_of_dicts (dicts : list Row) :
  columns (frame_of_dicts dicts) = frame_columns dicts.
Proof.
  unfold columns, frame_of_dicts. simpl. rewrite map_map. simpl. apply map_id.
Qed.

Lemma columns_clean_features (dicts : list Row) :
  columns (clean_features (frame_of_dicts dicts)) = frame_columns dicts.
Proof.
  unfold clean_features. rewrite !columns_map_columns. apply columns_frame_of_dicts.
Qed.

Lemma rows_clean_features (dicts : list Row) :
  df_rows (clean_features (frame_of_dicts dicts))
  = map (fun r =>
           map (fun c =>
                  (c, if mem_str c transform_non_feature_cols
                      then row_get r c else clean_cell (row_get r c)))
             (frame_columns dicts))
        dicts.
Proof.
  unfold clean_features. cbv zeta.
  rewrite columns_frame_of_dicts.
  unfold map_columns, frame_of_dicts. cbn [df_rows].
  rewrite !map_map. apply map_ext; intros r.
  rewrite !map_map. apply map_ext_in; intros c Hc. cbn [fst snd].
  assert (Hmem : mem_str c
                   (filter (fun col => negb (mem_str col transform_non_feature_cols))
                      (frame_columns dicts))
                 = negb (mem_str c transform_non_feature_cols)).
  { destruct (mem_str c transform_non_feature_cols) eqn:E; cbn [negb].
    - destruct (mem_str c (filter _ _)) eqn:E'; [ | reflexivity ].
      apply mem_str_In, filter_In in E' as (_ & E'). cbv beta in E'.
      rewrite E in E'. discriminate.
    - apply mem_str_In, filter_In. split; [ exact Hc | now rewrite E ]. }
  rewrite Hmem.
  destruct (mem_str c transform_non_feature_cols) eqn:E;
    cbn [negb fst snd]; rewrite ?Hmem; cbn [negb fst snd]; reflexivity.
Qed.

(** ** What a successful [transform] did *)

Section TransformInversion.

Context `{NumericBackend}.

Variables (eng : Engineer) (df : DataFrame) (sensor_cols : list string).
Variables (timestamp_col vehicle_id_col : string).
Variable severity_col : option string.
Variable metadata_cols : option (list string).

Lemma segment_rows (wdf : DataFrame) (mc : list string)
    (groups : list (cell * list Row)) (per_group : list (list Row)) :
  mapM (group_rows eng wdf sensor_cols mc severity_col timestamp_col) groups
  = Ok per_group ->
  exists windows,
    segment eng groups = Ok windows
    /\ Forall2
         (fun w raw =>
            window_row eng wdf sensor_cols mc severity_col timestamp_col
              (fst w) (snd w) = Ok raw)
         windows (concat per_group).
Proof.
  unfold segment. revert per_group.
  induction groups as [| g groups IH]; simpl; intros per_group E.
  - injection E as <-. exists []. split; [ reflexivity | constructor ].
  - apply bind_ok_inv in E as (rows & Erows & E).
    apply bind_ok_inv in E as (rest & Erest & E).
    injection E as <-.
    apply group_rows_inv in Erows as (slices & Es & Hall).
    destruct (IH _ Erest) as (windows & Ew & Hw).
    apply bind_ok_inv in Ew as (per & Eper & Ew). injection Ew as <-.
    rewrite Es, Eper. simpl.
    eexists. split; [ reflexivity | ].
    apply Forall2_app; [ | exact Hw ].
    clear -Hall. induction Hall; simpl; constructor; auto.
Qed.

(** A successful [transform] validated and sorted the frame, grouped it,
    computed one row per window of the segmentation, and returned the
    cleaned table of these rows, which is not empty. *)
Lemma transform_inv (t : DataFrame) :
  transform eng df sensor_cols timestamp_col vehicle_id_col severity_col
    metadata_cols = Ok t ->
  exists wdf groups windows raws,
    working_frame eng df sensor_cols timestamp_col vehicle_id_col = Ok wdf
    /\ groupby wdf vehicle_id_col = Ok groups
    /\ segment eng groups = Ok windows
    /\ Forall2
         (fun w raw =>
            window_row eng wdf sensor_cols
              (filter (has_column wdf)
                 match metadata_cols with Some l => l | None => [] end)
              severity_col timestamp_col (fst w) (snd w) = Ok raw)
         windows raws
    /\ raws <> []
    /\ t = clean_features (frame_of_dicts raws).
Proof.
  unfold transform. intros E.
  apply bind_ok_inv in E as (wdf & Ewdf & E).
  apply bind_ok_inv in E as (groups & Eg & E).
  apply bind_ok_inv in E as (per_group & Eper & E).
  destruct (segment_rows _ _ _ Eper) as (windows & Ew & Hall).
  destruct (concat per_group) as [| raw raws] eqn:Eraws; [ discriminate | ].
  simpl in E. injection E as <-.
  exists wdf, groups, windows, (raw :: raws).
  repeat split; auto. discriminate.
Qed.

End TransformInversion.

(** Every window of the segmentation holds exactly [window_size] samples,
    cut from its group at a non-negative offset. *)
Lemma group_windows_slices {A : Type} (eng : Engineer) (group : list A)
    (slices : list (Z * list A)) :
  0 < window_size eng ->
  group_windows eng group = Ok slices ->
  Forall (fun sw =>
            0 <= fst sw
            /\ snd sw = py_slice group (fst sw) (fst sw + window_size eng)
            /\ Z.of_nat (length (snd sw)) = window_size eng)
    slices.
Proof.
  intros HW E.
  destruct (Z.ltb_spec (Z.of_nat (length group)) (window_size eng)) as [Hs | Hl].
  - rewrite group_windows_short in E by exact Hs. injection E as <-. constructor.
  - destruct (Z.lt_trichotomy (step_size eng) 0) as [Hneg | [Hz | Hpos]].
    + unfold group_windows, py_range in E.
      replace (Z.of_nat (length group) <? window_size eng) with false in E
        by (symmetry; apply Z.ltb_ge; lia).
      replace (step_size eng =? 0) with false in E
        by (symmetry; apply Z.eqb_neq; lia).
      replace (0 <? step_size eng) with false in E
        by (symmetry; apply Z.ltb_ge; lia).
      replace (Z.to_nat (0 - (Z.of_nat (length group) - window_size eng + 1)))
        with O in E by lia.
      simpl in E. injection E as <-. constructor.
    + unfold group_windows, py_range in E.
      replace (Z.of_nat (length group) <? window_size eng) with false in E
        by (symmetry; apply Z.ltb_ge; lia).
      rewrite Hz in E. discriminate.
    + rewrite group_windows_closed_form in E by assumption.
      injection E as <-.
      apply Forall_forall. intros sw Hin.
      apply in_map_iff in Hin as (i & <- & Hi). apply in_seq in Hi.
      cbn [fst snd].
      assert (Hq : 0 <= (Z.of_nat (length group) - window_size eng) / step_size eng)
        by (apply Z.div_pos; lia).
      assert (Hm := Z.mod_pos_bound (Z.of_nat (length group) - window_size eng)
                      (step_size eng) Hpos).
      assert (Hd := Z.div_mod (Z.of_nat (length group) - window_size eng)
                      (step_size eng) ltac:(lia)).
      split; [ nia | split; [ reflexivity | ] ].
      apply py_slice_in_range; nia.
Qed.

Lemma segment_windows (eng : Engineer) (groups : list (cell * list Row))
    (windows : list (cell * (Z * list Row))) :
  0 < window_size eng ->
  segment eng groups = Ok windows ->
  Forall (fun w =>
            exists group,
              In (fst w, group) groups
              /\ 0 <= fst (snd w)
              /\ snd (snd w)
                 = py_slice group (fst (snd w)) (fst (snd w) + window_size eng)
              /\ Z.of_nat (length (snd (snd w))) = window_size eng)
    windows.
Proof.
  intros HW. unfold segment. revert windows.
  induction groups as [| g groups IH]; simpl; intros windows E.
  - injection E as <-. constructor.
  - apply bind_ok_inv in E as (per & Eper & E). injection E as <-.
    apply bind_ok_inv in Eper as (ws & Ews & Eper).
    apply bind_ok_inv in Eper as (rest & Erest & Eper).
    injection Eper as <-.
    apply bind_ok_inv in Ews as (slices & Es & Ews). injection Ews as <-.
    simpl. apply Forall_app. split.
    + apply (group_windows_slices _ _ HW) in Es.
      apply Forall_forall. intros w Hin.
      apply in_map_iff in Hin as (sw & <- & Hsw).
      rewrite Forall_forall in Es. specialize (Es sw Hsw).
      exists (snd g). cbn [fst snd]. split; [ left; now destruct g | exact Es ].
    + specialize (IH (concat rest)). rewrite Erest in IH. simpl in IH.
      specialize (IH eq_refl).
      eapply Forall_impl; [ | exact IH ].
      intros w (group & Hin & Hrest). exists group. split; [ now right | exact Hrest ].
Qed.

Lemma Forall2_map_r_In {A B C : Type} (R : A -> B -> Prop) (Q : A -> C -> Prop)
    (f : B -> C) (xs : list A) (ys : list B) :
  Forall2 R xs ys ->
  (forall x y, In x xs -> In y ys -> R x y -> Q x (f y)) ->
  Forall2 Q xs (map f ys).
Proof.
  induction 1 as [| x y xs ys HR _ IH]; simpl; intros HQ; constructor.
  - apply HQ; simpl; auto.
  - apply IH. intros; apply HQ; simpl; auto.
Qed.

(** A value of the returned table in terms of the row computed for the
    window. *)
Lemma cleaned_row_get (raws : list Row) (raw : Row) (k : string) :
  In raw raws -> In k (dict_keys raw) ->
  row_get
    (map (fun c =>
            (c, if mem_str c transform_non_feature_cols
                then row_get raw c else clean_cell (row_get raw c)))
       (frame_columns raws)) k
  = if mem_str k transform_non_feature_cols
    then row_get raw k else clean_cell (row_get raw k).
Proof.
  intros Hraw Hk. unfold row_get at 1.
  rewrite (dict_get_tabulate
             (fun c => if mem_str c transform_non_feature_cols
                       then row_get raw c else clean_cell (row_get raw c))).
  replace (mem_str k (frame_columns raws)) with true; [ reflexivity | ].
  symmetry. apply mem_str_In. eapply frame_columns_In; eauto.
Qed.

(** ** C5: label and positive ratio of a window *)

Lemma groupby_rows (df : DataFrame) (c : string) (groups : list (cell * list Row)) :
  groupby df c = Ok groups ->
  Forall (fun g =>
            incl (snd g) (df_rows df)
            /\ Forall (fun r => cell_eqb (row_get r c) (fst g) = true) (snd g))
    groups.
Proof.
  unfold groupby. intros E.
  destruct (negb (has_column df c)); [ discriminate E | ]. injection E as <-.
  apply Forall_forall. intros g Hin.
  apply in_map_iff in Hin as (k & <- & _). cbn [fst snd]. split.
  - intros r Hr. now apply filter_In in Hr.
  - apply Forall_forall. intros r Hr. now apply filter_In in Hr.
Qed.

Lemma py_slice_incl {A : Type} (xs : list A) (start stop : Z) :
  incl (py_slice xs start stop) xs.
Proof.
  unfold py_slice. cbv zeta.
  generalize (Z.to_nat (clip_index (Z.of_nat (length xs)) stop
                        - clip_index (Z.of_nat (length xs)) start)) as n.
  generalize (Z.to_nat (clip_index (Z.of_nat (length xs)) start)) as lo.
  intros lo n x Hx.
  rewrite <- (firstn_skipn lo xs). apply in_or_app. right.
  rewrite <- (firstn_skipn n (skipn lo xs)). apply in_or_app. now left.
Qed.

Lemma np_sum_Fin_from (qs : list Q) (a : Q) :
  fold_left fadd (map Fin qs) (Fin a) = Fin (fold_left Qplus qs a).
Proof.
  revert a. induction qs as [| q qs IH]; simpl; intros a; [ reflexivity | apply IH ].
Qed.

Lemma binary_label_inv (c : cell) :
  binary_label c = true ->
  exists q, c = CNum (Fin q) /\ (q == 0 \/ q == 1)%Q.
Proof.
  unfold binary_label, label_is.
  destruct c as [[q | | |] | s]; try discriminate.
  intros E. exists q. split; [ reflexivity | ].
  apply orb_true_iff in E as [E | E]; apply Qeq_bool_iff in E; auto.
Qed.

Lemma binary_labels_float_values (labels : list cell) :
  forallb binary_label labels = true ->
  float_values labels = Ok (map Fin (map cell_Q labels))
  /\ filter (fun v => negb (is_nan v)) (map Fin (map cell_Q labels))
     = map Fin (map cell_Q labels).
Proof.
  unfold float_values. induction labels as [| c labels IH]; simpl; intros E.
  - auto.
  - apply andb_true_iff in E as (Ec & E).
    destruct (binary_label_inv _ Ec) as (q & -> & _).
    destruct (IH E) as (-> & ->). simpl. auto.
Qed.

Lemma binary_labels_any (labels : list cell) :
  forallb binary_label labels = true ->
  series_any labels = existsb (label_is 1) labels.
Proof.
  unfold series_any. induction labels as [| c labels IH]; simpl; intros E.
  - reflexivity.
  - apply andb_true_iff in E as (Ec & E). rewrite (IH E). f_equal.
    destruct (binary_label_inv _ Ec) as (q & -> & Hq).
    simpl. unfold ftruthy, is_zero.
    destruct Hq as [Hq | Hq].
    + rewrite (proj2 (Qeq_bool_iff q 0) Hq).
      destruct (Qeq_bool q (inject_Z 1)) eqn:E1; [ | reflexivity ].
      apply Qeq_bool_iff in E1. rewrite Hq in E1. discriminate.
    + rewrite (proj2 (Qeq_bool_iff q (inject_Z 1)) Hq).
      destruct (Qeq_bool q 0) eqn:E0; [ | reflexivity ].
      apply Qeq_bool_iff in E0. rewrite Hq in E0. discriminate.
Qed.

Lemma binary_sum_bounds (labels : list cell) :
  forallb binary_label labels = true ->
  forall a : Q,
    (a <= fold_left Qplus (map cell_Q labels) a
     /\ fold_left Qplus (map cell_Q labels) a
        <= a + inject_Z (Z.of_nat (length labels)))%Q.
Proof.
  induction labels as [| c labels IH]; intros E a.
  - simpl. split; [ apply Qle_refl | ].
    rewrite Qplus_0_r. apply Qle_refl.
  - simpl in E. apply andb_true_iff in E as (Ec & E).
    destruct (binary_label_inv _ Ec) as (q & -> & Hq).
    cbn [map fold_left cell_Q length].
    destruct (IH E (a + q)%Q) as (Hlo & Hhi).
    rewrite Nat2Z.inj_succ, <- Z.add_1_r, inject_Z_plus.
    assert (H0 : (0 <= q)%Q) by (destruct Hq as [-> | ->]; discriminate).
    assert (H1 : (q <= 1)%Q) by (destruct Hq as [-> | ->]; discriminate).
    split.
    + eapply Qle_trans; [ | exact Hlo ].
      rewrite <- (Qplus_0_r a) at 1. apply Qplus_le_r. exact H0.
    + eapply Qle_trans; [ exact Hhi | ].
      rewrite <- Qplus_assoc. apply Qplus_le_r.
      rewrite (Qplus_comm (inject_Z (Z.of_nat (length labels)))).
      apply Qplus_le_l. exact H1.
Qed.

(** The mean of a non-empty series of 0/1 labels. *)
Lemma binary_labels_mean (labels : list cell) :
  forallb binary_label labels = true ->
  (0 < length labels)%nat ->
  let q := (fold_left Qplus (map cell_Q labels) 0
            / inject_Z (Z.of_nat (length labels)))%Q in
  series_mean labels = Ok (Fin q) /\ (0 <= q)%Q /\ (q <= 1)%Q.
Proof.
  intros E Hlen q. unfold series_mean.
  destruct (binary_labels_float_values _ E) as (-> & Hf). simpl bind.
  rewrite Hf. unfold np_sum. rewrite np_sum_Fin_from.
  rewrite !length_map. unfold float_of_nat, float_of_Z, fdiv.
  assert (Hn : (0 < inject_Z (Z.of_nat (length labels)))%Q).
  { change 0%Q with (inject_Z 0). rewrite <- Zlt_Qlt. lia. }
  destruct (Qeq_bool (inject_Z (Z.of_nat (length labels))) 0) eqn:E0.
  { apply Qeq_bool_iff in E0. rewrite E0 in Hn. discriminate. }
  split; [ reflexivity | ].
  destruct (binary_sum_bounds _ E 0%Q) as (Hlo & Hhi).
  rewrite Qplus_0_l in Hhi. subst q. split.
  - apply Qle_shift_div_l; [ exact Hn | ]. rewrite Qmult_0_l. exact Hlo.
  - apply Qle_shift_div_r; [ exact Hn | ]. rewrite Qmult_1_l. exact Hhi.
Qed.

(** C5.  Every row of the table returned by [transform] (for an engineer
    with a positive window size) is the row of one window of the
    segmentation, whose samples are rows of the sorted frame; when the
    labels of these samples are all 0 or 1, the row's [label] is 1 if some
    sample has label 1 and 0 otherwise, and its [positive_ratio] is the mean
    of the samples' labels (their sum over their number), which lies between
    0 and 1. *)
Theorem C5_window_label_is_any_and_ratio_is_mean `{NumericBackend} :
  forall (eng : Engineer) (df : DataFrame) (sensor_cols : list string)
         (timestamp_col vehicle_id_col : string) (severity_col : option string)
         (metadata_cols : option (list string)) (t : DataFrame),
    0 < window_size eng ->
    transform eng df sensor_cols timestamp_col vehicle_id_col severity_col
      metadata_cols = Ok t ->
    exists wdf groups windows,
      working_frame eng df sensor_cols timestamp_col vehicle_id_col = Ok wdf
      /\ groupby wdf vehicle_id_col = Ok groups
      /\ segment eng groups = Ok windows
      /\ Forall2
           (fun w row =>
              let samples := snd (snd w) in
              let labels := map (fun r => row_get r (label_col eng)) samples in
              incl samples (df_rows wdf)
              /\ Z.of_nat (length samples) = window_size eng
              /\ (forallb binary_label labels = true ->
                  (row_get row "label" = CNum (Fin 1)
                   <-> existsb (label_is 1) labels = true)
                  /\ (row_get row "label" = CNum (Fin 0)
                      <-> existsb (label_is 1) labels = false)
                  /\ let mean := (fold_left Qplus (map cell_Q labels) 0
                                  / inject_Z (Z.of_nat (length labels)))%Q in
                     row_get row "positive_ratio" = CNum (Fin mean)
                     /\ (0 <= mean)%Q /\ (mean <= 1)%Q))
           windows (df_rows t).
Proof.
  intros eng df sensor_cols timestamp_col vehicle_id_col severity_col
    metadata_cols t HW E.
  apply transform_inv in E
    as (wdf & groups & windows & raws & Ewdf & Eg & Es & Hall & _ & ->).
  exists wdf, groups, windows. repeat (split; [ assumption | ]).
  rewrite rows_clean_features.
  assert (Hwin := segment_windows _ _ HW Es).
  assert (Hgrp := groupby_rows _ _ Eg).
  rewrite Forall_forall in Hwin, Hgrp.
  eapply Forall2_map_r_In; [ exact Hall | ].
  intros w raw Hw Hraw Erow. cbv zeta.
  destruct (Hwin w Hw) as (group & Hgin & _ & Hslice & Hlen).
  destruct (Hgrp _ Hgin) as (Hincl & _). cbn [snd] in Hincl.
  split; [ | split; [ exact Hlen | ] ].
  { rewrite Hslice. intros r Hr. apply Hincl. eapply py_slice_incl; eauto. }
  intros Hbin.
  apply window_row_inv in Erow as (f & t0 & t1 & ratio & _ & Eratio & ->).
  unfold series, iloc_slice in Eratio. cbn [df_rows] in Eratio.
  assert (Hpos : (0 < length (map (fun r => row_get r (label_col eng))
                               (snd (snd w))))%nat)
    by (rewrite length_map; lia).
  destruct (binary_labels_mean _ Hbin Hpos) as (Emean & Hlo & Hhi).
  rewrite Emean in Eratio. injection Eratio as <-.
  rewrite !cleaned_row_get; try assumption;
    try (repeat first [ apply dict_set_key_In | apply dict_set_keys_incl ]).
  cbn [mem_str existsb String.eqb Ascii.eqb Bool.eqb orb
         transform_non_feature_cols].
  unfold row_get. dict_lookup.
  unfold series, iloc_slice. cbn [df_rows].
  rewrite (binary_labels_any _ Hbin).
  destruct (existsb (label_is 1) _); repeat split; auto;
    intros; discriminate.
Qed.

(** ** C6: the returned table holds no NaN and no infinity *)



(** ** C9 and C3: feature columns at fit time and at inference time *)

Lemma transform_has_positive_ratio `{NumericBackend}
    (eng : Engineer) (df : DataFrame) (sensor_cols : list string)
    (timestamp_col vehicle_id_col : string) (severity_col : option string)
    (metadata_cols : option (list string)) (t : DataFrame) :
  transform eng df sensor_cols timestamp_col vehicle_id_col severity_col
    metadata_cols = Ok t ->
  In "positive_ratio" (columns t).
Proof.
  intros E.
  apply transform_inv in E
    as (wdf & groups & windows & raws & _ & _ & _ & Hall & Hne & ->).
  rewrite columns_clean_features.
  destruct Hall as [| w raw windows raws Hrow _]; [ congruence | ].
  apply (frame_columns_In (raw :: raws) raw); [ now left | ].
  apply window_row_inv in Hrow as (f & t0 & t1 & r & _ & _ & ->).
  apply dict_set_key_In.
Qed.

Lemma fit_inv `{NumericBackend} `{Learner}
    (det : Detector) (df : DataFrame) (sensor_cols : option (list string))
    (timestamp_col vehicle_id_col : string) (severity_col : option string)
    (metadata_cols : option (list string)) (test_size : fval)
    (art : TrainingArtifacts) :
  fit det df sensor_cols timestamp_col vehicle_id_col severity_col
    metadata_cols test_size = Ok art ->
  exists features_df,
    transform (feature_engineer det) df
      (match sensor_cols with
       | Some ((_ :: _) as l) => l
       | _ => default_sensor_cols
       end)
      timestamp_col vehicle_id_col severity_col metadata_cols = Ok features_df
    /\ feature_columns art = fit_feature_cols features_df.
Proof.
  unfold fit. intros E.
  apply bind_ok_inv in E as (features_df & Et & E).
  exists features_df. split; [ exact Et | ].
  repeat (apply bind_ok_inv in E as (? & _ & E)).
  injection E as <-. reflexivity.
Qed.

Lemma filter_filter {A : Type} (f g : A -> bool) (l : list A) :
  filter f (filter g l) = filter (fun x => g x && f x) l.
Proof.
  induction l as [| x l IH]; simpl; [ reflexivity | ].
  destruct (g x); simpl; [ destruct (f x) | ]; rewrite ?IH; reflexivity.
Qed.

Lemma filter_strictly_shorter {A : Type} (f : A -> bool) (l : list A) (x : A) :
  In x l -> f x = false -> (length (filter f l) < length l)%nat.
Proof.
  induction l as [| y l IH]; simpl; intros Hin Hf; [ contradiction | ].
  destruct Hin as [-> | Hin].
  - rewrite Hf. assert (Hle := filter_length_le f l). lia.
  - specialize (IH Hin Hf). destruct (f y); simpl; lia.
Qed.

(** C9.  After a successful [fit], the recorded [feature_columns] are the
    columns of the engineered table minus the five identity and label
    columns of [fit], and [positive_ratio] is one of them.  For every table
    of the same columns, the feature columns of the inference script are
    the recorded ones with [positive_ratio] removed: they are all recorded,
    [positive_ratio] is not among them, and they are fewer. *)
Theorem C9_fit_columns_strictly_contain_inference_columns
    `{NumericBackend} `{Learner} :
  forall (det : Detector) (df : DataFrame) (sensor_cols : option (list string))
         (timestamp_col vehicle_id_col : string) (severity_col : option string)
         (metadata_cols : option (list string)) (test_size : fval)
         (art : TrainingArtifacts),
    fit det df sensor_cols timestamp_col vehicle_id_col severity_col
      metadata_cols test_size = Ok art ->
    In "positive_ratio" (feature_columns art)
    /\ exists features_df,
         transform (feature_engineer det) df
           (match sensor_cols with
            | Some ((_ :: _) as l) => l
            | _ => default_sensor_cols
            end)
           timestamp_col vehicle_id_col severity_col metadata_cols
         = Ok features_df
         /\ feature_columns art = fit_feature_cols features_df
         /\ forall inference_df : DataFrame,
              columns inference_df = columns features_df ->
              predict_feature_cols inference_df
              = filter (fun c => negb (String.eqb c "positive_ratio"))
                  (feature_columns art)
              /\ incl (predict_feature_cols inference_df) (feature_columns art)
              /\ ~ In "positive_ratio" (predict_feature_cols inference_df)
              /\ (length (predict_feature_cols inference_df)
                  < length (feature_columns art))%nat.
Proof.
  intros det df sensor_cols timestamp_col vehicle_id_col severity_col
    metadata_cols test_size art E.
  apply fit_inv in E as (features_df & Et & Ecols).
  assert (Hpr : In "positive_ratio" (feature_columns art)).
  { rewrite Ecols. apply filter_In. split; [ | reflexivity ].
    eapply transform_has_positive_ratio; eauto. }
  split; [ exact Hpr | ].
  exists features_df. split; [ exact Et | split; [ exact Ecols | ] ].
  intros inference_df Esame.
  assert (Epred : predict_feature_cols inference_df
                  = filter (fun c => negb (String.eqb c "positive_ratio"))
                      (feature_columns art)).
  { rewrite Ecols. unfold predict_feature_cols, fit_feature_cols.
    rewrite Esame, filter_filter. apply filter_ext. intros c.
    unfold predict_non_feature_cols, fit_non_feature_cols, mem_str.
    cbn [existsb]. rewrite !orb_false_r, !negb_orb, !andb_assoc. reflexivity. }
  rewrite Epred. repeat split.
  - intros c Hc. now apply filter_In in Hc.
  - intros Hin. apply filter_In in Hin as (_ & Hin). discriminate.
  - eapply filter_strictly_shorter; [ exact Hpr | reflexivity ].
Qed.

Lemma check_n_features_spec (pipe : Pipeline) (X : list (list cell)) :
  (Forall (fun row => length row = n_features_in pipe) X ->
   check_n_features pipe X = Ok tt)
  /\ (Exists (fun row => length row <> n_features_in pipe) X ->
      exists msg, check_n_features pipe X = Raise (ValueError msg)).
Proof.
  unfold check_n_features. split.
  - intros Hall.
    replace (forallb _ X) with true; [ reflexivity | ].
    symmetry. apply forallb_forall. rewrite Forall_forall in Hall.
    intros row Hrow. apply Nat.eqb_eq. auto.
  - intros Hex.
    replace (forallb _ X) with false; [ eauto | ].
    symmetry. apply not_true_is_false. intros Hall.
    rewrite forallb_forall in Hall. apply Exists_exists in Hex as (row & Hrow & Hne).
    apply Hne, Nat.eqb_eq. auto.
Qed.

(** C3, as the code has it.  The prediction stage of the inference script
    never consults the column list recorded at fit time: it hands the
    selected columns to the pipeline as a bare matrix.  Whatever the names
    of the columns, the stage returns predictions as soon as the number of
    inference feature columns is the number the pipeline was fitted on, and
    on a non-empty table it raises the pipeline's ValueError when the two
    numbers differ. *)
Theorem C3_inference_checks_only_the_number_of_columns :
  forall (pipe : Pipeline) (threshold : fval) (features_df : DataFrame),
    (length (predict_feature_cols features_df) = n_features_in pipe ->
     exists out, predict_stage pipe threshold features_df = Ok out)
    /\ (df_rows features_df <> [] ->
        length (predict_feature_cols features_df) <> n_features_in pipe ->
        exists msg,
          predict_stage pipe threshold features_df = Raise (ValueError msg)).
Proof.
  intros pipe threshold features_df.
  unfold predict_stage, pipeline_predict_proba, frame_values. split.
  - intros Hlen.
    rewrite (proj1 (check_n_features_spec pipe _)).
    + simpl. eauto.
    + apply Forall_forall. intros row Hrow.
      apply in_map_iff in Hrow as (r & <- & _). now rewrite length_map.
  - intros Hne Hlen.
    destruct (proj2 (check_n_features_spec pipe
                       (map (fun r => map (row_get r) (predict_feature_cols features_df))
                          (df_rows features_df)))) as (msg & ->).
    + destruct (df_rows features_df) as [| r rows]; [ congruence | ].
      simpl. left. now rewrite length_map.
    + simpl. eauto.
Qed.

Lemma C3_inference_checks_only_the_number_of_columns_witness :
  (exists out,
      predict_stage Examples.pipeline_of_two (Fin (1 # 2)) Examples.table_of_two
      = Ok out)
  /\ (exists msg,
        predict_stage Examples.pipeline_of_two (Fin (1 # 2)) Examples.table_of_three
        = Raise (ValueError msg)).
Proof.
  split.
  - apply (proj1 (C3_inference_checks_only_the_number_of_columns
                    Examples.pipeline_of_two (Fin (1 # 2)) Examples.table_of_two)).
    reflexivity.
  - apply (proj2 (C3_inference_checks_only_the_number_of_columns
                    Examples.pipeline_of_two (Fin (1 # 2)) Examples.table_of_three)).
    + discriminate.
    + simpl. lia.
Defined.

(** C3, as stated, fails.  A detector is fitted on a frame of eleven
    samples with the axes [accel_x], [accel_y] and nine metadata columns
    (ten windows, five of each class, so that the stratified split, the
    fit and the evaluation go through); the inference script is then run
    with this pipeline on a frame with the three default axes.  The
    inference feature columns are not the recorded ones ([accel_z_mean] is
    a feature column at inference and was none at fit time) but they are
    as many, 72, and the script raises nothing and returns predictions. *)
Lemma C3_counterexample_mismatched_columns_are_scored :
  exists art features_df out,
    Examples.fitted_on_two_axes = Ok art
    /\ Examples.inference_table = Ok features_df
    /\ In "accel_z_mean" (predict_feature_cols features_df)
    /\ ~ In "accel_z_mean" (feature_columns art)
    /\ length (feature_columns art) = 72%nat
    /\ length (predict_feature_cols features_df) = 72%nat
    /\ Examples.inference_run art = Ok out.
Proof.
  assert (Hb :
    match Examples.fitted_on_two_axes, Examples.inference_table with
    | Ok art, Ok features_df =>
        mem_str "accel_z_mean" (predict_feature_cols features_df)
        && negb (mem_str "accel_z_mean" (feature_columns art))
        && (length (feature_columns art) =? 72)%nat
        && (length (predict_feature_cols features_df) =? 72)%nat
        && is_ok (Examples.inference_run art)
    | _, _ => false
    end = true) by (vm_compute; reflexivity).
  destruct Examples.fitted_on_two_axes as [art | e]; [ | discriminate Hb ].
  destruct Examples.inference_table as [features_df | e]; [ | discriminate Hb ].
  apply andb_true_iff in Hb as (Hb & Hok).
  apply andb_true_iff in Hb as (Hb & Hlen2).
  apply andb_true_iff in Hb as (Hb & Hlen1).
  apply andb_true_iff in Hb as (Hin & Hnot).
  destruct (Examples.inference_run art) as [out | e] eqn:Erun;
    [ | discriminate Hok ].
  exists art, features_df, out.
  split; [ reflexivity | split; [ reflexivity | split; [ | split ] ] ].
  - apply mem_str_In. exact Hin.
  - intros Hc. apply mem_str_In in Hc. rewrite Hc in Hnot. discriminate Hnot.
  - split; [ now apply Nat.eqb_eq | split; [ now apply Nat.eqb_eq | exact Erun ] ].
Qed.

(** ** C8: zero-crossing rate *)

Lemma np_where_from_length (mask : list bool) (i : nat) :
  length (np_where_from i mask) = length (filter (fun b => b) mask).
Proof.
  revert i. induction mask as [| b mask IH]; simpl; intros i; [ reflexivity | ].
  destruct b; simpl; now rewrite IH.
Qed.

Lemma np_diff_bool_changes (bits : list bool) :
  length (filter (fun b => b) (np_diff_bool bits)) = sign_changes bits.
Proof.
  induction bits as [| a [| b bits] IH]; try reflexivity.
  change (np_diff_bool (a :: b :: bits))
    with (xorb b a :: np_diff_bool (b :: bits)).
  change (sign_changes (a :: b :: bits))
    with ((if Bool.eqb a b then 0 else 1) + sign_changes (b :: bits))%nat.
  rewrite <- IH. destruct a, b; reflexivity.
Qed.

Lemma sign_changes_bound (bits : list bool) :
  (sign_changes bits <= length bits - 1)%nat.
Proof.
  induction bits as [| a [| b bits] IH]; simpl; try lia.
  simpl in IH. destruct (Bool.eqb a b); lia.
Qed.

Lemma alternating_changes (bits : list bool) :
  alternating bits = true -> sign_changes bits = (length bits - 1)%nat.
Proof.
  induction bits as [| a [| b bits] IH]; try reflexivity.
  change (alternating (a :: b :: bits))
    with (negb (Bool.eqb a b) && alternating (b :: bits)).
  change (sign_changes (a :: b :: bits))
    with ((if Bool.eqb a b then 0 else 1) + sign_changes (b :: bits))%nat.
  intros E. apply andb_true_iff in E as (Eab & E).
  rewrite (IH E). destruct (Bool.eqb a b); [ discriminate | ]. simpl. lia.
Qed.

Lemma sign_changes_repeat (b : bool) (n : nat) :
  sign_changes (repeat b n) = O.
Proof.
  induction n as [| [| n] IH]; try reflexivity.
  change (sign_changes (repeat b (S (S n))))
    with ((if Bool.eqb b b then 0 else 1) + sign_changes (repeat b (S n)))%nat.
  rewrite IH, Bool.eqb_reflx. reflexivity.
Qed.

Lemma zero_crossing_rate_unfold (series : list fval) :
  (2 <= length series)%nat ->
  _zero_crossing_rate series
  = Fin (inject_Z (Z.of_nat (sign_changes (map signbit (centered series))))
         / inject_Z (Z.of_nat (length series - 1))).
Proof.
  intros Hn. unfold _zero_crossing_rate.
  destruct (Nat.ltb_spec (length series) 2) as [Hlt | _]; [ lia | ].
  unfold np_where. rewrite np_where_from_length, np_diff_bool_changes.
  fold (centered series).
  unfold float_of_nat, float_of_Z, fdiv.
  destruct (Qeq_bool (inject_Z (Z.of_nat (length series - 1))) 0) eqn:E0;
    [ | reflexivity ].
  apply Qeq_bool_iff in E0. unfold Qeq in E0. simpl in E0. lia.
Qed.

Lemma zero_crossing_rate_constant (v : fval) (n : nat) :
  is_zero (_zero_crossing_rate (repeat v n)) = true.
Proof.
  destruct (Nat.ltb_spec n 2) as [Hlt | Hge].
  - unfold _zero_crossing_rate. rewrite repeat_length.
    destruct (Nat.ltb_spec n 2); [ reflexivity | lia ].
  - rewrite zero_crossing_rate_unfold by (rewrite repeat_length; exact Hge).
    unfold centered. rewrite !map_repeat, sign_changes_repeat.
    unfold is_zero. apply Qeq_bool_iff. unfold Qdiv. apply Qmult_0_l.
Qed.

(** C8, as the code has it.  With fewer than two samples the rate is
    [0.0]; otherwise it is the number of adjacent pairs of the
    mean-centred series whose signs differ, divided by [n - 1].  It is
    therefore [0.0] when the centred series has no sign change, as for a
    constant series, and exactly [1.0] when the signs of the centred series
    alternate. *)
Theorem C8_zero_crossing_rate_is_fraction_of_sign_changes :
  forall series : list fval,
    let n := length series in
    let changes := sign_changes (map signbit (centered series)) in
    ((n < 2)%nat -> _zero_crossing_rate series = Fin 0)
    /\ ((2 <= n)%nat ->
        _zero_crossing_rate series
        = Fin (inject_Z (Z.of_nat changes) / inject_Z (Z.of_nat (n - 1)))
        /\ (changes <= n - 1)%nat
        /\ (changes = O -> is_zero (_zero_crossing_rate series) = true)
        /\ (alternating (map signbit (centered series)) = true ->
            feqb (_zero_crossing_rate series) (Fin 1) = true))
    /\ (forall v, series = repeat v n ->
        is_zero (_zero_crossing_rate series) = true).
Proof.
  intros series. cbv zeta.
  assert (Hlen : length (map signbit (centered series)) = length series)
    by (unfold centered; now rewrite !length_map).
  split; [ | split ].
  - intros Hn. unfold _zero_crossing_rate.
    destruct (Nat.ltb_spec (length series) 2); [ reflexivity | lia ].
  - intros Hn. rewrite zero_crossing_rate_unfold by exact Hn.
    assert (Hpos : (0 < inject_Z (Z.of_nat (length series - 1)))%Q).
    { change 0%Q with (inject_Z 0). rewrite <- Zlt_Qlt. lia. }
    split; [ reflexivity | split; [ | split ] ].
    + rewrite <- Hlen. apply sign_changes_bound.
    + intros ->. unfold is_zero. apply Qeq_bool_iff.
      unfold Qdiv. apply Qmult_0_l.
    + intros Halt. apply alternating_changes in Halt.
      rewrite Hlen in Halt. rewrite Halt.
      unfold feqb, fcmp.
      replace (inject_Z (Z.of_nat (length series - 1))
               / inject_Z (Z.of_nat (length series - 1)) ?= 1)%Q
        with Eq; [ reflexivity | ].
      symmetry. apply Qeq_alt. apply Qmult_inv_r.
      intros E0. rewrite E0 in Hpos. discriminate Hpos.
  - intros v Ev. rewrite Ev. apply zero_crossing_rate_constant.
Qed.

Lemma C8_zero_crossing_rate_is_fraction_of_sign_changes_witness :
  _zero_crossing_rate [Fin 5] = Fin 0
  /\ _zero_crossing_rate [Fin 3; Fin (-1); Fin 3; Fin (-1)]
     = Fin (inject_Z 3 / inject_Z 3)
  /\ feqb (_zero_crossing_rate [Fin 3; Fin (-1); Fin 3; Fin (-1)]) (Fin 1) = true
  /\ is_zero (_zero_crossing_rate [Fin 7; Fin 7; Fin 7]) = true.
Proof.
  split; [ | split; [ | split ] ].
  - apply (proj1 (C8_zero_crossing_rate_is_fraction_of_sign_changes [Fin 5])).
    simpl. lia.
  - apply (proj1 (proj2 (C8_zero_crossing_rate_is_fraction_of_sign_changes
                           [Fin 3; Fin (-1); Fin 3; Fin (-1)]))).
    simpl. lia.
  - apply (proj1 (proj2 (C8_zero_crossing_rate_is_fraction_of_sign_changes
                           [Fin 3; Fin (-1); Fin 3; Fin (-1)]))).
    + simpl. lia.
    + reflexivity.
  - apply (proj2 (proj2 (C8_zero_crossing_rate_is_fraction_of_sign_changes
                           [Fin 7; Fin 7; Fin 7])) (Fin 7)).
    reflexivity.
Defined.

(** C8, as stated, fails: the series 1, 2, 3 is strictly monotonic; its
    centred series -1, 0, 1 is strictly monotonic too and changes sign
    once, so the rate is one half and not [0.0]. *)
Lemma C8_counterexample_strictly_monotonic_series :
  strictly_increasing [Fin 1; Fin 2; Fin 3] = true
  /\ strictly_increasing (centered [Fin 1; Fin 2; Fin 3]) = true
  /\ feqb (_zero_crossing_rate [Fin 1; Fin 2; Fin 3]) (Fin (1 # 2)) = true
  /\ is_zero (_zero_crossing_rate [Fin 1; Fin 2; Fin 3]) = false.
Proof. repeat split; reflexivity. Qed.

(** ** C2 and C4: threshold selection on a precision-recall curve *)

Lemma fltb_Fin (a b : Q) : fltb (Fin a) (Fin b) = true <-> (a < b)%Q.
Proof.
  unfold fltb, fcmp. rewrite Qlt_alt.
  destruct (a ?= b)%Q; split; intros E; congruence.
Qed.

Lemma fleb_Fin (a b : Q) : fleb (Fin a) (Fin b) = true <-> (a <= b)%Q.
Proof.
  unfold fleb, fcmp. rewrite Qle_alt.
  destruct (a ?= b)%Q; split; intros E; congruence.
Qed.

Lemma fltb_Fin_false (a b : Q) : fltb (Fin a) (Fin b) = false <-> (b <= a)%Q.
Proof.
  rewrite <- not_true_iff_false, fltb_Fin. split.
  - apply Qnot_lt_le.
  - apply Qle_not_lt.
Qed.

Lemma fleb_Fin_false (a b : Q) : fleb (Fin a) (Fin b) = false <-> (b < a)%Q.
Proof.
  rewrite <- not_true_iff_false, fleb_Fin. split.
  - apply Qnot_le_lt.
  - apply Qlt_not_le.
Qed.

Lemma argmax_from_Fin (qs : list Q) :
  forall (i best_i : nat) (b : Q),
    let r := argmax_from (map Fin qs) i best_i (Fin b) in
    (r = best_i /\ Forall (fun q => q <= b)%Q qs)
    \/ (exists j m,
          r = (i + j)%nat
          /\ nth_error qs j = Some m
          /\ (b < m)%Q
          /\ Forall (fun q => q <= m)%Q qs
          /\ forall k q, (k < j)%nat -> nth_error qs k = Some q -> (q < m)%Q).
Proof.
  induction qs as [| x qs IH]; intros i best_i b; cbn [map argmax_from].
  - left. split; [ reflexivity | constructor ].
  - cbn [is_nan negb orb andb].
    destruct (fltb (Fin b) (Fin x)) eqn:Ebx.
    + apply fltb_Fin in Ebx. right.
      destruct (IH (S i) i x) as [(Er & Hall) | (j & m & Er & Hj & Hxm & Hall & Hfirst)].
      * exists O, x. rewrite Er, Nat.add_0_r.
        split; [ reflexivity | ]. split; [ reflexivity | ].
        split; [ exact Ebx | ]. split.
        -- constructor; [ apply Qle_refl | exact Hall ].
        -- intros k q Hk. lia.
      * exists (S j), m. rewrite Er.
        split; [ lia | ]. split; [ exact Hj | ].
        split; [ eapply Qlt_trans; eauto | ]. split.
        -- constructor; [ now apply Qlt_le_weak | exact Hall ].
        -- intros [| k] q Hk Hq; simpl in Hq.
           ++ now injection Hq as <-.
           ++ apply (Hfirst k); [ lia | exact Hq ].
    + apply fltb_Fin_false in Ebx.
      destruct (IH (S i) best_i b) as [(Er & Hall) | (j & m & Er & Hj & Hbm & Hall & Hfirst)].
      * left. split; [ exact Er | constructor; assumption ].
      * right. exists (S j), m. rewrite Er.
        split; [ lia | ]. split; [ exact Hj | ].
        split; [ exact Hbm | ]. split.
        -- constructor; [ | exact Hall ].
           apply Qlt_le_weak. eapply Qle_lt_trans; eauto.
        -- intros [| k] q Hk Hq; simpl in Hq.
           ++ injection Hq as <-. eapply Qle_lt_trans; eauto.
           ++ apply (Hfirst k); [ lia | exact Hq ].
Qed.

(** [np.argmax] on finite values: the first index of the maximum. *)
Lemma np_argmax_Fin (q0 : Q) (qs : list Q) :
  exists best m,
    np_argmax (map Fin (q0 :: qs)) = Ok best
    /\ nth_error (q0 :: qs) best = Some m
    /\ Forall (fun q => q <= m)%Q (q0 :: qs)
    /\ forall k q, (k < best)%nat -> nth_error (q0 :: qs) k = Some q -> (q < m)%Q.
Proof.
  cbn [map np_argmax].
  destruct (argmax_from_Fin qs 1 0 q0)
    as [(Er & Hall) | (j & m & Er & Hj & Hbm & Hall & Hfirst)].
  - exists O, q0. rewrite Er.
    split; [ reflexivity | ]. split; [ reflexivity | ]. split.
    + constructor; [ apply Qle_refl | exact Hall ].
    + intros k q Hk. lia.
  - exists (S j), m. rewrite Er.
    split; [ reflexivity | ]. split; [ exact Hj | ]. split.
    + constructor; [ now apply Qlt_le_weak | exact Hall ].
    + intros [| k] q Hk Hq; simpl in Hq.
      * now injection Hq as <-.
      * apply (Hfirst k); [ lia | exact Hq ].
Qed.

Lemma np_zip_ok (op : fval -> fval -> fval) (xs ys : list fval) :
  length xs = length ys ->
  np_zip op xs ys = Ok (map (fun p => op (fst p) (snd p)) (combine xs ys)).
Proof.
  intros E. unfold np_zip. now rewrite E, Nat.eqb_refl.
Qed.

Lemma combine_map_map {A B C : Type} (f : A -> B) (g : A -> C) (l : list A) :
  combine (map f l) (map g l) = map (fun x => (f x, g x)) l.
Proof.
  induction l as [| x l IH]; simpl; [ reflexivity | now rewrite IH ].
Qed.

(** The array [f1_scores] of [_optimise_threshold]. *)
Lemma f1_scores_ok (precision recall : list fval) :
  length precision = length recall ->
  (products <- np_zip fmul precision recall ;;
   sums <- np_zip fadd precision recall ;;
   np_zip (fun pr s => fdiv (fmul (Fin 2) pr) (fadd s eps12)) products sums)
  = Ok (map (fun pr => f1_score (fst pr) (snd pr)) (combine precision recall)).
Proof.
  intros E. rewrite !(np_zip_ok _ _ _ E). cbn [bind].
  rewrite np_zip_ok by now rewrite !length_map.
  rewrite combine_map_map, map_map. reflexivity.
Qed.

Lemma f1_score_Fin (p r : Q) :
  (0 <= p)%Q -> (0 <= r)%Q ->
  f1_score (Fin p) (Fin r) = Fin (f1_rational p r) /\ (0 <= f1_rational p r)%Q.
Proof.
  intros Hp Hr. unfold f1_score, f1_rational, eps12. cbn [fmul fadd fdiv].
  assert (Hd : (0 < p + r + (1 # 1000000000000))%Q).
  { apply Qlt_le_trans with (0 + 0 + (1 # 1000000000000))%Q; [ reflexivity | ].
    apply Qplus_le_l. apply Qplus_le_compat; assumption. }
  destruct (Qeq_bool (p + r + (1 # 1000000000000)) 0) eqn:E0.
  { apply Qeq_bool_iff in E0. rewrite E0 in Hd. discriminate. }
  split; [ reflexivity | ].
  apply Qle_shift_div_l; [ exact Hd | ].
  rewrite Qmult_0_l.
  apply Qmult_le_0_compat; [ discriminate | ].
  now apply Qmult_le_0_compat.
Qed.

Lemma probability_inv (v : fval) :
  probability v = true -> exists q, v = Fin q /\ (0 <= q)%Q /\ (q <= 1)%Q.
Proof.
  unfold probability. destruct v as [q | | |]; try discriminate.
  cbn [is_finite andb]. intros E. apply andb_true_iff in E as (E0 & E1).
  exists q. split; [ reflexivity | ]. split; now apply fleb_Fin.
Qed.

Lemma probabilities_inv (vs : list fval) :
  forallb probability vs = true ->
  exists qs, vs = map Fin qs /\ Forall (fun q => 0 <= q /\ q <= 1)%Q qs.
Proof.
  induction vs as [| v vs IH]; simpl; intros E.
  - exists []. split; [ reflexivity | constructor ].
  - apply andb_true_iff in E as (Ev & E).
    destruct (probability_inv _ Ev) as (q & -> & Hq).
    destruct (IH E) as (qs & -> & Hqs).
    exists (q :: qs). split; [ reflexivity | now constructor ].
Qed.

(** The F1 scores of a curve of probabilities are finite and not
    negative. *)
Lemma f1_scores_Fin (ps rs : list Q) :
  Forall (fun q => 0 <= q /\ q <= 1)%Q ps ->
  Forall (fun q => 0 <= q /\ q <= 1)%Q rs ->
  map (fun pr => f1_score (fst pr) (snd pr)) (combine (map Fin ps) (map Fin rs))
  = map Fin (map (fun pr => f1_rational (fst pr) (snd pr)) (combine ps rs))
  /\ Forall (fun q => 0 <= q)%Q
       (map (fun pr => f1_rational (fst pr) (snd pr)) (combine ps rs)).
Proof.
  intros Hps. revert rs. induction Hps as [| p ps (Hp & _) _ IH]; intros rs Hrs.
  - split; [ reflexivity | constructor ].
  - destruct Hrs as [| r rs (Hr & _) Hrs]; [ split; [ reflexivity | constructor ] | ].
    cbn [map combine fst snd].
    destruct (f1_score_Fin Hp Hr) as (-> & H0).
    destruct (IH rs Hrs) as (-> & Hall).
    split; [ reflexivity | now constructor ].
Qed.

Lemma np_where_from_spec (mask : list bool) :
  forall i,
    match np_where_from i mask with
    | [] => forall k b, nth_error mask k = Some b -> b = false
    | idx :: _ =>
        exists j, idx = (i + j)%nat
                  /\ nth_error mask j = Some true
                  /\ forall k b, (k < j)%nat -> nth_error mask k = Some b -> b = false
    end.
Proof.
  induction mask as [| b mask IH]; intros i; cbn [np_where_from].
  - intros [| k] b E; discriminate.
  - destruct b.
    + exists O. split; [ lia | split; [ reflexivity | intros; lia ] ].
    + specialize (IH (S i)). destruct (np_where_from (S i) mask) as [| idx rest].
      * intros [| k] b E; simpl in E; [ congruence | eauto ].
      * destruct IH as (j & -> & Hj & Hfirst).
        exists (S j). split; [ lia | split; [ exact Hj | ] ].
        intros [| k] b Hk E; simpl in E; [ congruence | ].
        apply (Hfirst k); [ lia | exact E ].
Qed.

Lemma np_get_nth (xs : list fval) (i : nat) (v : fval) :
  nth_error xs i = Some v -> np_get xs i = Ok v.
Proof. unfold np_get. now intros ->. Qed.

Lemma nth_error_exists {A : Type} (l : list A) (i : nat) :
  (i < length l)%nat -> exists x, nth_error l i = Some x.
Proof.
  intros Hi. destruct (nth_error l i) as [x |] eqn:E; [ eauto | ].
  apply nth_error_None in E. lia.
Qed.

Lemma nth_error_combine_inv {A B : Type} (xs : list A) (ys : list B) :
  forall i x y,
    nth_error (combine xs ys) i = Some (x, y) ->
    nth_error xs i = Some x /\ nth_error ys i = Some y.
Proof.
  revert ys. induction xs as [| a xs IH]; intros [| b ys] [| i] x y E;
    simpl in *; try discriminate.
  - injection E as <- <-. auto.
  - eauto.
Qed.

(** The value of [_optimise_threshold] on a curve whose precision and
    recall have one entry more than the thresholds, in terms of the two
    indices it computes: [best] (the argmax of the F1 scores) and the head
    of [target_idx]. *)
Lemma optimise_on_curve_value (target : fval) (ps rs : list Q) (thresholds : list fval) :
  length ps = S (length thresholds) ->
  length rs = S (length thresholds) ->
  Forall (fun q => 0 <= q /\ q <= 1)%Q ps ->
  Forall (fun q => 0 <= q /\ q <= 1)%Q rs ->
  let scores := map (fun pr => f1_rational (fst pr) (snd pr)) (combine ps rs) in
  let candidates := Fin 0 :: thresholds in
  exists best m c p r,
    nth_error scores best = Some m
    /\ Forall (fun q => q <= m)%Q scores
    /\ (forall k q, (k < best)%nat -> nth_error scores k = Some q -> (q < m)%Q)
    /\ nth_error candidates best = Some c
    /\ nth_error ps best = Some p
    /\ nth_error rs best = Some r
    /\ m = f1_rational p r
    /\ exists recall_point,
         optimise_on_curve target (map Fin ps) (map Fin rs) thresholds
         = Ok [ ("optimal_threshold", c);
                ("optimal_precision", Fin p);
                ("optimal_recall", Fin r);
                ("recall_threshold", fst (fst recall_point));
                ("recall_precision", snd (fst recall_point));
                ("recall_recall", snd recall_point) ]
         /\ match np_where (map (fun v => fleb target v) (map Fin rs)) with
            | idx :: _ =>
                exists ci pi ri,
                  nth_error candidates idx = Some ci
                  /\ nth_error ps idx = Some pi
                  /\ nth_error rs idx = Some ri
                  /\ recall_point = (ci, Fin pi, Fin ri)
            | [] => recall_point = (c, Fin p, Fin r)
            end.
Proof.
  intros Hlp Hlr Hps Hrs. cbv zeta.
  remember (map (fun pr => f1_rational (fst pr) (snd pr)) (combine ps rs))
    as scores eqn:Escores.
  set (candidates := Fin 0 :: thresholds).
  assert (Hls : length scores = S (length thresholds)).
  { subst scores. rewrite length_map, length_combine. lia. }
  destruct scores as [| q0 qs]; [ discriminate | ].
  destruct (np_argmax_Fin q0 qs) as (best & m & Earg & Hm & Hall & Hfirst).
  assert (Hbest : (best < S (length thresholds))%nat).
  { rewrite <- Hls. apply nth_error_Some. rewrite Hm. discriminate. }
  destruct (@nth_error_exists _ candidates best) as (c & Hc);
    [ subst candidates; simpl; lia | ].
  destruct (@nth_error_exists _ ps best) as (p & Hp); [ lia | ].
  destruct (@nth_error_exists _ rs best) as (r & Hr); [ lia | ].
  exists best, m, c, p, r.
  assert (Em : m = f1_rational p r).
  { rewrite Escores, nth_error_map in Hm.
    destruct (nth_error (combine ps rs) best) as [[p' r'] |] eqn:Ecomb;
      [ | discriminate ].
    injection Hm as <-.
    apply nth_error_combine_inv in Ecomb as (Ep & Er).
    rewrite Hp in Ep. rewrite Hr in Er.
    injection Ep as <-. injection Er as <-. reflexivity. }
  repeat (split; [ assumption | ]).
  unfold optimise_on_curve.
  rewrite !np_zip_ok by (rewrite ?length_map; lia). cbn [bind].
  rewrite np_zip_ok by (rewrite !length_map; reflexivity).
  cbn [bind]. rewrite combine_map_map, map_map. cbn [fst snd].
  change (map (fun x : fval * fval =>
                 fdiv (fmul (Fin 2) (fmul (fst x) (snd x)))
                   (fadd (fadd (fst x) (snd x)) eps12))
            (combine (map Fin ps) (map Fin rs)))
    with (map (fun pr => f1_score (fst pr) (snd pr))
            (combine (map Fin ps) (map Fin rs))).
  rewrite (proj1 (f1_scores_Fin Hps Hrs)).
  fold candidates. rewrite <- Escores, Earg. cbn [bind].
  replace (Nat.min best (length candidates - 1)) with best
    by (subst candidates; simpl; lia).
  rewrite (np_get_nth _ _ Hc). cbn [bind].
  assert (HP : np_get (map Fin ps) best = Ok (Fin p))
    by (apply np_get_nth; rewrite nth_error_map, Hp; reflexivity).
  assert (HR : np_get (map Fin rs) best = Ok (Fin r))
    by (apply np_get_nth; rewrite nth_error_map, Hr; reflexivity).
  assert (Hwhere := np_where_from_spec (map (fun v => fleb target v) (map Fin rs)) 0).
  unfold np_where.
  destruct (np_where_from 0 (map (fun v => fleb target v) (map Fin rs)))
    as [| idx rest].
  - rewrite HP, HR. cbn [bind fst snd].
    exists (c, Fin p, Fin r). split; reflexivity.
  - destruct Hwhere as (j & -> & Hj & _). simpl Nat.add.
    assert (Hjlt : (j < S (length thresholds))%nat).
    { rewrite <- Hlr, <- (length_map Fin rs),
        <- (length_map (fun v => fleb target v) (map Fin rs)).
      apply nth_error_Some. rewrite Hj. discriminate. }
    destruct (@nth_error_exists _ candidates j) as (ci & Hci);
      [ subst candidates; simpl; lia | ].
    destruct (@nth_error_exists _ ps j) as (pi & Hpi); [ lia | ].
    destruct (@nth_error_exists _ rs j) as (ri & Hri); [ lia | ].
    replace (Nat.min j (length candidates - 1)) with j
      by (subst candidates; simpl; lia).
    rewrite (np_get_nth _ _ Hci). cbn [bind].
    rewrite (np_get_nth (map Fin ps) j (v := Fin pi))
      by (rewrite nth_error_map, Hpi; reflexivity).
    rewrite (np_get_nth (map Fin rs) j (v := Fin ri))
      by (rewrite nth_error_map, Hri; reflexivity).
    cbn [bind]. rewrite HP, HR. cbn [bind fst snd].
    exists (ci, Fin pi, Fin ri). split; [ reflexivity | ].
    exists ci, pi, ri. auto.
Qed.

Lemma nondecreasing_Fin_head (q : Q) (qs : list Q) :
  nondecreasing (map Fin (q :: qs)) = true ->
  Forall (fun x => q <= x)%Q qs /\ nondecreasing (map Fin qs) = true.
Proof.
  revert q. induction qs as [| x qs IH]; intros q E.
  - split; [ constructor | reflexivity ].
  - change (nondecreasing (map Fin (q :: x :: qs)))
      with (fleb (Fin q) (Fin x) && nondecreasing (map Fin (x :: qs))) in E.
    apply andb_true_iff in E as (Eqx & E). apply fleb_Fin in Eqx.
    destruct (IH x E) as (Hall & _).
    split; [ | exact E ].
    constructor; [ exact Eqx | ].
    eapply Forall_impl; [ | exact Hall ].
    intros y Hy. apply Qle_trans with x; assumption.
Qed.

Lemma nondecreasing_Fin_nth (qs : list Q) :
  nondecreasing (map Fin qs) = true ->
  forall i j a b,
    (i <= j)%nat -> nth_error qs i = Some a -> nth_error qs j = Some b ->
    (a <= b)%Q.
Proof.
  induction qs as [| q qs IH]; intros E i j a b Hij Ha Hb.
  - destruct i; discriminate.
  - destruct (nondecreasing_Fin_head _ _ E) as (Hall & E').
    destruct i as [| i], j as [| j]; simpl in Ha, Hb; try lia.
    + injection Ha as <-. injection Hb as <-. apply Qle_refl.
    + injection Ha as <-. rewrite Forall_forall in Hall.
      apply Hall. eapply nth_error_In; eauto.
    + apply (IH E' i j); [ lia | assumption | assumption ].
Qed.

Lemma nonincreasing_Fin_head (q : Q) (qs : list Q) :
  nonincreasing (map Fin (q :: qs)) = true ->
  Forall (fun x => x <= q)%Q qs /\ nonincreasing (map Fin qs) = true.
Proof.
  revert q. induction qs as [| x qs IH]; intros q E.
  - split; [ constructor | reflexivity ].
  - change (nonincreasing (map Fin (q :: x :: qs)))
      with (fleb (Fin x) (Fin q) && nonincreasing (map Fin (x :: qs))) in E.
    apply andb_true_iff in E as (Eqx & E). apply fleb_Fin in Eqx.
    destruct (IH x E) as (Hall & _).
    split; [ | exact E ].
    constructor; [ exact Eqx | ].
    eapply Forall_impl; [ | exact Hall ].
    intros y Hy. apply Qle_trans with x; assumption.
Qed.

Lemma fleb_Fin_trans (target : fval) (a b : Q) :
  fleb target (Fin a) = true -> (a <= b)%Q -> fleb target (Fin b) = true.
Proof.
  destruct target as [t | | |]; try (intros; assumption || discriminate).
  intros E Hab. apply fleb_Fin in E. apply fleb_Fin.
  eapply Qle_trans; eauto.
Qed.

(** The parts of the contract of a precision-recall curve. *)
Lemma curve_contract_inv (precision recall thresholds : list fval) :
  curve_contract precision recall thresholds = true ->
  exists ps rs ts,
    precision = map Fin ps /\ recall = map Fin rs /\ thresholds = map Fin ts
    /\ (1 <= length ts)%nat
    /\ length ps = S (length ts) /\ length rs = S (length ts)
    /\ Forall (fun q => 0 <= q /\ q <= 1)%Q ps
    /\ Forall (fun q => 0 <= q /\ q <= 1)%Q rs
    /\ Forall (fun q => 0 <= q /\ q <= 1)%Q ts
    /\ nondecreasing (map Fin ts) = true
    /\ nonincreasing (map Fin rs) = true
    /\ is_zero (last (map Fin rs) NaN) = true.
Proof.
  unfold curve_contract. intros E.
  repeat (apply andb_true_iff in E as (E & ?)).
  destruct (probabilities_inv precision) as (ps & -> & Hps); [ assumption | ].
  destruct (probabilities_inv recall) as (rs & -> & Hrs); [ assumption | ].
  destruct (probabilities_inv thresholds) as (ts & -> & Hts); [ assumption | ].
  rewrite !length_map in *.
  exists ps, rs, ts.
  repeat match goal with
         | H : (_ =? _)%nat = true |- _ => apply Nat.eqb_eq in H
         | H : (_ <=? _)%nat = true |- _ => apply Nat.leb_le in H
         end.
  repeat split; assumption.
Qed.

Lemma f1_rational_zero_recall (p r : Q) : (r == 0)%Q -> (f1_rational p r == 0)%Q.
Proof.
  intros Hr. unfold f1_rational. rewrite Hr.
  unfold Qdiv. rewrite Qmult_0_r, Qmult_0_r, Qmult_0_l. reflexivity.
Qed.

Lemma last_nth_error {A : Type} (l : list A) (d : A) (n : nat) :
  length l = S n -> nth_error l n = Some (last l d).
Proof.
  revert n. induction l as [| x l IH]; intros n E; [ discriminate | ].
  destruct l as [| y l].
  - injection E as <-. reflexivity.
  - destruct n as [| n]; [ discriminate | ].
    simpl nth_error. change (last (x :: y :: l) d) with (last (y :: l) d).
    apply IH. simpl in E |- *. lia.
Qed.

(** The F1-optimal point chosen on a curve that meets the contract. *)
Lemma optimal_threshold_on_curve :
  forall (target : fval) (precision recall thresholds : list fval),
    curve_contract precision recall thresholds = true ->
    let candidates := Fin 0 :: thresholds in
    length candidates = length precision
    /\ length candidates = length recall
    /\ exists info best c p r,
         optimise_on_curve target precision recall thresholds = Ok info
         /\ nth_error candidates best = Some c
         /\ nth_error precision best = Some p
         /\ nth_error recall best = Some r
         /\ dict_get "optimal_threshold" info = Some c
         /\ dict_get "optimal_precision" info = Some p
         /\ dict_get "optimal_recall" info = Some r
         /\ (forall i pi ri,
               nth_error precision i = Some pi -> nth_error recall i = Some ri ->
               fleb (f1_score pi ri) (f1_score p r) = true)
         /\ (forall i pi ri,
               (i < best)%nat ->
               nth_error precision i = Some pi -> nth_error recall i = Some ri ->
               fltb (f1_score pi ri) (f1_score p r) = true)
         /\ (best < length thresholds)%nat.
Proof.
  intros target precision recall thresholds Hc.
  apply curve_contract_inv in Hc
    as (ps & rs & ts & -> & -> & -> & Hn & Hlp & Hlr & Hps & Hrs & Hts
        & Hinc & Hdec & Hlast).
  cbv zeta. rewrite !length_map. cbn [length]. rewrite !length_map.
  split; [ lia | split; [ lia | ] ].
  destruct (@optimise_on_curve_value target ps rs (map Fin ts))
    as (best & m & c & p & r & Hm & Hall & Hfirst & Hcand & Hp & Hr & Em
        & point & Eval & _);
    rewrite ?length_map; try assumption.
  eexists. exists best, c, (Fin p), (Fin r).
  split; [ exact Eval | ].
  split; [ exact Hcand | ].
  split; [ rewrite nth_error_map, Hp; reflexivity | ].
  split; [ rewrite nth_error_map, Hr; reflexivity | ].
  do 3 (split; [ reflexivity | ]).
  assert (Hscore : forall i pi ri,
            nth_error (map Fin ps) i = Some pi ->
            nth_error (map Fin rs) i = Some ri ->
            exists a b,
              pi = Fin a /\ ri = Fin b /\ (0 <= a)%Q /\ (0 <= b)%Q
              /\ nth_error (map (fun pr => f1_rational (fst pr) (snd pr))
                              (combine ps rs)) i
                 = Some (f1_rational a b)).
  { intros i pi ri Hpi Hri. rewrite nth_error_map in Hpi, Hri.
    destruct (nth_error ps i) as [a |] eqn:Ea; [ | discriminate ].
    destruct (nth_error rs i) as [b |] eqn:Eb; [ | discriminate ].
    injection Hpi as <-. injection Hri as <-.
    exists a, b. rewrite Forall_forall in Hps, Hrs.
    split; [ reflexivity | split; [ reflexivity | ] ].
    split; [ apply Hps; eapply nth_error_In; eauto | ].
    split; [ apply Hrs; eapply nth_error_In; eauto | ].
    rewrite nth_error_map.
    replace (nth_error (combine ps rs) i) with (Some (a, b)); [ reflexivity | ].
    symmetry. clear -Ea Eb. revert rs i Ea Eb.
    induction ps as [| x ps IH]; intros [| y rs] [| i] Ea Eb;
      simpl in *; try discriminate.
    - congruence.
    - auto. }
  assert (H0p : (0 <= p)%Q)
    by (rewrite Forall_forall in Hps; apply Hps; eapply nth_error_In; eauto).
  assert (H0r : (0 <= r)%Q)
    by (rewrite Forall_forall in Hrs; apply Hrs; eapply nth_error_In; eauto).
  destruct (f1_score_Fin H0p H0r) as (Ebest & _).
  rewrite Ebest, <- Em.
  split; [ | split ].
  - intros i pi ri Hpi Hri.
    destruct (Hscore i pi ri Hpi Hri) as (a & b & -> & -> & Ha & Hb & Hi).
    destruct (f1_score_Fin Ha Hb) as (-> & _). apply fleb_Fin.
    rewrite Forall_forall in Hall. apply Hall. eapply nth_error_In; eauto.
  - intros i pi ri Hlt Hpi Hri.
    destruct (Hscore i pi ri Hpi Hri) as (a & b & -> & -> & Ha & Hb & Hi).
    destruct (f1_score_Fin Ha Hb) as (-> & _). apply fltb_Fin.
    eapply Hfirst; eauto.
  - (* the last point has recall 0, hence F1 = 0, and is never the first maximum *)
    assert (Hle : (best < S (length ts))%nat).
    { rewrite <- Hlp. apply nth_error_Some. rewrite Hp. discriminate. }
    destruct (Nat.eq_dec best (length ts)) as [-> | Hne]; [ exfalso | lia ].
    assert (Hrl := last_nth_error (map Fin rs) NaN (n := length ts)
                     ltac:(rewrite length_map; exact Hlr)).
    rewrite nth_error_map, Hr in Hrl. cbn [option_map] in Hrl.
    injection Hrl as Hrl. rewrite <- Hrl in Hlast.
    unfold is_zero in Hlast. apply Qeq_bool_iff in Hlast.
    destruct (@nth_error_exists _ ps O) as (a & Ha); [ lia | ].
    destruct (@nth_error_exists _ rs O) as (b & Hb); [ lia | ].
    destruct (Hscore O (Fin a) (Fin b)) as (a' & b' & Ea & Eb & Ha' & Hb' & H0);
      try (rewrite nth_error_map, ?Ha, ?Hb; reflexivity).
    injection Ea as <-. injection Eb as <-.
    assert (Hlt := Hfirst O _ ltac:(lia) H0).
    rewrite Em, (f1_rational_zero_recall p Hlast) in Hlt.
    destruct (f1_score_Fin Ha' Hb') as (_ & Hge).
    apply (Qlt_not_le _ _ Hlt Hge).
Qed.

(** The recall point chosen on a curve that meets the contract. *)
Lemma recall_threshold_on_curve :
  forall (target : fval) (precision recall thresholds : list fval),
    curve_contract precision recall thresholds = true ->
    let candidates := Fin 0 :: thresholds in
    exists info ot op or rt rp rr,
      optimise_on_curve target precision recall thresholds = Ok info
      /\ dict_get "optimal_threshold" info = Some ot
      /\ dict_get "optimal_precision" info = Some op
      /\ dict_get "optimal_recall" info = Some or
      /\ dict_get "recall_threshold" info = Some rt
      /\ dict_get "recall_precision" info = Some rp
      /\ dict_get "recall_recall" info = Some rr
      /\ (existsb (fun v => fleb target v) recall = true ->
          exists idx,
            nth_error candidates idx = Some rt
            /\ nth_error precision idx = Some rp
            /\ nth_error recall idx = Some rr
            /\ fleb target rr = true
            /\ (forall j v,
                  (j < idx)%nat -> nth_error recall j = Some v ->
                  fleb target v = false)
            /\ (forall j c v,
                  nth_error candidates j = Some c ->
                  nth_error recall j = Some v ->
                  fleb target v = true -> fleb rt c = true)
            /\ fleb rt ot = true)
      /\ (existsb (fun v => fleb target v) recall = false ->
          rt = ot /\ rp = op /\ rr = or).
Proof.
  intros target precision recall thresholds Hc.
  apply curve_contract_inv in Hc
    as (ps & rs & ts & -> & -> & -> & Hn & Hlp & Hlr & Hps & Hrs & Hts
        & Hinc & Hdec & Hlast).
  cbv zeta.
  destruct (@optimise_on_curve_value target ps rs (map Fin ts))
    as (best & m & c & p & r & Hm & Hall & Hfirst & Hcand & Hp & Hr & Em
        & point & Eval & Hpoint);
    rewrite ?length_map; try assumption.
  exists [ ("optimal_threshold", c); ("optimal_precision", Fin p);
           ("optimal_recall", Fin r);
           ("recall_threshold", fst (fst point));
           ("recall_precision", snd (fst point));
           ("recall_recall", snd point) ].
  exists c, (Fin p), (Fin r), (fst (fst point)), (snd (fst point)), (snd point).
  split; [ exact Eval | ].
  do 6 (split; [ reflexivity | ]).
  (* the candidates, as rationals *)
  assert (Hcands : nondecreasing (map Fin (0%Q :: ts)) = true).
  { destruct ts as [| t0 ts]; [ reflexivity | ].
    change (fleb (Fin 0) (Fin t0) && nondecreasing (map Fin (t0 :: ts)) = true).
    rewrite Hinc, andb_true_r. apply fleb_Fin.
    apply (Forall_inv Hts). }
  change (Fin 0 :: map Fin ts) with (map Fin (0%Q :: ts)) in *.
  assert (Hwhere := np_where_from_spec (map (fun v => fleb target v) (map Fin rs)) 0).
  unfold np_where in Hpoint.
  destruct (np_where_from 0 (map (fun v => fleb target v) (map Fin rs)))
    as [| idx rest].
  - (* the target is reached nowhere *)
    subst point. cbn [fst snd]. split; [ | auto ].
    intros Hex. exfalso.
    apply existsb_exists in Hex as (v & Hin & Hv).
    apply In_nth_error in Hin as (k & Hk).
    assert (E := Hwhere k (fleb target v)).
    rewrite nth_error_map, Hk in E. specialize (E eq_refl). congruence.
  - destruct Hwhere as (j & -> & Hj & Hbefore). simpl Nat.add in *.
    destruct Hpoint as (ci & pi & ri & Hci & Hpi & Hri & ->). cbn [fst snd].
    split; [ intros _ | ].
    + exists j.
      split; [ exact Hci | ].
      split; [ rewrite nth_error_map, Hpi; reflexivity | ].
      split; [ rewrite nth_error_map, Hri; reflexivity | ].
      assert (Hreach : fleb target (Fin ri) = true).
      { rewrite !nth_error_map, Hri in Hj. now injection Hj. }
      split; [ exact Hreach | ].
      split.
      { intros k v Hk Hv.
        assert (E := Hbefore k (fleb target v) Hk).
        rewrite nth_error_map, Hv in E. now specialize (E eq_refl). }
      rewrite nth_error_map in Hci.
      destruct (nth_error (0%Q :: ts) j) as [cq |] eqn:Ecq; [ | discriminate ].
      injection Hci as <-.
      split.
      * intros k ck v Hck Hv Hreach_k.
        rewrite nth_error_map in Hck.
        destruct (nth_error (0%Q :: ts) k) as [ckq |] eqn:Eck; [ | discriminate ].
        injection Hck as <-. apply fleb_Fin.
        assert (Hjk : (j <= k)%nat).
        { destruct (Nat.le_gt_cases j k) as [Hle | Hgt]; [ exact Hle | exfalso ].
          assert (E := Hbefore k (fleb target v) Hgt).
          rewrite nth_error_map, Hv in E. specialize (E eq_refl). congruence. }
        apply (@nondecreasing_Fin_nth (0%Q :: ts) Hcands j k);
          [ exact Hjk | exact Ecq | exact Eck ].
      * (* the recall decreases: the first index reaching the target is 0 *)
        assert (Hj0 : j = O).
        { destruct j as [| j]; [ reflexivity | exfalso ].
          destruct rs as [| r0 rs]; [ discriminate | ].
          destruct (nonincreasing_Fin_head _ _ Hdec) as (Hhead & _).
          simpl in Hri. rewrite Forall_forall in Hhead.
          assert (Hle : (ri <= r0)%Q) by (apply Hhead; eapply nth_error_In; eauto).
          assert (E := Hbefore O (fleb target (Fin r0)) ltac:(lia) eq_refl).
          rewrite (fleb_Fin_trans _ Hreach Hle) in E. discriminate. }
        subst j. simpl in Ecq. injection Ecq as <-.
        rewrite nth_error_map in Hcand.
        destruct (nth_error (0%Q :: ts) best) as [cq |] eqn:Ebest; [ | discriminate ].
        injection Hcand as <-. apply fleb_Fin.
        apply (@nondecreasing_Fin_nth (0%Q :: ts) Hcands O best);
          [ lia | reflexivity | exact Ebest ].
    + intros Hnone. exfalso.
      assert (Hin : In true (map (fun v => fleb target v) (map Fin rs)))
        by (eapply nth_error_In; eauto).
      apply in_map_iff in Hin as (v & Hv & Hin).
      apply not_true_iff_false in Hnone. apply Hnone.
      apply existsb_exists. eauto.
Qed.

Lemma optimise_threshold_on_curve `{Learner} (det : Detector)
    (y_true : list cell) (y_proba precision recall thresholds : list fval) :
  precision_recall_curve y_true y_proba = Ok (precision, recall, thresholds) ->
  _optimise_threshold det y_true y_proba
  = optimise_on_curve (target_recall det) precision recall thresholds.
Proof. unfold _optimise_threshold. now intros ->. Qed.

(** C2.  Let [precision_recall_curve] return the arrays of a curve
    (precision and recall with one entry more than the thresholds).  The
    candidate array of [_optimise_threshold] is [0.0] followed by the
    thresholds, so it has as many entries as precision and recall and is
    paired with them index by index.  The function returns;
    [optimal_threshold] is the candidate at the first index that maximises
    [F1 = 2PR / (P + R + 1e-12)], and [optimal_precision] and
    [optimal_recall] are precision and recall at this index.  This index is
    never the last one: the final precision/recall point, the one without
    a threshold, takes no part in the choice. *)
Theorem C2_optimal_threshold_maximises_f1 `{Learner} :
  forall (det : Detector) (y_true : list cell)
         (y_proba precision recall thresholds : list fval),
    precision_recall_curve y_true y_proba = Ok (precision, recall, thresholds) ->
    curve_contract precision recall thresholds = true ->
    let candidates := Fin 0 :: thresholds in
    length candidates = length precision
    /\ length candidates = length recall
    /\ exists info best c p r,
         _optimise_threshold det y_true y_proba = Ok info
         /\ nth_error candidates best = Some c
         /\ nth_error precision best = Some p
         /\ nth_error recall best = Some r
         /\ dict_get "optimal_threshold" info = Some c
         /\ dict_get "optimal_precision" info = Some p
         /\ dict_get "optimal_recall" info = Some r
         /\ (forall i pi ri,
               nth_error precision i = Some pi -> nth_error recall i = Some ri ->
               fleb (f1_score pi ri) (f1_score p r) = true)
         /\ (forall i pi ri,
               (i < best)%nat ->
               nth_error precision i = Some pi -> nth_error recall i = Some ri ->
               fltb (f1_score pi ri) (f1_score p r) = true)
         /\ (best < length thresholds)%nat.
Proof.
  intros det y_true y_proba precision recall thresholds Ecurve Hc.
  rewrite (optimise_threshold_on_curve det _ _ Ecurve).
  now apply optimal_threshold_on_curve.
Qed.

(** C4.  Let [precision_recall_curve] return the arrays of a curve.
    [_optimise_threshold] returns.  [optimal_threshold],
    [optimal_precision] and [optimal_recall] are the candidate, the
    precision and the recall at the first index [best] that maximises
    [F1 = 2PR / (P + R + 1e-12)].  When some recall entry reaches
    [target_recall], [recall_threshold] is the candidate at the first such
    index, with [recall_precision] and [recall_recall] the precision and
    recall there; since the candidates increase it is the smallest
    candidate whose recall reaches the target, and since the recall
    decreases it is at most [optimal_threshold].  When no recall entry
    reaches the target, the three values are those at [best]: the
    F1-optimal threshold with its precision and recall. *)
Theorem C4_recall_threshold_is_smallest_reaching_target `{Learner} :
  forall (det : Detector) (y_true : list cell)
         (y_proba precision recall thresholds : list fval),
    precision_recall_curve y_true y_proba = Ok (precision, recall, thresholds) ->
    curve_contract precision recall thresholds = true ->
    let target := target_recall det in
    let candidates := Fin 0 :: thresholds in
    exists info best ot op or rt rp rr,
      _optimise_threshold det y_true y_proba = Ok info
      /\ dict_get "optimal_threshold" info = Some ot
      /\ dict_get "optimal_precision" info = Some op
      /\ dict_get "optimal_recall" info = Some or
      /\ dict_get "recall_threshold" info = Some rt
      /\ dict_get "recall_precision" info = Some rp
      /\ dict_get "recall_recall" info = Some rr
      /\ nth_error candidates best = Some ot
      /\ nth_error precision best = Some op
      /\ nth_error recall best = Some or
      /\ (forall i pi ri,
            nth_error precision i = Some pi -> nth_error recall i = Some ri ->
            fleb (f1_score pi ri) (f1_score op or) = true)
      /\ (forall i pi ri,
            (i < best)%nat ->
            nth_error precision i = Some pi -> nth_error recall i = Some ri ->
            fltb (f1_score pi ri) (f1_score op or) = true)
      /\ (existsb (fun v => fleb target v) recall = true ->
          exists idx,
            nth_error candidates idx = Some rt
            /\ nth_error precision idx = Some rp
            /\ nth_error recall idx = Some rr
            /\ fleb target rr = true
            /\ (forall j v,
                  (j < idx)%nat -> nth_error recall j = Some v ->
                  fleb target v = false)
            /\ (forall j c v,
                  nth_error candidates j = Some c ->
                  nth_error recall j = Some v ->
                  fleb target v = true -> fleb rt c = true)
            /\ fleb rt ot = true)
      /\ (existsb (fun v => fleb target v) recall = false ->
          rt = ot /\ rp = op /\ rr = or
          /\ nth_error candidates best = Some rt
          /\ nth_error precision best = Some rp
          /\ nth_error recall best = Some rr).
Proof.
  intros det y_true y_proba precision recall thresholds Ecurve Hc.
  cbv zeta. rewrite (optimise_threshold_on_curve det _ _ Ecurve).
  destruct (optimal_threshold_on_curve (target_recall det) _ _ _ Hc)
    as (_ & _ & info & best & c & p & r & Einfo & Hcb & Hpb & Hrb
        & G1 & G2 & G3 & Hmax & Hfirst & _).
  destruct (recall_threshold_on_curve (target_recall det) _ _ _ Hc)
    as (info' & ot & op & or & rt & rp & rr & Einfo' & D1 & D2 & D3 & D4 & D5
        & D6 & Hreach & Hfall).
  rewrite Einfo in Einfo'. injection Einfo' as <-.
  rewrite G1 in D1. injection D1 as <-.
  rewrite G2 in D2. injection D2 as <-.
  rewrite G3 in D3. injection D3 as <-.
  exists info, best, c, p, r, rt, rp, rr.
  split; [ exact Einfo | ].
  do 6 (split; [ assumption | ]).
  do 3 (split; [ assumption | ]).
  split; [ exact Hmax | split; [ exact Hfirst | ] ].
  split; [ exact Hreach | ].
  intros Hnone. destruct (Hfall Hnone) as (-> & -> & ->). auto 6.
Qed.

(** ** The statements above on the example frames *)

Lemma C1_group_window_count_and_offsets_witness :
  (exists slices,
      group_windows Examples.engineer_2_1 (df_rows Examples.two_vehicles)
      = Ok slices
      /\ Z.of_nat (length slices) = (6 - 2) / 1 + 1)
  /\ (exists w0 w1 w2 w3,
        group_windows Examples.engineer_100_50 (repeat [] 250)
        = Ok [(0, w0); (50, w1); (100, w2); (150, w3)]
        /\ map (window_index Examples.engineer_100_50) [0; 50; 100; 150]
           = [0; 1; 2; 3]
        /\ Forall (fun w : list Row => length w = 100%nat) [w0; w1; w2; w3]).
Proof.
  split.
  - destruct (proj1 (C1_group_window_count_and_offsets (H := RationalBackend.backend))
                Examples.engineer_2_1 Examples.two_vehicles default_sensor_cols []
                None "timestamp" (CStr "a") (df_rows Examples.two_vehicles)
                ltac:(reflexivity) ltac:(reflexivity))
      as (slices & Es & _ & Hlong).
    exists slices. split; [ exact Es | ].
    apply Hlong. simpl. lia.
  - apply (proj2 (C1_group_window_count_and_offsets (H := RationalBackend.backend))
             Examples.engineer_100_50 (repeat [] 250));
      reflexivity.
Defined.

Lemma C10_zero_step_size_is_default_hop_witness :
  exists eng,
    init 50 100 (Some 0) "accident" = Ok eng
    /\ init 50 100 None "accident" = Ok eng
    /\ step_size eng = 100 / 2
    /\ 0 < step_size eng
    /\ forall (A : Type) (group : list A) e0 e1,
         init 50 100 (Some 0) "accident" = Ok e0 ->
         init 50 100 None "accident" = Ok e1 ->
         group_windows e0 group = group_windows e1 group.
Proof.
  apply (@C10_zero_step_size_is_default_hop 50 100 "accident"). lia.
Defined.

Lemma two_vehicles_table_ok :
  transform (H := RationalBackend.backend) Examples.engineer_2_1
    Examples.two_vehicles default_sensor_cols "timestamp" "vehicle_id"
    (Some "event_severity") None
  = Ok Examples.two_vehicles_table.
Proof. vm_compute. reflexivity. Qed.

Lemma C5_window_label_is_any_and_ratio_is_mean_witness :
  exists wdf groups windows,
    working_frame Examples.engineer_2_1 Examples.two_vehicles default_sensor_cols
      "timestamp" "vehicle_id" = Ok wdf
    /\ groupby wdf "vehicle_id" = Ok groups
    /\ segment Examples.engineer_2_1 groups = Ok windows
    /\ Forall2
         (fun w row =>
            let samples := snd (snd w) in
            let labels :=
              map (fun r => row_get r (label_col Examples.engineer_2_1)) samples in
            incl samples (df_rows wdf)
            /\ Z.of_nat (length samples) = window_size Examples.engineer_2_1
            /\ (forallb binary_label labels = true ->
                (row_get row "label" = CNum (Fin 1)
                 <-> existsb (label_is 1) labels = true)
                /\ (row_get row "label" = CNum (Fin 0)
                    <-> existsb (label_is 1) labels = false)
                /\ let mean := (fold_left Qplus (map cell_Q labels) 0
                                / inject_Z (Z.of_nat (length labels)))%Q in
                   row_get row "positive_ratio" = CNum (Fin mean)
                   /\ (0 <= mean)%Q /\ (mean <= 1)%Q))
         windows (df_rows Examples.two_vehicles_table).
Proof.
  apply (C5_window_label_is_any_and_ratio_is_mean
           (H := RationalBackend.backend) Examples.engineer_2_1
           Examples.two_vehicles default_sensor_cols "timestamp" "vehicle_id"
           (Some "event_severity") None).
  - reflexivity.
  - vm_compute. reflexivity.
Defined.


Lemma C9_fit_columns_strictly_contain_inference_columns_witness :
  In "positive_ratio" (feature_columns Examples.drive_artifacts)
  /\ exists features_df,
       transform (H := RationalBackend.backend)
         (feature_engineer Examples.detector_2_1) Examples.drive
         default_sensor_cols "timestamp" "vehicle_id" (Some "event_severity") None
       = Ok features_df
       /\ feature_columns Examples.drive_artifacts
          = fit_feature_cols features_df
       /\ forall inference_df : DataFrame,
            columns inference_df = columns features_df ->
            predict_feature_cols inference_df
            = filter (fun c => negb (String.eqb c "positive_ratio"))
                (feature_columns Examples.drive_artifacts)
            /\ incl (predict_feature_cols inference_df)
                 (feature_columns Examples.drive_artifacts)
            /\ ~ In "positive_ratio" (predict_feature_cols inference_df)
            /\ (length (predict_feature_cols inference_df)
                < length (feature_columns Examples.drive_artifacts))%nat.
Proof.
  apply (C9_fit_columns_strictly_contain_inference_columns
           (H := RationalBackend.backend) (H0 := ReferenceLearner.learner)
           Examples.detector_2_1 Examples.drive None "timestamp"
           "vehicle_id" (Some "event_severity") None (Fin (1 # 5))).
  vm_compute. reflexivity.
Defined.

Lemma C2_optimal_threshold_maximises_f1_witness :
  let precision := fst (fst Examples.held_out_curve) in
  let recall := snd (fst Examples.held_out_curve) in
  let thresholds := snd Examples.held_out_curve in
  let candidates := Fin 0 :: thresholds in
  length candidates = length precision
  /\ length candidates = length recall
  /\ exists info best c p r,
       _optimise_threshold (H0 := ReferenceLearner.learner) Examples.detector_2_1
         Examples.held_out_labels Examples.held_out_probabilities = Ok info
       /\ nth_error candidates best = Some c
       /\ nth_error precision best = Some p
       /\ nth_error recall best = Some r
       /\ dict_get "optimal_threshold" info = Some c
       /\ dict_get "optimal_precision" info = Some p
       /\ dict_get "optimal_recall" info = Some r
       /\ (forall i pi ri,
             nth_error precision i = Some pi -> nth_error recall i = Some ri ->
             fleb (f1_score pi ri) (f1_score p r) = true)
       /\ (forall i pi ri,
             (i < best)%nat ->
             nth_error precision i = Some pi -> nth_error recall i = Some ri ->
             fltb (f1_score pi ri) (f1_score p r) = true)
       /\ (best < length thresholds)%nat.
Proof.
  apply (C2_optimal_threshold_maximises_f1 (H := ReferenceLearner.learner)
           Examples.detector_2_1 Examples.held_out_labels
           Examples.held_out_probabilities).
  - vm_compute. reflexivity.
  - vm_compute. reflexivity.
Defined.

Lemma C4_recall_threshold_is_smallest_reaching_target_witness :
  let precision := fst (fst Examples.held_out_curve) in
  let recall := snd (fst Examples.held_out_curve) in
  let thresholds := snd Examples.held_out_curve in
  let target := target_recall Examples.detector_unreachable in
  let candidates := Fin 0 :: thresholds in
  exists info best ot op or rt rp rr,
    _optimise_threshold (H0 := ReferenceLearner.learner)
      Examples.detector_unreachable
      Examples.held_out_labels Examples.held_out_probabilities = Ok info
    /\ dict_get "optimal_threshold" info = Some ot
    /\ dict_get "optimal_precision" info = Some op
    /\ dict_get "optimal_recall" info = Some or
    /\ dict_get "recall_threshold" info = Some rt
    /\ dict_get "recall_precision" info = Some rp
    /\ dict_get "recall_recall" info = Some rr
    /\ nth_error candidates best = Some ot
    /\ nth_error precision best = Some op
    /\ nth_error recall best = Some or
    /\ (forall i pi ri,
          nth_error precision i = Some pi -> nth_error recall i = Some ri ->
          fleb (f1_score pi ri) (f1_score op or) = true)
    /\ (forall i pi ri,
          (i < best)%nat ->
          nth_error precision i = Some pi -> nth_error recall i = Some ri ->
          fltb (f1_score pi ri) (f1_score op or) = true)
    /\ (existsb (fun v => fleb target v) recall = true ->
        exists idx,
          nth_error candidates idx = Some rt
          /\ nth_error precision idx = Some rp
          /\ nth_error recall idx = Some rr
          /\ fleb target rr = true
          /\ (forall j v,
                (j < idx)%nat -> nth_error recall j = Some v ->
                fleb target v = false)
          /\ (forall j c v,
                nth_error candidates j = Some c ->
                nth_error recall j = Some v ->
                fleb target v = true -> fleb rt c = true)
          /\ fleb rt ot = true)
    /\ (existsb (fun v => fleb target v) recall = false ->
        rt = ot /\ rp = op /\ rr = or
        /\ nth_error candidates best = Some rt
        /\ nth_error precision best = Some rp
        /\ nth_error recall best = Some rr).
Proof.
  apply (C4_recall_threshold_is_smallest_reaching_target
           (H := ReferenceLearner.learner)
           Examples.detector_unreachable Examples.held_out_labels
           Examples.held_out_probabilities).
  - vm_compute. reflexivity.
  - vm_compute. reflexivity.
Defined.

(** ** C7: a window at rest *)

(** *** Arithmetic on zeros *)

Lemma is_zero_inv (v : fval) :
  is_zero v = true -> exists q, v = Fin q /\ (q == 0)%Q.
Proof.
  destruct v as [q | | |]; try discriminate.
  intros E. exists q. split; [ reflexivity | now apply Qeq_bool_iff ].
Qed.

Lemma is_zero_Fin (q : Q) : (q == 0)%Q -> is_zero (Fin q) = true.
Proof. intros E. now apply Qeq_bool_iff. Qed.

Ltac zero_args :=
  repeat match goal with
         | H : is_zero ?v = true |- _ =>
             let q := fresh "q" in
             let Hq := fresh "Hq" in
             apply is_zero_inv in H as (q & -> & Hq)
         end.

Lemma zero_fadd (a b : fval) :
  is_zero a = true -> is_zero b = true -> is_zero (fadd a b) = true.
Proof.
  intros Ha Hb. zero_args. apply is_zero_Fin. rewrite Hq, Hq0. reflexivity.
Qed.

Lemma zero_fneg (a : fval) : is_zero a = true -> is_zero (fneg a) = true.
Proof.
  intros Ha. zero_args. apply is_zero_Fin. rewrite Hq. reflexivity.
Qed.

Lemma zero_fsub (a b : fval) :
  is_zero a = true -> is_zero b = true -> is_zero (fsub a b) = true.
Proof. intros Ha Hb. apply zero_fadd; [ exact Ha | now apply zero_fneg ]. Qed.

Lemma zero_fabs (a : fval) : is_zero a = true -> is_zero (fabs a) = true.
Proof.
  intros Ha. zero_args. apply is_zero_Fin. rewrite Hq. reflexivity.
Qed.

Lemma zero_fmul_Fin (a : fval) (q : Q) :
  is_zero a = true -> is_zero (fmul a (Fin q)) = true.
Proof.
  intros Ha. zero_args. apply is_zero_Fin. rewrite Hq. apply Qmult_0_l.
Qed.

Lemma zero_fmul (a b : fval) :
  is_zero a = true -> is_zero b = true -> is_zero (fmul a b) = true.
Proof. intros Ha Hb. zero_args. now apply zero_fmul_Fin, is_zero_Fin. Qed.

Lemma zero_fdiv_Fin (a : fval) (q : Q) :
  is_zero a = true -> ~ (q == 0)%Q -> is_zero (fdiv a (Fin q)) = true.
Proof.
  intros Ha Hq. zero_args. cbn [fdiv].
  destruct (Qeq_bool q 0) eqn:E; [ apply Qeq_bool_iff in E; contradiction | ].
  apply is_zero_Fin. unfold Qdiv. rewrite Hq0. apply Qmult_0_l.
Qed.

Lemma zero_fmax (a b : fval) :
  is_zero a = true -> is_zero b = true -> is_zero (fmax a b) = true.
Proof.
  intros Ha Hb. zero_args. unfold fmax. cbn [is_nan].
  match goal with |- context [fltb ?x ?y] => destruct (fltb x y) end;
    apply is_zero_Fin; assumption.
Qed.

Lemma zero_fmin (a b : fval) :
  is_zero a = true -> is_zero b = true -> is_zero (fmin a b) = true.
Proof.
  intros Ha Hb. zero_args. unfold fmin. cbn [is_nan].
  match goal with |- context [fltb ?x ?y] => destruct (fltb x y) end;
    apply is_zero_Fin; assumption.
Qed.

Lemma signbit_zero (a : fval) : is_zero a = true -> signbit a = false.
Proof.
  intros Ha. zero_args. cbn [signbit].
  apply Qeq_alt in Hq. now rewrite Hq.
Qed.

Lemma zero_or_nan_zero (a : fval) : is_zero a = true -> zero_or_nan a = true.
Proof. unfold zero_or_nan. now intros ->. Qed.

(** Zero times anything is zero or NaN. *)
Lemma zero_or_nan_fmul (a b : fval) :
  is_zero a = true -> zero_or_nan (fmul a b) = true.
Proof.
  intros Ha. destruct b as [q | | |].
  - now apply zero_or_nan_zero, zero_fmul_Fin.
  - zero_args. cbn [fmul fsign]. apply Qeq_alt in Hq. rewrite Hq. reflexivity.
  - zero_args. cbn [fmul fsign]. apply Qeq_alt in Hq. rewrite Hq. reflexivity.
  - zero_args. reflexivity.
Qed.

(** Zero or NaN, divided by anything, is zero or NaN. *)
Lemma zero_or_nan_fdiv (a b : fval) :
  zero_or_nan a = true -> zero_or_nan (fdiv a b) = true.
Proof.
  unfold zero_or_nan at 1. intros Ha. apply orb_true_iff in Ha as [Ha | Ha].
  - zero_args. destruct b as [p | | |]; cbn [fdiv]; try reflexivity.
    destruct (Qeq_bool p 0) eqn:E.
    + apply Qeq_alt in Hq. rewrite Hq. reflexivity.
    + apply zero_or_nan_zero, is_zero_Fin. unfold Qdiv. rewrite Hq.
      apply Qmult_0_l.
  - destruct a; try discriminate. reflexivity.
Qed.

Lemma zero_or_nan_fadd (a b : fval) :
  zero_or_nan a = true -> zero_or_nan b = true -> zero_or_nan (fadd a b) = true.
Proof.
  unfold zero_or_nan at 1 2. intros Ha Hb.
  apply orb_true_iff in Ha as [Ha | Ha]; apply orb_true_iff in Hb as [Hb | Hb].
  - now apply zero_or_nan_zero, zero_fadd.
  - destruct b; try discriminate. destruct a; reflexivity.
  - destruct a; try discriminate. reflexivity.
  - destruct a; try discriminate. reflexivity.
Qed.

Lemma zero_or_nan_fneg (a : fval) :
  zero_or_nan a = true -> zero_or_nan (fneg a) = true.
Proof.
  unfold zero_or_nan at 1. intros Ha. apply orb_true_iff in Ha as [Ha | Ha].
  - now apply zero_or_nan_zero, zero_fneg.
  - destruct a; try discriminate. reflexivity.
Qed.

(** *** Reductions of zero arrays *)

Lemma forallb_map_zero (f : fval -> fval) (xs : list fval) :
  (forall x, is_zero x = true -> is_zero (f x) = true) ->
  forallb is_zero xs = true -> forallb is_zero (map f xs) = true.
Proof.
  intros Hf. induction xs as [| x xs IH]; simpl; [ reflexivity | ].
  intros E. apply andb_true_iff in E as (Ex & E).
  rewrite (Hf x Ex), (IH E). reflexivity.
Qed.

Lemma zero_fold_fadd (xs : list fval) (acc : fval) :
  is_zero acc = true -> forallb is_zero xs = true ->
  is_zero (fold_left fadd xs acc) = true.
Proof.
  revert acc. induction xs as [| x xs IH]; simpl; intros acc Hacc E.
  - exact Hacc.
  - apply andb_true_iff in E as (Ex & E). apply IH; [ | exact E ].
    now apply zero_fadd.
Qed.

Lemma zero_np_sum (xs : list fval) :
  forallb is_zero xs = true -> is_zero (np_sum xs) = true.
Proof. apply zero_fold_fadd. reflexivity. Qed.

Lemma zero_or_nan_np_sum (xs : list fval) :
  forallb zero_or_nan xs = true -> zero_or_nan (np_sum xs) = true.
Proof.
  unfold np_sum. generalize (Fin 0) (eq_refl : zero_or_nan (Fin 0) = true).
  induction xs as [| x xs IH]; simpl; intros acc Hacc E.
  - exact Hacc.
  - apply andb_true_iff in E as (Ex & E). apply IH; [ | exact E ].
    now apply zero_or_nan_fadd.
Qed.

Lemma float_of_nat_nonzero (n : nat) :
  (0 < n)%nat -> ~ (inject_Z (Z.of_nat n) == 0)%Q.
Proof. intros Hn E. unfold Qeq in E. simpl in E. lia. Qed.

Lemma zero_np_mean (xs : list fval) :
  forallb is_zero xs = true -> (0 < length xs)%nat ->
  is_zero (np_mean xs) = true.
Proof.
  intros E Hn. unfold np_mean, float_of_nat, float_of_Z.
  apply zero_fdiv_Fin; [ now apply zero_np_sum | now apply float_of_nat_nonzero ].
Qed.

Lemma zero_np_square (xs : list fval) :
  forallb is_zero xs = true -> forallb is_zero (np_square xs) = true.
Proof. apply forallb_map_zero. intros x Hx. now apply zero_fmul. Qed.

Lemma zero_fold_pick (op : fval -> fval -> fval) (xs : list fval) (acc : fval) :
  (forall a b, is_zero a = true -> is_zero b = true -> is_zero (op a b) = true) ->
  is_zero acc = true -> forallb is_zero xs = true ->
  is_zero (fold_left op xs acc) = true.
Proof.
  intros Hop. revert acc. induction xs as [| x xs IH]; simpl; intros acc Hacc E.
  - exact Hacc.
  - apply andb_true_iff in E as (Ex & E). apply IH; [ | exact E ].
    now apply Hop.
Qed.

Lemma zero_np_max (xs : list fval) :
  forallb is_zero xs = true -> (0 < length xs)%nat ->
  exists v, np_max xs = Ok v /\ is_zero v = true.
Proof.
  destruct xs as [| x xs]; simpl; intros E Hn; [ lia | ].
  apply andb_true_iff in E as (Ex & E).
  eexists. split; [ reflexivity | ].
  apply zero_fold_pick; auto using zero_fmax.
Qed.

Lemma zero_np_min (xs : list fval) :
  forallb is_zero xs = true -> (0 < length xs)%nat ->
  exists v, np_min xs = Ok v /\ is_zero v = true.
Proof.
  destruct xs as [| x xs]; simpl; intros E Hn; [ lia | ].
  apply andb_true_iff in E as (Ex & E).
  eexists. split; [ reflexivity | ].
  apply zero_fold_pick; auto using zero_fmin.
Qed.

Lemma zero_np_diff (xs : list fval) :
  forallb is_zero xs = true -> forallb is_zero (np_diff xs) = true.
Proof.
  induction xs as [| x [| y xs] IH]; try reflexivity.
  intros E.
  change (np_diff (x :: y :: xs)) with (fsub y x :: np_diff (y :: xs)).
  cbn [forallb] in E |- *.
  apply andb_true_iff in E as (Ex & E).
  assert (E' := E). apply andb_true_iff in E' as (Ey & _).
  rewrite (zero_fsub _ _ Ey Ex). apply IH. exact E.
Qed.

Lemma np_diff_length (xs : list fval) : length (np_diff xs) = (length xs - 1)%nat.
Proof.
  induction xs as [| x [| y xs] IH]; try reflexivity.
  change (np_diff (x :: y :: xs)) with (fsub y x :: np_diff (y :: xs)).
  cbn [length] in *. lia.
Qed.

Lemma zero_np_std `{B : NumericBackend} {L : BackendLaws B} (xs : list fval) :
  forallb is_zero xs = true -> (0 < length xs)%nat ->
  is_zero (np_std xs) = true.
Proof.
  intros E Hn. unfold np_std. apply np_sqrt_zero.
  apply zero_np_mean; [ | unfold np_square; now rewrite !length_map ].
  apply zero_np_square, forallb_map_zero; [ | exact E ].
  intros x Hx. apply zero_fabs, zero_fsub; [ exact Hx | now apply zero_np_mean ].
Qed.

Lemma zero_signbits (xs : list fval) :
  forallb is_zero xs = true -> map signbit xs = repeat false (length xs).
Proof.
  induction xs as [| x xs IH]; simpl; intros E; [ reflexivity | ].
  apply andb_true_iff in E as (Ex & E).
  now rewrite (signbit_zero _ Ex), (IH E).
Qed.

Lemma zero_zero_crossing_rate (xs : list fval) :
  forallb is_zero xs = true -> is_zero (_zero_crossing_rate xs) = true.
Proof.
  intros E. destruct (Nat.ltb_spec (length xs) 2) as [Hlt | Hge].
  - unfold _zero_crossing_rate.
    destruct (Nat.ltb_spec (length xs) 2); [ reflexivity | lia ].
  - rewrite zero_crossing_rate_unfold by exact Hge.
    assert (Ec : forallb is_zero (centered xs) = true).
    { unfold centered. apply forallb_map_zero; [ | exact E ].
      intros x Hx. apply zero_fsub; [ exact Hx | ].
      apply zero_np_mean; [ exact E | lia ]. }
    rewrite (zero_signbits _ Ec), sign_changes_repeat.
    apply is_zero_Fin. unfold Qdiv. apply Qmult_0_l.
Qed.

(** *** Dictionaries of zero features *)

Lemma all_values_set (P : cell -> bool) (k : string) (v : cell) (d : Row) :
  P v = true -> all_values P d -> all_values P (dict_set k v d).
Proof.
  intros Hv. unfold all_values.
  induction d as [| [k' v'] d IH]; simpl; intros Hd.
  - constructor; [ exact Hv | constructor ].
  - destruct (String.eqb k k').
    + constructor; [ exact Hv | exact (Forall_inv_tail Hd) ].
    + constructor; [ exact (Forall_inv Hd) | exact (IH (Forall_inv_tail Hd)) ].
Qed.

Lemma all_values_update (P : cell -> bool) (d e : Row) :
  all_values P d -> all_values P e -> all_values P (dict_update d e).
Proof.
  unfold dict_update. revert d.
  induction e as [| [k v] e IH]; simpl; intros d Hd He; [ exact Hd | ].
  apply IH; [ | exact (Forall_inv_tail He) ].
  apply all_values_set; [ exact (Forall_inv He) | exact Hd ].
Qed.

Lemma all_values_update_all (P : cell -> bool) (features : Row) (dicts : pydict Row) :
  all_values P features ->
  Forall (fun kv => all_values P (snd kv)) dicts ->
  all_values P (update_all features dicts).
Proof.
  unfold update_all, dict_values. revert features.
  induction dicts as [| [k d] dicts IH]; simpl; intros features Hf Hd;
    [ exact Hf | ].
  apply IH; [ | exact (Forall_inv_tail Hd) ].
  apply all_values_update; [ exact Hf | exact (Forall_inv Hd) ].
Qed.

Lemma all_values_get (P : cell -> bool) (d : Row) (k : string) (v : cell) :
  all_values P d -> dict_get k d = Some v -> P v = true.
Proof.
  unfold all_values. induction d as [| [k' v'] d IH]; simpl; intros Hd E;
    [ discriminate E | ].
  destruct (String.eqb k k').
  - injection E as <-. exact (Forall_inv Hd).
  - exact (IH (Forall_inv_tail Hd) E).
Qed.

Lemma dict_update_keys_l {V : Type} (d e : pydict V) (k : string) :
  In k (dict_keys d) -> In k (dict_keys (dict_update d e)).
Proof.
  unfold dict_update. revert d.
  induction e as [| [k' v] e IH]; simpl; intros d Hin; [ exact Hin | ].
  apply IH. now apply dict_set_keys_incl.
Qed.

Lemma dict_update_keys_r {V : Type} (d e : pydict V) (k : string) :
  In k (dict_keys e) -> In k (dict_keys (dict_update d e)).
Proof.
  unfold dict_update. revert d.
  induction e as [| [k' v] e IH]; simpl; intros d Hin; [ contradiction | ].
  destruct Hin as [-> | Hin].
  - apply (dict_update_keys_l (dict_set k v d) e). apply dict_set_key_In.
  - now apply IH.
Qed.

Lemma update_all_keys_l (features : Row) (dicts : pydict Row) (k : string) :
  In k (dict_keys features) -> In k (dict_keys (update_all features dicts)).
Proof.
  unfold update_all, dict_values. revert features.
  induction dicts as [| [k' d] dicts IH]; simpl; intros features Hin;
    [ exact Hin | ].
  apply IH. now apply dict_update_keys_l.
Qed.

Lemma update_all_keys_r (features : Row) (dicts : pydict Row) (d : Row) (k : string) :
  In d (dict_values dicts) -> In k (dict_keys d) ->
  In k (dict_keys (update_all features dicts)).
Proof.
  unfold update_all, dict_values. revert features.
  induction dicts as [| [k' d'] dicts IH]; simpl; intros features Hd Hk;
    [ contradiction | ].
  destruct Hd as [-> | Hd].
  - apply (update_all_keys_l (dict_update features d) dicts).
    now apply dict_update_keys_r.
  - now apply IH.
Qed.

Lemma dict_set_entries {V : Type} (Q : string -> V -> Prop) (k : string) (v : V)
    (d : pydict V) :
  Q k v -> Forall (fun kv => Q (fst kv) (snd kv)) d ->
  Forall (fun kv => Q (fst kv) (snd kv)) (dict_set k v d).
Proof.
  intros Hv. induction d as [| [k' v'] d IH]; simpl; intros Hd.
  - constructor; [ exact Hv | constructor ].
  - destruct (String.eqb k k').
    + constructor; [ exact Hv | exact (Forall_inv_tail Hd) ].
    + constructor; [ exact (Forall_inv Hd) | exact (IH (Forall_inv_tail Hd)) ].
Qed.

(** A dict comprehension whose body never raises on the keys returns a
    dict with an entry for every key, each of which the body produced. *)
Lemma dict_comprehension_ok {V : Type} (Q : string -> V -> Prop)
    (f : string -> result V) (ks : list string) :
  (forall k, In k ks -> exists v, f k = Ok v /\ Q k v) ->
  forall acc,
    Forall (fun kv => Q (fst kv) (snd kv)) acc ->
    exists d,
      dict_comprehension f ks acc = Ok d
      /\ Forall (fun kv => Q (fst kv) (snd kv)) d
      /\ forall k, In k (dict_keys acc) \/ In k ks -> In k (dict_keys d).
Proof.
  induction ks as [| k ks IH]; simpl; intros Hf acc Hacc.
  - exists acc. split; [ reflexivity | split; [ exact Hacc | ] ].
    intros k [Hk | []]. exact Hk.
  - destruct (Hf k (or_introl eq_refl)) as (v & -> & Hv). simpl.
    destruct (IH (fun k' Hk' => Hf k' (or_intror Hk')) (dict_set k v acc))
      as (d & -> & Hd & Hkeys).
    + now apply dict_set_entries.
    + exists d. split; [ reflexivity | split; [ exact Hd | ] ].
      intros k' [Hk' | [<- | Hk']]; apply Hkeys.
      * left. now apply dict_set_keys_incl.
      * left. apply dict_set_key_In.
      * now right.
Qed.

Lemma dict_keys_entry {V : Type} (d : pydict V) (k : string) :
  In k (dict_keys d) -> exists v, In (k, v) d.
Proof.
  unfold dict_keys. intros Hin. apply in_map_iff in Hin as ([k' v] & <- & Hin).
  eauto.
Qed.

Lemma append_eqb (p a b : string) :
  String.eqb (p ++ a) (p ++ b) = String.eqb a b.
Proof.
  induction p as [| c p IH]; simpl; [ reflexivity | ].
  now rewrite Ascii.eqb_refl.
Qed.

(** *** The feature helpers on a zero series *)

Section ZeroSeries.

Context `{B : NumericBackend} {L : BackendLaws B}.

Lemma series_statistics_keys (series : list fval) (prefix : string) (d : Row) :
  _series_statistics series prefix = Ok d ->
  dict_keys d
  = map (append prefix)
      [ "_mean"; "_std"; "_max"; "_min"; "_range"; "_ptp"; "_energy"; "_skew";
        "_kurtosis"; "_zcr" ].
Proof.
  unfold _series_statistics, np_ptp.
  destruct (length series =? 0)%nat.
  - intros E. injection E as <-. reflexivity.
  - destruct (np_max series) as [hi | e]; [ | discriminate 1 ].
    destruct (np_min series) as [lo | e]; [ | discriminate 1 ].
    cbn [bind]. intros E. injection E as <-.
    cbn [dict_set].
    repeat (rewrite !append_eqb;
            cbn [String.eqb Ascii.eqb Bool.eqb andb dict_set]).
    reflexivity.
Qed.

Lemma series_statistics_zero (series : list fval) (prefix : string) :
  forallb is_zero series = true ->
  exists d,
    _series_statistics series prefix = Ok d
    /\ all_values cell_zero_or_nan d.
Proof.
  intros E. unfold _series_statistics, np_ptp.
  destruct (Nat.eqb_spec (length series) 0) as [Hn | Hn].
  - eexists. split; [ reflexivity | ].
    repeat constructor.
  - assert (Hpos : (0 < length series)%nat) by lia.
    destruct (zero_np_max _ E Hpos) as (hi & -> & Hhi).
    destruct (zero_np_min _ E Hpos) as (lo & -> & Hlo).
    cbn [bind]. eexists. split; [ reflexivity | ].
    repeat apply all_values_set; cbn [cell_zero_or_nan].
    + now apply zero_or_nan_zero, zero_zero_crossing_rate.
    + now apply stats_kurtosis_constant.
    + now apply stats_skew_constant.
    + now apply zero_or_nan_zero, zero_np_sum, zero_np_square.
    + now apply zero_or_nan_zero, zero_fsub.
    + now apply zero_or_nan_zero, zero_fsub.
    + repeat constructor; cbn [snd cell_zero_or_nan]; apply zero_or_nan_zero;
        auto using zero_np_mean, zero_np_std.
Qed.

Lemma jerk_statistics_keys (eng : Engineer) (series : list fval)
    (prefix : string) (d : Row) :
  _jerk_statistics eng series prefix = Ok d ->
  dict_keys d = map (append prefix) [ "_mean"; "_std"; "_max" ].
Proof.
  unfold _jerk_statistics. destruct (length series <? 2)%nat.
  - intros E. injection E as <-. reflexivity.
  - destruct (np_max _) as [peak | e]; [ | discriminate 1 ].
    cbn [bind]. intros E. injection E as <-. reflexivity.
Qed.

Lemma jerk_statistics_zero (eng : Engineer) (series : list fval) (prefix : string) :
  forallb is_zero series = true ->
  exists d,
    _jerk_statistics eng series prefix = Ok d
    /\ all_values cell_zero_or_nan d.
Proof.
  intros E. unfold _jerk_statistics.
  destruct (Nat.ltb_spec (length series) 2) as [Hn | Hn].
  - eexists. split; [ reflexivity | ]. repeat constructor.
  - set (jerk := map (fun d => fmul d (float_of_Z (sampling_rate eng)))
                   (np_diff series)).
    assert (Ej : forallb is_zero jerk = true).
    { apply forallb_map_zero; [ | now apply zero_np_diff ].
      intros x Hx. now apply zero_fmul_Fin. }
    assert (Hj : (0 < length jerk)%nat).
    { subst jerk. rewrite length_map, np_diff_length. lia. }
    destruct (zero_np_max (map fabs jerk)) as (peak & -> & Hpeak).
    + apply forallb_map_zero; [ apply zero_fabs | exact Ej ].
    + now rewrite length_map.
    + cbn [bind]. eexists. split; [ reflexivity | ].
      repeat constructor; cbn [snd cell_zero_or_nan]; apply zero_or_nan_zero;
        auto using zero_np_mean, zero_np_std.
Qed.

Lemma fft_features_keys (eng : Engineer) (series : list fval)
    (prefix : string) (d : Row) :
  _fft_features eng series prefix = Ok d ->
  dict_keys d
  = map (append prefix)
      [ "_dominant_freq"; "_dominant_power"; "_spectral_energy";
        "_spectral_entropy" ].
Proof.
  unfold _fft_features. destruct (length series <? 2)%nat.
  - intros E. injection E as <-. reflexivity.
  - intros E.
    repeat (apply bind_ok_inv in E as (? & _ & E)).
    injection E as <-. reflexivity.
Qed.

Lemma np_any_zero (xs : list fval) :
  forallb is_zero xs = true -> np_any xs = false.
Proof.
  unfold np_any, ftruthy. induction xs as [| x xs IH]; simpl; intros E;
    [ reflexivity | ].
  apply andb_true_iff in E as (-> & E). now rewrite (IH E).
Qed.

Lemma forallb_zero_or_nan_map (f : fval -> fval) (xs : list fval) :
  (forall x, is_zero x = true -> zero_or_nan (f x) = true) ->
  forallb is_zero xs = true -> forallb zero_or_nan (map f xs) = true.
Proof.
  intros Hf. induction xs as [| x xs IH]; simpl; [ reflexivity | ].
  intros E. apply andb_true_iff in E as (Ex & E).
  rewrite (Hf x Ex), (IH E). reflexivity.
Qed.

Lemma fft_features_zero (eng : Engineer) (series : list fval) (prefix : string) :
  sampling_rate eng <> 0%Z ->
  forallb is_zero series = true ->
  exists d,
    _fft_features eng series prefix = Ok d
    /\ all_values cell_zero_or_nan d.
Proof.
  intros Hrate E. unfold _fft_features.
  destruct (Nat.ltb_spec (length series) 2) as [Hn | Hn].
  - eexists. split; [ reflexivity | ]. repeat constructor.
  - assert (Hspec := rfft_abs_zero series E).
    assert (Hlen := rfft_abs_length series).
    unfold py_truediv, float_of_Z. cbn [is_zero].
    destruct (Qeq_bool (inject_Z (sampling_rate eng)) 0) eqn:Erate.
    { apply Qeq_bool_iff in Erate. unfold Qeq in Erate. simpl in Erate. lia. }
    cbn [bind].
    destruct (rfft_abs series) as [| s0 spectrum] eqn:Espec; [ discriminate Hlen | ].
    cbn [np_set0 bind].
    cbn [forallb] in Hspec. apply andb_true_iff in Hspec as (_ & Hspec).
    assert (Hzero : forallb is_zero (Fin 0 :: spectrum) = true)
      by (cbn [forallb]; rewrite Hspec; reflexivity).
    rewrite (np_any_zero _ Hzero). cbn [bind].
    unfold np_rfftfreq.
    assert (Hfreq : forall (val : fval) (n : nat),
               np_get (map (fun k => fmul (float_of_nat k) val) (seq 0 (S n))) 0
               = Ok (fmul (float_of_nat 0) val)) by reflexivity.
    rewrite Hfreq. cbn [bind].
    change (np_get (Fin 0 :: spectrum) 0) with (Ok (Fin 0)). cbn [bind].
    eexists. split; [ reflexivity | ].
    repeat constructor; cbn [snd cell_zero_or_nan].
    + apply zero_or_nan_fmul. reflexivity.
    + now apply zero_or_nan_zero, zero_np_sum, zero_np_square.
    + apply zero_or_nan_fneg, zero_or_nan_np_sum.
      rewrite map_map.
      apply forallb_zero_or_nan_map; [ | exact Hzero ].
      intros x Hx. apply zero_or_nan_fmul.
      assert (Htotal : is_zero (fadd (np_sum (Fin 0 :: spectrum)) eps12) = false).
      { destruct (is_zero_inv _ (zero_np_sum _ Hzero)) as (q & -> & Hq).
        unfold eps12. cbn [fadd is_zero].
        apply not_true_is_false. intros E0.
        apply Qeq_bool_iff in E0. rewrite Hq in E0. discriminate E0. }
      destruct (fadd (np_sum (Fin 0 :: spectrum)) eps12) as [t | | |] eqn:Et.
      * apply zero_fdiv_Fin; [ exact Hx | ].
        intros Ht. cbn [is_zero] in Htotal.
        apply Qeq_bool_iff in Ht. rewrite Ht in Htotal. discriminate Htotal.
      * destruct (is_zero_inv _ Hx) as (q & -> & _). reflexivity.
      * destruct (is_zero_inv _ Hx) as (q & -> & _). reflexivity.
      * destruct (is_zero_inv _ (zero_np_sum _ Hzero)) as (q & Eq & _).
        rewrite Eq in Et. discriminate Et.
Qed.

End ZeroSeries.

(** *** The features of a window at rest *)

Section ZeroWindow.

Context `{B : NumericBackend} {L : BackendLaws B}.

Variable window : DataFrame.
Variable sensor_cols : list string.

(** Every sensor entry of the window is [0.0]. *)
Hypothesis at_rest :
  forall r c, In r (df_rows window) -> In c sensor_cols ->
              cell_zero (row_get r c) = true.

Lemma zero_cells_float_values (cells : list cell) :
  Forall (fun c => cell_zero c = true) cells ->
  exists vs, float_values cells = Ok vs /\ forallb is_zero vs = true.
Proof.
  unfold float_values. induction 1 as [| c cells Hc _ (vs & IH & Hvs)].
  - exists []. auto.
  - destruct c as [v | s]; [ | discriminate Hc ].
    exists (v :: vs). cbn [mapM cell_float bind]. rewrite IH. cbn [bind forallb].
    cbn [cell_zero] in Hc. rewrite Hc, Hvs. auto.
Qed.

Lemma zero_axis (axis : string) :
  In axis sensor_cols ->
  exists vs,
    float_values (series window axis) = Ok vs /\ forallb is_zero vs = true.
Proof.
  intros Hax. apply zero_cells_float_values. unfold series.
  apply Forall_forall. intros c Hc. apply in_map_iff in Hc as (r & <- & Hr).
  now apply at_rest.
Qed.

Lemma zero_magnitude :
  exists values,
    mapM (fun r => mapM (fun c => cell_float (row_get r c)) sensor_cols)
      (df_rows window) = Ok values
    /\ forallb is_zero (_vector_magnitude values) = true.
Proof.
  assert (Hrows : forall r, In r (df_rows window) ->
            exists vs, mapM (fun c => cell_float (row_get r c)) sensor_cols = Ok vs
                       /\ forallb is_zero vs = true).
  { intros r Hr.
    destruct (@zero_cells_float_values (map (row_get r) sensor_cols))
      as (vs & Evs & Hvs).
    - apply Forall_forall. intros c Hc. apply in_map_iff in Hc as (a & <- & Ha).
      now apply at_rest.
    - exists vs. split; [ | exact Hvs ].
      unfold float_values in Evs. clear -Evs. revert vs Evs.
      induction sensor_cols as [| c cols IH]; simpl; intros vs E; [ exact E | ].
      destruct (cell_float (row_get r c)); [ | discriminate E ]. simpl in *.
      destruct (mapM cell_float (map (row_get r) cols)) as [ws |] eqn:Ews;
        [ | discriminate E ].
      rewrite (IH ws eq_refl). exact E. }
  revert Hrows. generalize (df_rows window) as rows.
  induction rows as [| r rows IH]; intros Hrows.
  - exists []. auto.
  - destruct (Hrows r (or_introl eq_refl)) as (vs & Evs & Hvs).
    destruct IH as (values & Evalues & Hmag);
      [ intros; apply Hrows; now right | ].
    exists (vs :: values). cbn [mapM bind]. rewrite Evs. cbn [bind].
    rewrite Evalues. cbn [bind]. split; [ reflexivity | ].
    unfold _vector_magnitude in *. cbn [map forallb]. rewrite Hmag, andb_true_r.
    now apply np_sqrt_zero, zero_np_sum, zero_np_square.
Qed.

Lemma zero_or_nan_clip_unit (v : fval) :
  zero_or_nan v = true -> zero_or_nan (clip_unit v) = true.
Proof.
  unfold zero_or_nan at 1. intros Hv. apply orb_true_iff in Hv as [Hv | Hv].
  - destruct (is_zero_inv _ Hv) as (q & -> & Hq).
    unfold clip_unit, fmax, fmin, fltb, fcmp. cbn [is_nan].
    assert (E1 : (q ?= -1)%Q = Gt) by (rewrite Hq; reflexivity).
    rewrite E1. cbn [is_nan].
    assert (E2 : (1 ?= q)%Q = Gt) by (rewrite Hq; reflexivity).
    rewrite E2. now apply zero_or_nan_zero.
  - destruct v; try discriminate Hv. reflexivity.
Qed.

Lemma zero_or_nan_corrcoef (xs ys : list fval) :
  forallb is_zero xs = true -> forallb is_zero ys = true ->
  (0 < length xs)%nat -> (0 < length ys)%nat ->
  zero_or_nan (np_corrcoef xs ys) = true.
Proof.
  intros Hxs Hys Hnx Hny. unfold np_corrcoef.
  apply zero_or_nan_clip_unit, zero_or_nan_fdiv, zero_or_nan_fdiv.
  unfold np_cov. apply zero_or_nan_fmul, zero_np_sum.
  assert (Hmx := zero_np_mean _ Hxs Hnx). assert (Hmy := zero_np_mean _ Hys Hny).
  revert Hmx Hmy. generalize (np_mean xs) (np_mean ys). intros mx my Hmx Hmy.
  clear Hnx Hny. revert ys Hys.
  induction xs as [| x xs IH]; intros [| y ys] Hys; try reflexivity.
  cbn [forallb] in Hxs, Hys.
  apply andb_true_iff in Hxs as (Hx & Hxs). apply andb_true_iff in Hys as (Hy & Hys).
  cbn [combine map forallb fst snd]. rewrite (IH Hxs ys Hys), andb_true_r.
  apply zero_fmul; now apply zero_fsub.
Qed.

Lemma filter_all {A : Type} (f : A -> bool) (l : list A) :
  forallb f l = true -> filter f l = l.
Proof.
  induction l as [| x l IH]; simpl; intros E; [ reflexivity | ].
  apply andb_true_iff in E as (-> & E). now rewrite (IH E).
Qed.

Lemma zero_series_corr (a b : string) :
  In a sensor_cols -> In b sensor_cols ->
  exists v,
    series_corr (series window a) (series window b) = Ok v
    /\ zero_or_nan (if negb (is_nan v) then v else Fin 0) = true.
Proof.
  intros Ha Hb. unfold series_corr.
  destruct (zero_axis _ Ha) as (xs & -> & Hxs).
  destruct (zero_axis _ Hb) as (ys & -> & Hys). cbn [bind].
  assert (Hvalid : forallb (fun p => negb (is_nan (fst p)) && negb (is_nan (snd p)))
                     (combine xs ys) = true).
  { clear -Hxs Hys. revert ys Hys.
    induction xs as [| x xs IH]; intros [| y ys] Hys; try reflexivity.
    cbn [forallb] in Hxs, Hys.
    apply andb_true_iff in Hxs as (Hx & Hxs).
    apply andb_true_iff in Hys as (Hy & Hys).
    cbn [combine forallb fst snd]. rewrite (IH Hxs ys Hys).
    destruct (is_zero_inv _ Hx) as (? & -> & _).
    destruct (is_zero_inv _ Hy) as (? & -> & _). reflexivity. }
  rewrite (filter_all _ _ Hvalid).
  destruct (Nat.eqb_spec (length (combine xs ys)) 0) as [Hn | Hn].
  - eexists. split; [ reflexivity | reflexivity ].
  - eexists. split; [ reflexivity | ].
    assert (Hc : zero_or_nan (np_corrcoef (map fst (combine xs ys))
                                (map snd (combine xs ys))) = true).
    { assert (Hfst : forallb is_zero (map fst (combine xs ys)) = true).
      { clear -Hxs. revert ys. induction xs as [| x xs IH]; intros [| y ys];
          try reflexivity.
        cbn [forallb] in Hxs. apply andb_true_iff in Hxs as (Hx & Hxs).
        cbn [combine map forallb fst]. now rewrite Hx, IH. }
      assert (Hsnd : forallb is_zero (map snd (combine xs ys)) = true).
      { clear -Hys. revert xs. induction ys as [| y ys IH]; intros [| x xs];
          try reflexivity.
        cbn [forallb] in Hys. apply andb_true_iff in Hys as (Hy & Hys).
        cbn [combine map forallb snd]. now rewrite Hy, IH. }
      apply zero_or_nan_corrcoef; try assumption; rewrite length_map; lia. }
    destruct (np_corrcoef _ _); try reflexivity; exact Hc.
Qed.

Lemma correlation_row_zero (col_i : string) (rest : list string) :
  In col_i sensor_cols -> incl rest sensor_cols ->
  forall correlations,
    all_values cell_zero_or_nan correlations ->
    exists d,
      correlation_row window col_i rest correlations = Ok d
      /\ all_values cell_zero_or_nan d
      /\ (forall k, In k (dict_keys correlations) -> In k (dict_keys d))
      /\ (forall col_j, In col_j rest ->
            In ("corr_" ++ col_i ++ "_" ++ col_j) (dict_keys d)).
Proof.
  intros Hi. induction rest as [| col_j rest IH]; intros Hincl correlations Hall.
  - exists correlations. repeat split; auto. intros ? [].
  - cbn [correlation_row].
    destruct (zero_series_corr col_i col_j Hi (Hincl _ (or_introl eq_refl)))
      as (v & -> & Hv).
    cbn [bind].
    destruct (IH (fun c Hc => Hincl c (or_intror Hc))
                (dict_set ("corr_" ++ col_i ++ "_" ++ col_j)
                   (CNum (if negb (is_nan v) then v else Fin 0)) correlations))
      as (d & -> & Hd & Hkeep & Hkeys).
    { apply all_values_set; [ exact Hv | exact Hall ]. }
    exists d. split; [ reflexivity | split; [ exact Hd | split ] ].
    + intros k Hk. apply Hkeep. now apply dict_set_keys_incl.
    + intros c [<- | Hc]; [ | now apply Hkeys ].
      apply Hkeep. apply dict_set_key_In.
Qed.

Lemma correlation_loop_zero (cols : list string) :
  incl cols sensor_cols ->
  forall correlations,
    all_values cell_zero_or_nan correlations ->
    exists d,
      correlation_loop window cols correlations = Ok d
      /\ all_values cell_zero_or_nan d
      /\ (forall k, In k (dict_keys correlations) -> In k (dict_keys d))
      /\ (forall a b, In (a, b) (axis_pairs cols) ->
            In ("corr_" ++ a ++ "_" ++ b) (dict_keys d)).
Proof.
  induction cols as [| col_i rest IH]; intros Hincl correlations Hall.
  - exists correlations. repeat split; auto. intros ? ? [].
  - cbn [correlation_loop].
    destruct (@correlation_row_zero col_i rest (Hincl _ (or_introl eq_refl))
                (fun c Hc => Hincl c (or_intror Hc)) correlations Hall)
      as (d1 & -> & Hd1 & Hkeep1 & Hkeys1).
    cbn [bind].
    destruct (IH (fun c Hc => Hincl c (or_intror Hc)) d1 Hd1)
      as (d & -> & Hd & Hkeep & Hkeys).
    exists d. split; [ reflexivity | split; [ exact Hd | split ] ].
    + intros k Hk. auto.
    + intros a b Hab. cbn [axis_pairs] in Hab.
      apply in_app_or in Hab as [Hab | Hab].
      * apply in_map_iff in Hab as (c & E & Hc). injection E as <- <-.
        apply Hkeep. now apply Hkeys1.
      * now apply Hkeys.
Qed.

End ZeroWindow.

Lemma dict_set_entry_In {V : Type} (k : string) (v : V) (d : pydict V) :
  In (k, v) (dict_set k v d).
Proof.
  induction d as [| [k' v'] d IH]; simpl; [ now left | ].
  destruct (String.eqb k k'); [ now left | now right ].
Qed.

Lemma string_append_assoc (a b c : string) : ((a ++ b) ++ c = a ++ (b ++ c))%string.
Proof. induction a as [| x a IH]; simpl; [ reflexivity | now rewrite IH ]. Qed.

Section ZeroFeatures.

Context `{B : NumericBackend} {L : BackendLaws B}.

Variables (eng : Engineer) (window : DataFrame) (sensor_cols : list string).
Variable severity_col : option string.

Hypothesis at_rest :
  forall r c, In r (df_rows window) -> In c sensor_cols ->
              cell_zero (row_get r c) = true.
Hypothesis rate_nonzero : sampling_rate eng <> 0%Z.
Hypothesis no_severity :
  forall c, severity_col = Some c -> has_column window c = false.

(** On a window at rest, with no metadata and no severity column,
    [_compute_window_features] returns: every feature but
    [samples_in_window] is [0.0] or NaN, and the magnitude, correlation and
    spectral-entropy features are there. *)
Lemma compute_window_features_zero :
  exists features,
    _compute_window_features eng window sensor_cols [] severity_col
    = Ok (dict_set "samples_in_window" (CNum (float_of_nat (df_len window)))
            features)
    /\ all_values cell_zero_or_nan features
    /\ (forall s, In s magnitude_suffixes ->
          In ("magnitude" ++ s) (dict_keys features))
    /\ (forall a b, In (a, b) (axis_pairs sensor_cols) ->
          In ("corr_" ++ a ++ "_" ++ b) (dict_keys features))
    /\ (forall a, In a sensor_cols -> a <> "magnitude_fft" ->
          In (a ++ "_fft_spectral_entropy") (dict_keys features)).
Proof.
  unfold _compute_window_features.
  (* per-axis statistics *)
  match goal with
  | |- context [dict_comprehension ?f sensor_cols []] =>
      destruct (@dict_comprehension_ok Row
                  (fun _ v => all_values cell_zero_or_nan v) f sensor_cols)
        with (acc := @nil (string * Row))
        as (axis_stats & -> & Haxis & _)
  end.
  { intros axis Hax. destruct (zero_axis window sensor_cols at_rest axis Hax)
      as (vs & -> & Hvs).
    cbn [bind]. unfold _axis_statistics. now apply series_statistics_zero. }
  { constructor. }
  cbn [bind].
  assert (H1 : all_values cell_zero_or_nan (update_all [] axis_stats)).
  { apply all_values_update_all; [ constructor | exact Haxis ]. }
  revert H1. generalize (update_all [] axis_stats). intros features1 H1.
  (* magnitude statistics *)
  destruct (zero_magnitude window sensor_cols at_rest) as (values & -> & Hmag).
  cbn [bind].
  destruct (series_statistics_zero (_vector_magnitude values) "magnitude" Hmag)
    as (mag_stats & Emag & Hmag_stats).
  rewrite Emag. cbn [bind].
  assert (K2 := series_statistics_keys _ _ Emag).
  assert (H2 : all_values cell_zero_or_nan (dict_update features1 mag_stats))
    by now apply all_values_update.
  assert (P2 : forall k, In k (dict_keys mag_stats) ->
                 In k (dict_keys (dict_update features1 mag_stats)))
    by (intros; now apply dict_update_keys_r).
  revert H2 P2. generalize (dict_update features1 mag_stats).
  intros features2 H2 P2.
  (* jerk *)
  match goal with
  | |- context [dict_comprehension ?f sensor_cols []] =>
      destruct (@dict_comprehension_ok Row
                  (fun _ v => all_values cell_zero_or_nan v) f sensor_cols)
        with (acc := @nil (string * Row))
        as (jerk_axes & -> & Hjerk & _)
  end.
  { intros axis Hax. destruct (zero_axis window sensor_cols at_rest axis Hax)
      as (vs & -> & Hvs).
    cbn [bind]. now apply jerk_statistics_zero. }
  { constructor. }
  cbn [bind].
  destruct (jerk_statistics_zero eng (_vector_magnitude values) "magnitude_jerk" Hmag)
    as (mag_jerk & Ejerk & Hmag_jerk).
  rewrite Ejerk. cbn [bind].
  assert (K3 := jerk_statistics_keys _ _ _ Ejerk).
  assert (H3 : all_values cell_zero_or_nan
                 (update_all features2 (dict_set "magnitude" mag_jerk jerk_axes))).
  { apply all_values_update_all; [ exact H2 | ].
    now apply (dict_set_entries (fun _ v => all_values cell_zero_or_nan v)). }
  assert (P3 : forall k, In k (dict_keys features2) \/ In k (dict_keys mag_jerk) ->
                 In k (dict_keys (update_all features2
                                    (dict_set "magnitude" mag_jerk jerk_axes)))).
  { intros k [Hk | Hk]; [ now apply update_all_keys_l | ].
    apply (update_all_keys_r _ _ mag_jerk); [ | exact Hk ].
    unfold dict_values. apply in_map_iff. exists ("magnitude", mag_jerk).
    split; [ reflexivity | apply dict_set_entry_In ]. }
  revert H3 P3.
  generalize (update_all features2 (dict_set "magnitude" mag_jerk jerk_axes)).
  intros features3 H3 P3.
  (* correlations *)
  unfold _correlation_features.
  destruct (correlation_loop_zero window at_rest (@incl_refl _ sensor_cols)
              (correlations := []) ltac:(constructor))
    as (correlations & -> & Hcorr & _ & Kcorr).
  cbn [bind].
  assert (H4 : all_values cell_zero_or_nan (dict_update features3 correlations))
    by now apply all_values_update.
  assert (P4 : forall k, In k (dict_keys features3) \/ In k (dict_keys correlations) ->
                 In k (dict_keys (dict_update features3 correlations))).
  { intros k [Hk | Hk];
      [ now apply dict_update_keys_l | now apply dict_update_keys_r ]. }
  revert H4 P4. generalize (dict_update features3 correlations).
  intros features4 H4 P4.
  (* spectra *)
  match goal with
  | |- context [dict_comprehension ?f sensor_cols []] =>
      destruct (@dict_comprehension_ok Row
                  (fun k v => all_values cell_zero_or_nan v
                              /\ (k <> "magnitude_fft" ->
                                  In (k ++ "_fft_spectral_entropy") (dict_keys v)))
                  f sensor_cols)
        with (acc := @nil (string * Row))
        as (fft_features & -> & Hfft & Kfft)
  end.
  { intros axis Hax. destruct (zero_axis window sensor_cols at_rest axis Hax)
      as (vs & -> & Hvs).
    cbn [bind].
    destruct (fft_features_zero eng vs (axis ++ "_fft") rate_nonzero Hvs)
      as (d & Ed & Hd).
    exists d. split; [ exact Ed | split; [ exact Hd | intros _ ] ].
    rewrite (fft_features_keys _ _ _ Ed). cbn [map].
    rewrite !string_append_assoc. cbn [append]. auto 6 with datatypes. }
  { constructor. }
  cbn [bind].
  destruct (fft_features_zero eng (_vector_magnitude values) "magnitude_fft"
              rate_nonzero Hmag)
    as (mag_fft & Efft & Hmag_fft).
  rewrite Efft. cbn [bind].
  assert (K5 := fft_features_keys _ _ _ Efft).
  assert (Hfft' : Forall (fun kv : string * Row =>
                            all_values cell_zero_or_nan (snd kv)
                            /\ (fst kv <> "magnitude_fft" ->
                                In (fst kv ++ "_fft_spectral_entropy")
                                  (dict_keys (snd kv))))
                    (dict_set "magnitude_fft" mag_fft fft_features)).
  { apply (dict_set_entries
             (fun k v => all_values cell_zero_or_nan v
                         /\ (k <> "magnitude_fft" ->
                             In (k ++ "_fft_spectral_entropy") (dict_keys v))));
      [ | exact Hfft ].
    split; [ exact Hmag_fft | intros Hne; now contradiction Hne ]. }
  assert (H5 : all_values cell_zero_or_nan
                 (update_all features4 (dict_set "magnitude_fft" mag_fft fft_features))).
  { apply all_values_update_all; [ exact H4 | ].
    eapply Forall_impl; [ | exact Hfft' ]. intros kv (Hkv & _). exact Hkv. }
  assert (P5 : forall k, In k (dict_keys features4) \/ In k (dict_keys mag_fft) ->
                 In k (dict_keys (update_all features4
                                    (dict_set "magnitude_fft" mag_fft fft_features)))).
  { intros k [Hk | Hk]; [ now apply update_all_keys_l | ].
    apply (update_all_keys_r _ _ mag_fft); [ | exact Hk ].
    unfold dict_values. apply in_map_iff. exists ("magnitude_fft", mag_fft).
    split; [ reflexivity | apply dict_set_entry_In ]. }
  assert (P5' : forall a, In a sensor_cols -> a <> "magnitude_fft" ->
                  In (a ++ "_fft_spectral_entropy")
                    (dict_keys (update_all features4
                                  (dict_set "magnitude_fft" mag_fft fft_features)))).
  { intros a Ha Hne.
    assert (Hk : In a (dict_keys (dict_set "magnitude_fft" mag_fft fft_features))).
    { apply dict_set_keys_incl. apply Kfft. now right. }
    apply dict_keys_entry in Hk as (v & Hv).
    rewrite Forall_forall in Hfft'. destruct (Hfft' _ Hv) as (_ & Hkey).
    apply (update_all_keys_r _ _ v); [ | now apply Hkey ].
    unfold dict_values. apply in_map_iff. now exists (a, v). }
  revert H5 P5 P5'.
  generalize (update_all features4 (dict_set "magnitude_fft" mag_fft fft_features)).
  intros features5 H5 P5 P5'.
  (* metadata and severity *)
  cbn [metadata_features bind].
  assert (Esev : severity_features window severity_col features5 = Ok features5).
  { unfold severity_features. destruct severity_col as [c |]; [ | reflexivity ].
    rewrite (no_severity eq_refl), andb_false_r. reflexivity. }
  rewrite Esev. cbn [bind].
  exists features5. split; [ reflexivity | split; [ exact H5 | split; [ | split ] ] ].
  - intros s Hs. apply P5.
    rewrite K5. cbn [map append].
    unfold magnitude_suffixes in Hs. cbn [In] in Hs.
    assert (Hstats : forall k, In k (dict_keys mag_stats) -> In k (dict_keys features4)).
    { intros k Hk. apply P4. left. apply P3. left. now apply P2. }
    assert (Hjk : forall k, In k (dict_keys mag_jerk) -> In k (dict_keys features4)).
    { intros k Hk. apply P4. left. apply P3. now right. }
    rewrite K2 in Hstats. rewrite K3 in Hjk. cbn [map append] in Hstats, Hjk.
    repeat (destruct Hs as [<- | Hs];
            [ cbn [append];
              first [ left; apply Hstats; cbn [In]; tauto
                    | left; apply Hjk; cbn [In]; tauto
                    | right; cbn [In]; tauto ] | ]).
    contradiction.
  - intros a b Hab. apply P5. left. apply P4. right. now apply Kcorr.
  - exact P5'.
Qed.

End ZeroFeatures.

(** ** C7: a window at rest *)

Lemma string_length_append (a b : string) :
  String.length (a ++ b) = (String.length a + String.length b)%nat.
Proof. induction a as [| x a IH]; simpl; [ reflexivity | now rewrite IH ]. Qed.

(** The names [transform] and [_compute_window_features] set themselves
    are no names of magnitude, correlation or spectral-entropy features. *)
Lemma magnitude_key_free (s : string) :
  In s magnitude_suffixes ->
  "samples_in_window" <> "magnitude" ++ s
  /\ mem_str ("magnitude" ++ s) transform_non_feature_cols = false.
Proof.
  unfold magnitude_suffixes. cbn [In]. intros Hs.
  repeat (destruct Hs as [<- | Hs]; [ split; [ discriminate | reflexivity ] | ]).
  contradiction.
Qed.

Lemma corr_key_free (a b : string) :
  "samples_in_window" <> "corr_" ++ a ++ "_" ++ b
  /\ mem_str ("corr_" ++ a ++ "_" ++ b) transform_non_feature_cols = false.
Proof. split; [ discriminate | reflexivity ]. Qed.

Lemma entropy_key_free (a : string) :
  "samples_in_window" <> a ++ "_fft_spectral_entropy"
  /\ mem_str (a ++ "_fft_spectral_entropy") transform_non_feature_cols = false.
Proof.
  assert (Hlen : forall k, (String.length k < 21)%nat ->
                           k <> a ++ "_fft_spectral_entropy").
  { intros k Hk E. apply (f_equal String.length) in E.
    rewrite string_length_append in E. simpl in E. lia. }
  split; [ apply Hlen; simpl; lia | ].
  apply not_true_is_false. intros Hin. apply mem_str_In in Hin.
  unfold transform_non_feature_cols in Hin. cbn [In] in Hin.
  repeat (destruct Hin as [E | Hin]; [ revert E; apply Hlen; simpl; lia | ]).
  contradiction.
Qed.

Lemma clean_cell_zero (c : cell) :
  cell_zero_or_nan c = true -> cell_zero (clean_cell c) = true.
Proof.
  destruct c as [[q | | |] | s];
    unfold cell_zero_or_nan, zero_or_nan, clean_cell, fill_nan_with_zero;
    cbn [replace_inf_with_nan cell_isna cell_zero is_zero is_nan];
    intros E; try reflexivity; try discriminate E.
  now rewrite orb_false_r in E.
Qed.

(** A feature of the computed dict whose name is none of the seven that
    are set afterwards keeps its value in the row of the window. *)
Lemma window_row_feature (features : Row) (n vid idx first_ts last_ts lbl ratio : cell)
    (k : string) :
  all_values cell_zero_or_nan features ->
  In k (dict_keys features) ->
  "samples_in_window" <> k ->
  mem_str k transform_non_feature_cols = false ->
  let raw :=
    dict_set "positive_ratio" ratio
      (dict_set "label" lbl
         (dict_set "window_end_ts" last_ts
            (dict_set "window_start_ts" first_ts
               (dict_set "window_index" idx
                  (dict_set "vehicle_id" vid
                     (dict_set "samples_in_window" n features)))))) in
  In k (dict_keys raw) /\ cell_zero_or_nan (row_get raw k) = true.
Proof.
  intros Hall Hk Hs Hfree raw. split.
  - unfold raw. now repeat apply dict_set_keys_incl.
  - assert (Hne : forall k', In k' transform_non_feature_cols -> k' <> k).
    { intros k' Hk' ->. apply mem_str_In in Hk'. congruence. }
    unfold row_get, raw.
    rewrite !dict_get_set_other
      by (first [ exact Hs | apply Hne; unfold transform_non_feature_cols;
                            cbn [In]; tauto ]).
    destruct (dict_get_In_keys _ _ Hk) as (v & Ev). rewrite Ev.
    exact (all_values_get _ Hall Ev).
Qed.

Section ZeroTransform.

Context `{B : NumericBackend} {L : BackendLaws B}.

Variables (eng : Engineer) (sensor_cols : list string).
Variable timestamp_col : string.
Variable severity_col : option string.
Variable wdf : DataFrame.

Hypothesis rate_nonzero : sampling_rate eng <> 0.
Hypothesis no_severity :
  forall c, severity_col = Some c -> has_column wdf c = false.

(** The row of a window at rest holds zero (or NaN, before the cleaning) in
    its magnitude, correlation and spectral-entropy features. *)
Lemma window_row_zero (vehicle_id : cell) (sw : Z * list Row) (raw : Row) :
  (forall r c, In r (snd sw) -> In c sensor_cols ->
               cell_zero (row_get r c) = true) ->
  window_row eng wdf sensor_cols [] severity_col timestamp_col vehicle_id sw
  = Ok raw ->
  forall k,
    (exists s, In s magnitude_suffixes /\ k = "magnitude" ++ s)
    \/ (exists a b, In (a, b) (axis_pairs sensor_cols)
                    /\ k = "corr_" ++ a ++ "_" ++ b)
    \/ (exists a, In a sensor_cols /\ a <> "magnitude_fft"
                  /\ k = a ++ "_fft_spectral_entropy") ->
    In k (dict_keys raw) /\ cell_zero_or_nan (row_get raw k) = true.
Proof.
  intros Hrest E k Hk.
  apply window_row_inv in E
    as (features & first_ts & last_ts & ratio & Ef & _ & ->).
  destruct (@compute_window_features_zero B L eng (iloc_slice wdf (snd sw))
              sensor_cols severity_col Hrest rate_nonzero no_severity)
    as (f' & Ef' & Hall & Kmag & Kcorr & Kent).
  rewrite Ef' in Ef. injection Ef as <-.
  destruct Hk as [(s & Hs & ->) | [(a & b & Hab & ->) | (a & Ha & Hne & ->)]].
  - destruct (magnitude_key_free Hs) as (H1 & H2).
    apply window_row_feature; auto.
  - destruct (corr_key_free a b) as (H1 & H2).
    apply window_row_feature; auto.
  - destruct (entropy_key_free a) as (H1 & H2).
    apply window_row_feature; auto.
Qed.

(** On a window at rest that is not empty and whose labels are numbers,
    [window_row] returns. *)
Lemma window_row_total (vehicle_id : cell) (sw : Z * list Row) :
  (forall r c, In r (snd sw) -> In c sensor_cols ->
               cell_zero (row_get r c) = true) ->
  (forall r, In r (snd sw) -> is_str (row_get r (label_col eng)) = false) ->
  snd sw <> [] ->
  exists raw,
    window_row eng wdf sensor_cols [] severity_col timestamp_col vehicle_id sw
    = Ok raw.
Proof.
  intros Hrest Hlabels Hne. unfold window_row. cbv zeta.
  destruct (@compute_window_features_zero B L eng (iloc_slice wdf (snd sw))
              sensor_cols severity_col Hrest rate_nonzero no_severity)
    as (f' & -> & _).
  cbn [bind]. unfold series, iloc_slice, iloc_last. cbn [df_rows].
  destruct (snd sw) as [| r rows] eqn:Erows; [ congruence | ].
  cbn [map iloc_first bind].
  destruct (rev (row_get r timestamp_col
                 :: map (fun r0 => row_get r0 timestamp_col) rows))
    as [| c cs] eqn:Erev.
  { apply (f_equal (@length cell)) in Erev. rewrite length_rev in Erev.
    discriminate Erev. }
  cbn [iloc_first bind]. unfold series_mean.
  assert (Hvs : exists vs,
             float_values (row_get r (label_col eng)
                           :: map (fun r0 => row_get r0 (label_col eng)) rows)
             = Ok vs).
  { apply mapM_total. intros c' Hc'.
    change (In c' (map (fun r0 => row_get r0 (label_col eng)) (r :: rows)))
      in Hc'.
    apply in_map_iff in Hc' as (r' & <- & Hr').
    specialize (Hlabels r' Hr').
    destruct (row_get r' (label_col eng)); [ simpl; eauto | discriminate Hlabels ]. }
  destruct Hvs as (vs & ->). cbn [bind]. eauto.
Qed.

End ZeroTransform.

(** When the segmentation succeeds and every window gives a row, the two
    loops of [transform] give one row per window. *)
Lemma segment_rows_total `{NumericBackend} (eng : Engineer) (wdf : DataFrame)
    (sensor_cols mc : list string) (severity_col : option string)
    (timestamp_col : string) (groups : list (cell * list Row))
    (windows : list (cell * (Z * list Row))) :
  segment eng groups = Ok windows ->
  (forall w, In w windows ->
     exists raw,
       window_row eng wdf sensor_cols mc severity_col timestamp_col
         (fst w) (snd w) = Ok raw) ->
  exists per_group,
    mapM (group_rows eng wdf sensor_cols mc severity_col timestamp_col) groups
    = Ok per_group
    /\ length (concat per_group) = length windows.
Proof.
  unfold segment. revert windows.
  induction groups as [| g groups IH]; simpl; intros windows E Hall.
  - injection E as <-. exists []. split; reflexivity.
  - apply bind_ok_inv in E as (per & Eper & E). injection E as <-.
    apply bind_ok_inv in Eper as (ws & Ews & Eper).
    apply bind_ok_inv in Eper as (rest & Erest & Eper). injection Eper as <-.
    apply bind_ok_inv in Ews as (slices & Es & Ews). injection Ews as <-.
    simpl in Hall.
    destruct (IH (concat rest)) as (per_group & Epg & Hlen).
    { now rewrite Erest. }
    { intros w Hw. apply Hall. apply in_or_app. now right. }
    unfold group_rows at 1. rewrite Es. cbn [bind].
    destruct (mapM_total
                (window_row eng wdf sensor_cols mc severity_col timestamp_col
                   (fst g)) slices) as (rows & Erows).
    { intros sw Hsw.
      apply (Hall (fst g, sw)). apply in_or_app. left.
      apply in_map_iff. now exists sw. }
    rewrite Erows. cbn [bind]. rewrite Epg. cbn [bind].
    eexists. split; [ reflexivity | ].
    simpl. rewrite !length_app, Hlen, length_map.
    apply mapM_ok_Forall2 in Erows. apply Forall2_length in Erows.
    now rewrite Erows.
Qed.

(** C7.  Take a table that [transform] accepts up to the feature
    computation: the frame is validated and sorted, grouped by vehicle and
    cut into windows (none of these steps reads a sensor value as a
    number), for an engineer with a positive window size and a sampling
    rate that is not zero, called with [metadata_cols=None] and a severity
    column that the table does not have.
    - Values: in whatever table [transform] returns, the row of every
      window whose sensor entries are all [0.0] holds [0.0] in the
      seventeen [magnitude...] features, in [corr_a_b] for every pair of
      axes, and in [a_fft_spectral_entropy] for every axis [a].
    - No exception: when there is a window, every sensor entry of the
      frame is [0.0] and the labels are numbers, [transform] returns a
      table.
    The numeric library is any one that satisfies [BackendLaws]. *)
Theorem C7_zero_window_gives_zero_features `{B : NumericBackend}
    {L : BackendLaws B} :
  forall (eng : Engineer) (df : DataFrame) (sensor_cols : list string)
         (timestamp_col vehicle_id_col : string) (severity_col : option string)
         (wdf : DataFrame) (groups : list (cell * list Row))
         (windows : list (cell * (Z * list Row))),
    0 < window_size eng ->
    sampling_rate eng <> 0 ->
    (forall c, severity_col = Some c -> has_column wdf c = false) ->
    working_frame eng df sensor_cols timestamp_col vehicle_id_col = Ok wdf ->
    groupby wdf vehicle_id_col = Ok groups ->
    segment eng groups = Ok windows ->
    (forall t,
       transform eng df sensor_cols timestamp_col vehicle_id_col severity_col
         None = Ok t ->
       Forall2
         (fun w row =>
            (forall r c, In r (snd (snd w)) -> In c sensor_cols ->
                         cell_zero (row_get r c) = true) ->
            (forall s, In s magnitude_suffixes ->
               exists v, dict_get ("magnitude" ++ s) row = Some v
                         /\ cell_zero v = true)
            /\ (forall a b, In (a, b) (axis_pairs sensor_cols) ->
                  exists v, dict_get ("corr_" ++ a ++ "_" ++ b) row = Some v
                            /\ cell_zero v = true)
            /\ (forall a, In a sensor_cols -> a <> "magnitude_fft" ->
                  exists v, dict_get (a ++ "_fft_spectral_entropy") row = Some v
                            /\ cell_zero v = true))
         windows (df_rows t))
    /\ (windows <> [] ->
        (forall r c, In r (df_rows wdf) -> In c sensor_cols ->
                     cell_zero (row_get r c) = true) ->
        (forall r, In r (df_rows wdf) ->
                   is_str (row_get r (label_col eng)) = false) ->
        exists t,
          transform eng df sensor_cols timestamp_col vehicle_id_col
            severity_col None = Ok t).
Proof.
  intros eng df sensor_cols timestamp_col vehicle_id_col severity_col
    wdf groups windows HW Hrate Hsev Ewdf Eg Es. split.
  - intros t E.
    apply transform_inv in E
      as (wdf' & groups' & windows' & raws & Ewdf' & Eg' & Es' & Hall & _ & ->).
    rewrite Ewdf in Ewdf'. injection Ewdf' as <-.
    rewrite Eg in Eg'. injection Eg' as <-.
    rewrite Es in Es'. injection Es' as <-.
    cbn [filter] in Hall.
    rewrite rows_clean_features.
    eapply Forall2_map_r_In; [ exact Hall | ].
    intros w raw Hw Hraw Erow Hrest.
    assert (Hkey : forall k,
               (exists s, In s magnitude_suffixes /\ k = "magnitude" ++ s)
               \/ (exists a b, In (a, b) (axis_pairs sensor_cols)
                               /\ k = "corr_" ++ a ++ "_" ++ b)
               \/ (exists a, In a sensor_cols /\ a <> "magnitude_fft"
                             /\ k = a ++ "_fft_spectral_entropy") ->
               mem_str k transform_non_feature_cols = false ->
               exists v,
                 dict_get k
                   (map (fun c =>
                           (c, if mem_str c transform_non_feature_cols
                               then row_get raw c else clean_cell (row_get raw c)))
                      (frame_columns raws)) = Some v
                 /\ cell_zero v = true).
    { intros k Hk Hfree.
      destruct (@window_row_zero B L eng sensor_cols timestamp_col severity_col
                  wdf Hrate Hsev (fst w) (snd w) raw Hrest Erow k Hk)
        as (Hin & Hz).
      rewrite (dict_get_tabulate
                 (fun c => if mem_str c transform_non_feature_cols
                           then row_get raw c else clean_cell (row_get raw c))).
      rewrite (proj2 (mem_str_In k (frame_columns raws))
                 (frame_columns_In _ _ _ Hraw Hin)).
      eexists. split; [ reflexivity | ].
      rewrite Hfree. now apply clean_cell_zero. }
    split; [ | split ].
    + intros s Hs. apply Hkey; [ left; eauto | ].
      now apply (magnitude_key_free Hs).
    + intros a b Hab. apply Hkey; [ right; left; eauto | ].
      apply corr_key_free.
    + intros a Ha Hne. apply Hkey; [ right; right; eauto | ].
      apply entropy_key_free.
  - intros Hne Hrest Hlabels.
    assert (Hwin := segment_windows _ _ HW Es).
    assert (Hgrp := groupby_rows _ _ Eg).
    rewrite Forall_forall in Hwin, Hgrp.
    destruct (@segment_rows_total B eng wdf sensor_cols [] severity_col
                timestamp_col groups windows Es) as (per_group & Eper & Hlen).
    { intros w Hw.
      destruct (Hwin w Hw) as (group & Hgin & _ & Hslice & Hsize).
      destruct (Hgrp _ Hgin) as (Hincl & _). cbn [snd] in Hincl.
      assert (Hsub : incl (snd (snd w)) (df_rows wdf)).
      { rewrite Hslice. intros r Hr. apply Hincl. eapply py_slice_incl; eauto. }
      apply (@window_row_total B L eng sensor_cols timestamp_col severity_col
               wdf Hrate Hsev).
      - intros r c Hr Hc. apply Hrest; auto.
      - intros r Hr. apply Hlabels; auto.
      - intros Hnil. rewrite Hnil in Hsize. simpl in Hsize. lia. }
    unfold transform. rewrite Ewdf. cbn [bind filter]. rewrite Eg. cbn [bind].
    rewrite Eper. cbn [bind].
    destruct (concat per_group) as [| raw raws] eqn:Eraws.
    { destruct windows; [ congruence | discriminate Hlen ]. }
    cbn [length Nat.eqb]. eauto.
Qed.

(** ** The executable backend satisfies the laws *)

Lemma rational_sqrt_zero (v : fval) :
  is_zero v = true -> is_zero (RationalBackend.sqrt v) = true.
Proof.
  intros Hv. apply is_zero_inv in Hv as (q & -> & Hq).
  unfold RationalBackend.sqrt. rewrite (proj1 (Qeq_alt q 0) Hq).
  apply is_zero_Fin. unfold RationalBackend.Qsqrt. cbv zeta.
  rewrite Qred_correct.
  assert (Hnum : Qnum (Qred q) = 0%Z).
  { assert (Hr : (Qred q == 0)%Q) by now rewrite Qred_correct.
    unfold Qeq in Hr. simpl in Hr. lia. }
  rewrite Hnum. reflexivity.
Qed.

Lemma rational_dft_bin_zero (xs : list fval) (k : nat) :
  forallb is_zero xs = true -> is_zero (RationalBackend.dft_bin xs k) = true.
Proof.
  intros E. unfold RationalBackend.dft_bin. cbv zeta.
  assert (Hsum : forall c : nat -> Q,
             is_zero (np_sum (map (fun nx : nat * fval => fmul (snd nx) (Fin (c (fst nx))))
                                (combine (seq 0 (length xs)) xs))) = true).
  { intros c. apply zero_np_sum. apply forallb_forall. intros v Hv.
    apply in_map_iff in Hv as ((n & x) & <- & Hin). cbn [fst snd].
    apply zero_fmul_Fin. apply in_combine_r in Hin.
    rewrite forallb_forall in E. now apply E. }
  apply rational_sqrt_zero. apply zero_fadd; apply zero_fmul;
    first [ apply (Hsum (fun n => RationalBackend.cos
                                   (RationalBackend.angle k n (length xs))))
          | apply (Hsum (fun n => (- RationalBackend.sin
                                     (RationalBackend.angle k n (length xs)))%Q)) ].
Qed.

Lemma rational_moment2_zero (x : fval) (xs : list fval) :
  forallb is_zero (x :: xs) = true ->
  is_zero (RationalBackend.moment 2 (x :: xs)) = true.
Proof.
  intros E. unfold RationalBackend.moment. cbv zeta.
  assert (Hm : is_zero (np_mean (x :: xs)) = true)
    by (apply zero_np_mean; [ exact E | simpl; lia ]).
  apply zero_np_mean; [ | rewrite length_map; simpl; lia ].
  apply forallb_map_zero; [ | exact E ].
  intros y Hy. cbn [Nat.iter].
  apply zero_fmul; [ now apply zero_fsub | ].
  apply zero_fmul_Fin. now apply zero_fsub.
Qed.

Lemma rational_backend_laws : BackendLaws RationalBackend.backend.
Proof.
  constructor; cbn [np_sqrt rfft_abs stats_skew stats_kurtosis
                      RationalBackend.backend].
  - exact rational_sqrt_zero.
  - intros xs. unfold RationalBackend.dft_abs.
    now rewrite length_map, length_seq.
  - intros xs E. unfold RationalBackend.dft_abs.
    apply forallb_forall. intros v Hv.
    apply in_map_iff in Hv as (k & <- & _). now apply rational_dft_bin_zero.
  - intros [| x xs] E; [ reflexivity | ].
    unfold RationalBackend.skew. cbv zeta.
    now rewrite (rational_moment2_zero _ _ E).
  - intros [| x xs] E; [ reflexivity | ].
    unfold RationalBackend.kurtosis. cbv zeta.
    now rewrite (rational_moment2_zero _ _ E).
Qed.

Lemma C7_zero_window_gives_zero_features_witness :
  exists t,
    transform (H := RationalBackend.backend) Examples.engineer_4_2
      (Examples.at_rest 8) default_sensor_cols "timestamp" "vehicle_id"
      (Some "event_severity") None = Ok t.
Proof.
  refine (proj2 (@C7_zero_window_gives_zero_features RationalBackend.backend
                   rational_backend_laws Examples.engineer_4_2
                   (Examples.at_rest 8) default_sensor_cols "timestamp"
                   "vehicle_id" (Some "event_severity") _ _ _ _ _ _ _ _ _)
            _ _ _).
  4: vm_compute; reflexivity.
  4: vm_compute; reflexivity.
  4: vm_compute; reflexivity.
  - reflexivity.
  - discriminate.
  - intros c Hc. injection Hc as <-. reflexivity.
  - discriminate.
  - intros r c Hr Hc.
    match type of Hr with
    | In r ?rows =>
        assert (Hall : forallb
                         (fun r => forallb (fun c => cell_zero (row_get r c))
                                     default_sensor_cols) rows = true)
          by (vm_compute; reflexivity)
    end.
    rewrite forallb_forall in Hall. specialize (Hall r Hr).
    rewrite forallb_forall in Hall. exact (Hall c Hc).
  - intros r Hr.
    match type of Hr with
    | In r ?rows =>
        assert (Hall : forallb
                         (fun r => negb (is_str (row_get r "accident")))
                         rows = true)
          by (vm_compute; reflexivity)
    end.
    rewrite forallb_forall in Hall. specialize (Hall r Hr).
    now apply negb_true_iff in Hall.
Defined.

(** ** The rows of the table that [transform] returns *)

Lemma dict_get_Some_In_keys {V : Type} (k : string) (v : V) (d : pydict V) :
  dict_get k d = Some v -> In k (dict_keys d).
Proof.
  unfold dict_keys. induction d as [| [k' v'] d IH]; simpl; [ discriminate | ].
  destruct (String.eqb_spec k k'); [ now left | right; auto ].
Qed.

Section TransformRows.

Context `{NumericBackend}.

Variables (eng : Engineer) (df : DataFrame) (sensor_cols : list string).
Variables (timestamp_col vehicle_id_col : string).
Variable severity_col : option string.
Variable metadata_cols : option (list string).

(** What a successful [window_row] read and wrote, field by field. *)
Lemma window_row_fields (wdf : DataFrame) (mc : list string) (vehicle_id : cell)
    (sw : Z * list Row) (row : Row) :
  window_row eng wdf sensor_cols mc severity_col timestamp_col vehicle_id sw
  = Ok row ->
  let window := iloc_slice wdf (snd sw) in
  exists features first_ts last_ts ratio,
    _compute_window_features eng window sensor_cols mc severity_col = Ok features
    /\ iloc_first (series window timestamp_col) = Ok first_ts
    /\ iloc_last (series window timestamp_col) = Ok last_ts
    /\ series_mean (series window (label_col eng)) = Ok ratio
    /\ dict_get "vehicle_id" row = Some vehicle_id
    /\ dict_get "window_index" row
       = Some (CNum (float_of_Z (window_index eng (fst sw))))
    /\ dict_get "window_start_ts" row = Some first_ts
    /\ dict_get "window_end_ts" row = Some last_ts
    /\ dict_get "label" row
       = Some (CNum (if series_any (series window (label_col eng))
                     then Fin 1 else Fin 0))
    /\ dict_get "positive_ratio" row = Some (CNum ratio)
    /\ (forall k, mem_str k transform_non_feature_cols = false ->
          dict_get k row = dict_get k features)
    /\ (forall k, In k (dict_keys features) -> In k (dict_keys row)).
Proof.
  unfold window_row. cbv zeta. intros E.
  apply bind_ok_inv in E as (features & Ef & E).
  apply bind_ok_inv in E as (first_ts & E1 & E).
  apply bind_ok_inv in E as (last_ts & E2 & E).
  apply bind_ok_inv in E as (ratio & Er & E).
  injection E as <-.
  exists features, first_ts, last_ts, ratio.
  repeat (split; [ first [ assumption | now dict_lookup ] | ]).
  split.
  - intros k Hk.
    assert (Hne : forall k', In k' transform_non_feature_cols -> k' <> k).
    { intros k' Hk' ->. apply mem_str_In in Hk'. congruence. }
    rewrite !dict_get_set_other
      by (apply Hne; unfold transform_non_feature_cols; cbn [In]; tauto).
    reflexivity.
  - intros k Hk. now repeat apply dict_set_keys_incl.
Qed.

(** A successful [transform], window by window: where the samples of the
    window come from, what was computed on them, and what the row of the
    returned table holds. *)
Lemma transform_rows_inv (t : DataFrame) :
  0 < window_size eng ->
  transform eng df sensor_cols timestamp_col vehicle_id_col severity_col
    metadata_cols = Ok t ->
  exists wdf groups windows,
    working_frame eng df sensor_cols timestamp_col vehicle_id_col = Ok wdf
    /\ groupby wdf vehicle_id_col = Ok groups
    /\ segment eng groups = Ok windows
    /\ windows <> []
    /\ Forall2
         (fun w row =>
            let window := iloc_slice wdf (snd (snd w)) in
            exists group features first_ts last_ts ratio,
              In (fst w, group) groups
              /\ incl group (df_rows wdf)
              /\ Forall (fun r => cell_eqb (row_get r vehicle_id_col) (fst w) = true)
                   group
              /\ snd (snd w)
                 = py_slice group (fst (snd w)) (fst (snd w) + window_size eng)
              /\ 0 <= fst (snd w)
              /\ Z.of_nat (length (snd (snd w))) = window_size eng
              /\ _compute_window_features eng window sensor_cols
                   (filter (has_column wdf)
                      match metadata_cols with Some l => l | None => [] end)
                   severity_col = Ok features
              /\ iloc_first (series window timestamp_col) = Ok first_ts
              /\ iloc_last (series window timestamp_col) = Ok last_ts
              /\ series_mean (series window (label_col eng)) = Ok ratio
              /\ dict_get "vehicle_id" row = Some (fst w)
              /\ dict_get "window_index" row
                 = Some (CNum (float_of_Z (window_index eng (fst (snd w)))))
              /\ dict_get "window_start_ts" row = Some first_ts
              /\ dict_get "window_end_ts" row = Some last_ts
              /\ dict_get "label" row
                 = Some (CNum (if series_any (series window (label_col eng))
                               then Fin 1 else Fin 0))
              /\ dict_get "positive_ratio" row = Some (CNum ratio)
              /\ (forall k v, mem_str k transform_non_feature_cols = false ->
                    dict_get k features = Some v ->
                    dict_get k row = Some (clean_cell v)))
         windows (df_rows t).
Proof.
  intros HW E.
  apply transform_inv in E
    as (wdf & groups & windows & raws & Ewdf & Eg & Es & Hall & Hne & ->).
  exists wdf, groups, windows. repeat (split; [ assumption | ]).
  split.
  { intros ->. inversion Hall. congruence. }
  rewrite rows_clean_features.
  assert (Hwin := segment_windows _ _ HW Es).
  assert (Hgrp := groupby_rows _ _ Eg).
  rewrite Forall_forall in Hwin, Hgrp.
  eapply Forall2_map_r_In; [ exact Hall | ].
  intros w raw Hw Hraw Erow. cbv zeta.
  destruct (Hwin w Hw) as (group & Hgin & Hstart & Hslice & Hlen).
  destruct (Hgrp _ Hgin) as (Hincl & Hkey). cbn [fst snd] in Hincl, Hkey.
  apply window_row_fields in Erow. cbv zeta in Erow.
  destruct Erow as (features & first_ts & last_ts & ratio & Ef & E1 & E2 & Er
                    & Gv & Gi & Gs & Ge & Gl & Gp & Gfeat & Gkeys).
  exists group, features, first_ts, last_ts, ratio.
  repeat (split; [ assumption | ]).
  assert (Hfixed : forall k v,
             mem_str k transform_non_feature_cols = true ->
             dict_get k raw = Some v ->
             dict_get k
               (map (fun c =>
                       (c, if mem_str c transform_non_feature_cols
                           then row_get raw c else clean_cell (row_get raw c)))
                  (frame_columns raws)) = Some v).
  { intros k v Hk Ev.
    rewrite (dict_get_tabulate
               (fun c => if mem_str c transform_non_feature_cols
                         then row_get raw c else clean_cell (row_get raw c))).
    assert (Hin : In k (dict_keys raw)) by (eapply dict_get_Some_In_keys; eauto).
    rewrite (proj2 (mem_str_In k (frame_columns raws))
               (frame_columns_In _ _ _ Hraw Hin)).
    rewrite Hk. unfold row_get. now rewrite Ev. }
  repeat (split; [ now apply Hfixed | ]).
  intros k v Hk Ev.
  rewrite (dict_get_tabulate
             (fun c => if mem_str c transform_non_feature_cols
                       then row_get raw c else clean_cell (row_get raw c))).
  assert (Hin : In k (dict_keys raw))
    by (apply Gkeys; eapply dict_get_Some_In_keys; eauto).
  rewrite (proj2 (mem_str_In k (frame_columns raws))
             (frame_columns_In _ _ _ Hraw Hin)).
  rewrite Hk. unfold row_get. now rewrite (Gfeat k Hk), Ev.
Qed.

End TransformRows.

(** [_compute_window_features] sets [samples_in_window] last, to the number
    of samples of the window. *)
Lemma compute_window_features_samples `{NumericBackend} (eng : Engineer)
    (window : DataFrame) (sensor_cols metadata_cols : list string)
    (severity_col : option string) (features : Row) :
  _compute_window_features eng window sensor_cols metadata_cols severity_col
  = Ok features ->
  dict_get "samples_in_window" features
  = Some (CNum (float_of_nat (df_len window))).
Proof.
  unfold _compute_window_features. intros E.
  repeat (apply bind_ok_inv in E as (? & _ & E)).
  injection E as <-. apply dict_get_set_same.
Qed.

(** ** Construction and validation *)

(** [__init__] raises for a window size that is not positive and accepts
    every other one.  The engineer it returns keeps the three other
    arguments, and its hop is zero exactly when the window size is 1 and no
    hop (or the hop 0) was given: [1 // 2] is the only default that is
    zero. *)
Theorem init_hop_is_zero_only_for_unit_window :
  forall (rate w : Z) (step : option Z) (label : string),
    (w <= 0 ->
     init rate w step label = Raise (ValueError "window_size must be positive"))
    /\ (0 < w ->
        exists eng,
          init rate w step label = Ok eng
          /\ sampling_rate eng = rate
          /\ window_size eng = w
          /\ label_col eng = label
          /\ (step_size eng = 0 <-> w = 1 /\ (step = None \/ step = Some 0))).
Proof.
  intros rate w step label. unfold init. split.
  - intros Hw. destruct (Z.leb_spec w 0); [ reflexivity | lia ].
  - intros Hw. destruct (Z.leb_spec w 0); [ lia | ].
    eexists. split; [ reflexivity | ]. cbn [sampling_rate window_size label_col step_size].
    repeat (split; [ reflexivity | ]).
    assert (Hdiv : w / 2 = 0 <-> w = 1).
    { split; [ | intros ->; reflexivity ].
      intros Hz. assert (Hm := Z.div_mod w 2 ltac:(lia)).
      assert (Hb := Z.mod_pos_bound w 2 ltac:(lia)). lia. }
    unfold py_or. destruct step as [v |].
    + destruct (Z.eqb_spec v 0) as [-> | Hv].
      * rewrite Hdiv. split; [ intros ->; auto | intros (-> & _); reflexivity ].
      * split; [ intros Hz; contradiction | ].
        intros (_ & [Hs | Hs]); [ discriminate | congruence ].
    + rewrite Hdiv. split; [ intros ->; auto | intros (-> & _); reflexivity ].
Qed.

(** With a hop that is not positive no group yields a window: [range]
    raises for the hop 0 and is empty for a negative hop. *)
Lemma group_windows_without_hop {A : Type} (eng : Engineer) (group : list A)
    (slices : list (Z * list A)) :
  step_size eng <= 0 ->
  group_windows eng group = Ok slices -> slices = [].
Proof.
  intros HS. unfold group_windows.
  destruct (Z.ltb_spec (Z.of_nat (length group)) (window_size eng)) as [Hlt | Hge].
  - intros E. now injection E as <-.
  - unfold py_range.
    destruct (Z.eqb_spec (step_size eng) 0) as [Hz | Hnz]; [ discriminate | ].
    destruct (Z.ltb_spec 0 (step_size eng)) as [Hpos | _]; [ lia | ].
    cbn [bind]. intros E. injection E as <-.
    match goal with
    | |- context [range_down ?fuel _ _ _] => replace fuel with O by lia
    end.
    reflexivity.
Qed.

Lemma segment_without_windows (eng : Engineer) (groups : list (cell * list Row))
    (windows : list (cell * (Z * list Row))) :
  (forall g slices, In g groups ->
     group_windows eng (snd g) = Ok slices -> slices = []) ->
  segment eng groups = Ok windows -> windows = [].
Proof.
  unfold segment. revert windows.
  induction groups as [| g groups IH]; simpl; intros windows Hall E.
  - now injection E as <-.
  - apply bind_ok_inv in E as (per & Eper & E). injection E as <-.
    apply bind_ok_inv in Eper as (ws & Ews & Eper).
    apply bind_ok_inv in Eper as (rest & Erest & Eper). injection Eper as <-.
    apply bind_ok_inv in Ews as (slices & Es & Ews). injection Ews as <-.
    rewrite (Hall g slices (or_introl eq_refl) Es). simpl.
    apply IH; [ intros; eapply Hall; eauto | now rewrite Erest ].
Qed.

(** An engineer whose hop is zero or negative is of no use: [transform]
    raises on every table.  [__init__] builds such an engineer from a
    negative [step_size], and from [window_size = 1] without a
    [step_size]. *)
Theorem transform_raises_without_positive_hop `{NumericBackend} :
  forall (eng : Engineer) (df : DataFrame) (sensor_cols : list string)
         (timestamp_col vehicle_id_col : string) (severity_col : option string)
         (metadata_cols : option (list string)),
    step_size eng <= 0 ->
    exists e,
      transform eng df sensor_cols timestamp_col vehicle_id_col severity_col
        metadata_cols = Raise e.
Proof.
  intros eng df sensor_cols timestamp_col vehicle_id_col severity_col
    metadata_cols HS.
  destruct (transform eng df sensor_cols timestamp_col vehicle_id_col
              severity_col metadata_cols) as [t | e] eqn:E; [ | eauto ].
  exfalso.
  apply transform_inv in E
    as (wdf & groups & windows & raws & _ & _ & Es & Hall & Hne & _).
  apply segment_without_windows in Es.
  - subst windows. inversion Hall. congruence.
  - intros g slices _. now apply group_windows_without_hop.
Qed.

Lemma transform_raises_without_positive_hop_witness :
  exists eng,
    init 50 1 None "accident" = Ok eng
    /\ exists e,
         transform (H := RationalBackend.backend) eng (Examples.at_rest 8)
           default_sensor_cols "timestamp" "vehicle_id"
           (Some "event_severity") None = Raise e.
Proof.
  exists (mkEngineer 50 1 0 "accident"). split; [ reflexivity | ].
  apply (transform_raises_without_positive_hop
           (H := RationalBackend.backend) (mkEngineer 50 1 0 "accident")).
  simpl. lia.
Defined.

(** [transform] checks the sensor columns before anything else: when one
    of them is no column of the table it raises the [ValueError] of the
    first check, whatever else is wrong with the table. *)
Theorem transform_rejects_missing_sensor_column `{NumericBackend} :
  forall (eng : Engineer) (df : DataFrame) (sensor_cols : list string)
         (timestamp_col vehicle_id_col : string) (severity_col : option string)
         (metadata_cols : option (list string)) (c : string),
    In c sensor_cols -> has_column df c = false ->
    transform eng df sensor_cols timestamp_col vehicle_id_col severity_col
      metadata_cols = Raise (ValueError "Missing sensor columns").
Proof.
  intros eng df sensor_cols timestamp_col vehicle_id_col severity_col
    metadata_cols c Hc Hmiss.
  unfold transform, working_frame. cbv zeta.
  destruct (filter (fun c0 => negb (has_column df c0)) sensor_cols)
    as [| m ms] eqn:Ef.
  - assert (Hin : In c (filter (fun c0 => negb (has_column df c0)) sensor_cols)).
    { apply filter_In. split; [ exact Hc | now rewrite Hmiss ]. }
    rewrite Ef in Hin. contradiction.
  - reflexivity.
Qed.

Lemma transform_rejects_missing_sensor_column_witness :
  transform (H := RationalBackend.backend) Examples.engineer_4_2
    (Examples.at_rest 8) [ "accel_x"; "gyro_x" ] "timestamp" "vehicle_id"
    (Some "event_severity") None
  = Raise (ValueError "Missing sensor columns").
Proof.
  apply (transform_rejects_missing_sensor_column
           (H := RationalBackend.backend) Examples.engineer_4_2
           (Examples.at_rest 8) [ "accel_x"; "gyro_x" ] "timestamp" "vehicle_id"
           (Some "event_severity") None "gyro_x").
  - simpl. auto.
  - reflexivity.
Defined.

(** When all sensor columns are there and the label column is not,
    [transform] raises the [ValueError] of the second check. *)
Theorem transform_rejects_missing_label_column `{NumericBackend} :
  forall (eng : Engineer) (df : DataFrame) (sensor_cols : list string)
         (timestamp_col vehicle_id_col : string) (severity_col : option string)
         (metadata_cols : option (list string)),
    (forall c, In c sensor_cols -> has_column df c = true) ->
    has_column df (label_col eng) = false ->
    transform eng df sensor_cols timestamp_col vehicle_id_col severity_col
      metadata_cols = Raise (ValueError "Label column not found in dataframe").
Proof.
  intros eng df sensor_cols timestamp_col vehicle_id_col severity_col
    metadata_cols Hsens Hlabel.
  unfold transform, working_frame. cbv zeta.
  replace (filter (fun c => negb (has_column df c)) sensor_cols)
    with (@nil string).
  - cbn [length Nat.eqb negb]. rewrite Hlabel. reflexivity.
  - symmetry. clear -Hsens.
    induction sensor_cols as [| c cols IH]; [ reflexivity | ].
    cbn [filter]. rewrite (Hsens c (or_introl eq_refl)). cbn [negb].
    apply IH. intros; apply Hsens; now right.
Qed.

Lemma transform_rejects_missing_label_column_witness :
  transform (H := RationalBackend.backend)
    (mkEngineer 50 4 2 "crash") (Examples.at_rest 8) default_sensor_cols
    "timestamp" "vehicle_id" (Some "event_severity") None
  = Raise (ValueError "Label column not found in dataframe").
Proof.
  apply (transform_rejects_missing_label_column
           (H := RationalBackend.backend) (mkEngineer 50 4 2 "crash")
           (Examples.at_rest 8) default_sensor_cols "timestamp" "vehicle_id"
           (Some "event_severity") None).
  - intros c Hc. simpl in Hc.
    repeat (destruct Hc as [<- | Hc]; [ reflexivity | ]). contradiction.
  - reflexivity.
Defined.

(** ** Tables too short, vehicles, and the fields of a row *)

Lemma insert_sorted_length {A : Type} (le : A -> A -> bool) (x : A) (l : list A) :
  length (insert_sorted le x l) = S (length l).
Proof.
  induction l as [| y l IH]; simpl; [ reflexivity | ].
  destruct (le x y); simpl; [ reflexivity | now rewrite IH ].
Qed.

Lemma stable_sort_length {A : Type} (le : A -> A -> bool) (l : list A) :
  length (stable_sort le l) = length l.
Proof.
  unfold stable_sort. induction l as [| x l IH]; simpl; [ reflexivity | ].
  now rewrite insert_sorted_length, IH.
Qed.

Lemma set_column_len (df : DataFrame) (c : string) (d : dtype)
    (values : list cell) :
  length values = df_len df -> df_len (set_column df c d values) = df_len df.
Proof.
  unfold df_len, set_column. cbn [df_rows]. intros E.
  rewrite length_map, length_combine, E. apply Nat.min_id.
Qed.

(** The frame [transform] works on has as many rows as the table. *)
Lemma working_frame_len (eng : Engineer) (df : DataFrame)
    (sensor_cols : list string) (timestamp_col vehicle_id_col : string)
    (wdf : DataFrame) :
  working_frame eng df sensor_cols timestamp_col vehicle_id_col = Ok wdf ->
  df_len wdf = df_len df.
Proof.
  unfold working_frame. cbv zeta.
  destruct (negb (length (filter _ sensor_cols) =? 0)%nat); [ discriminate | ].
  destruct (negb (has_column df (label_col eng))); [ discriminate | ].
  set (df1 := if negb (has_column df timestamp_col) then _ else df).
  assert (H1 : df_len df1 = df_len df).
  { unfold df1. destruct (negb (has_column df timestamp_col)); [ | reflexivity ].
    apply set_column_len. now rewrite length_map, length_seq. }
  set (df2 := if negb (has_column df1 vehicle_id_col) then _ else df1).
  assert (H2 : df_len df2 = df_len df).
  { unfold df2. destruct (negb (has_column df1 vehicle_id_col)); [ | exact H1 ].
    rewrite set_column_len; [ exact H1 | apply repeat_length ]. }
  unfold sort_values. intros E.
  destruct (negb (has_column df2 vehicle_id_col)); [ discriminate E | ].
  destruct (negb (has_column df2 timestamp_col)); [ discriminate E | ].
  injection E as <-. unfold df_len in *. cbn [df_rows].
  now rewrite stable_sort_length.
Qed.

Lemma groupby_group_length (df : DataFrame) (c : string)
    (groups : list (cell * list Row)) (g : cell * list Row) :
  groupby df c = Ok groups -> In g groups ->
  (length (snd g) <= df_len df)%nat.
Proof.
  unfold groupby. intros E Hg.
  destruct (negb (has_column df c)); [ discriminate E | ]. injection E as <-.
  apply in_map_iff in Hg as (k & <- & _). cbn [snd].
  apply filter_length_le.
Qed.

(** Groups that are all shorter than the window give no row and raise
    nothing. *)
Lemma short_groups_give_no_row `{NumericBackend} (eng : Engineer)
    (wdf : DataFrame) (sensor_cols mc : list string)
    (severity_col : option string) (timestamp_col : string)
    (groups : list (cell * list Row)) :
  (forall g, In g groups -> Z.of_nat (length (snd g)) < window_size eng) ->
  exists per_group,
    mapM (group_rows eng wdf sensor_cols mc severity_col timestamp_col) groups
    = Ok per_group
    /\ concat per_group = [].
Proof.
  induction groups as [| g groups IH]; intros Hshort.
  - exists []. split; reflexivity.
  - destruct IH as (per & Eper & Hper); [ intros; apply Hshort; now right | ].
    cbn [mapM]. unfold group_rows at 1.
    rewrite group_windows_short by (apply Hshort; now left).
    cbn [bind mapM]. rewrite Eper. cbn [bind].
    exists ([] :: per). split; [ reflexivity | exact Hper ].
Qed.

(** A table with fewer rows than the window size gives no table:
    [transform] raises, and when the table passes the validation, the
    sort and the grouping, what it raises is the [ValueError] for no
    window. *)
Theorem transform_raises_on_too_few_samples `{NumericBackend} :
  forall (eng : Engineer) (df : DataFrame) (sensor_cols : list string)
         (timestamp_col vehicle_id_col : string) (severity_col : option string)
         (metadata_cols : option (list string)),
    Z.of_nat (df_len df) < window_size eng ->
    (exists e,
       transform eng df sensor_cols timestamp_col vehicle_id_col severity_col
         metadata_cols = Raise e)
    /\ (forall wdf groups,
          working_frame eng df sensor_cols timestamp_col vehicle_id_col = Ok wdf ->
          groupby wdf vehicle_id_col = Ok groups ->
          transform eng df sensor_cols timestamp_col vehicle_id_col severity_col
            metadata_cols = Raise (ValueError "No windows were generated")).
Proof.
  intros eng df sensor_cols timestamp_col vehicle_id_col severity_col
    metadata_cols Hshort.
  assert (Hraise : forall wdf groups,
             working_frame eng df sensor_cols timestamp_col vehicle_id_col = Ok wdf ->
             groupby wdf vehicle_id_col = Ok groups ->
             transform eng df sensor_cols timestamp_col vehicle_id_col severity_col
               metadata_cols = Raise (ValueError "No windows were generated")).
  { intros wdf groups Ewdf Eg. unfold transform.
    rewrite Ewdf. cbn [bind]. rewrite Eg. cbn [bind].
    destruct (short_groups_give_no_row eng wdf sensor_cols
                (filter (has_column wdf)
                   match metadata_cols with Some l => l | None => [] end)
                severity_col timestamp_col groups) as (per & Eper & Hper).
    - intros g Hg. assert (Hlen := groupby_group_length _ _ g Eg Hg).
      rewrite (working_frame_len _ _ _ _ _ Ewdf) in Hlen. lia.
    - rewrite Eper. cbn [bind]. rewrite Hper. reflexivity. }
  split; [ | exact Hraise ].
  destruct (working_frame eng df sensor_cols timestamp_col vehicle_id_col)
    as [wdf | e] eqn:Ewdf.
  - destruct (groupby wdf vehicle_id_col) as [groups | e] eqn:Eg.
    + eexists. now apply (Hraise wdf groups).
    + exists e. unfold transform. rewrite Ewdf. cbn [bind]. now rewrite Eg.
  - exists e. unfold transform. now rewrite Ewdf.
Qed.

Lemma transform_raises_on_too_few_samples_witness :
  transform (H := RationalBackend.backend) Examples.engineer_100_50
    (Examples.at_rest 8) default_sensor_cols "timestamp" "vehicle_id"
    (Some "event_severity") None
  = Raise (ValueError "No windows were generated").
Proof.
  refine (proj2 (transform_raises_on_too_few_samples
                   (H := RationalBackend.backend) Examples.engineer_100_50
                   (Examples.at_rest 8) default_sensor_cols "timestamp"
                   "vehicle_id" (Some "event_severity") None _) _ _ _ _).
  - vm_compute. reflexivity.
  - vm_compute. reflexivity.
  - vm_compute. reflexivity.
Defined.

Lemma Forall2_Forall_r {A B : Type} (R : A -> B -> Prop) (P : B -> Prop)
    (xs : list A) (ys : list B) :
  Forall2 R xs ys -> (forall x y, R x y -> P y) -> Forall P ys.
Proof. induction 1; intros HP; constructor; eauto. Qed.

(** No window mixes vehicles: every row of the returned table comes from
    one window, all of whose samples are rows of the sorted frame with the
    vehicle identifier that the row carries in [vehicle_id]. *)
Theorem transform_windows_stay_within_vehicle `{NumericBackend} :
  forall (eng : Engineer) (df : DataFrame) (sensor_cols : list string)
         (timestamp_col vehicle_id_col : string) (severity_col : option string)
         (metadata_cols : option (list string)) (t : DataFrame),
    0 < window_size eng ->
    transform eng df sensor_cols timestamp_col vehicle_id_col severity_col
      metadata_cols = Ok t ->
    exists wdf groups windows,
      working_frame eng df sensor_cols timestamp_col vehicle_id_col = Ok wdf
      /\ groupby wdf vehicle_id_col = Ok groups
      /\ segment eng groups = Ok windows
      /\ Forall2
           (fun w row =>
              dict_get "vehicle_id" row = Some (fst w)
              /\ Forall (fun r =>
                           In r (df_rows wdf)
                           /\ cell_eqb (row_get r vehicle_id_col) (fst w) = true)
                   (snd (snd w)))
           windows (df_rows t).
Proof.
  intros eng df sensor_cols timestamp_col vehicle_id_col severity_col
    metadata_cols t HW E.
  apply transform_rows_inv in E
    as (wdf & groups & windows & Ewdf & Eg & Es & _ & Hall); [ | exact HW ].
  exists wdf, groups, windows. repeat (split; [ assumption | ]).
  eapply Forall2_impl; [ | exact Hall ].
  intros w row (group & f & t0 & t1 & ratio & _ & Hincl & Hkey & Hslice & _
                & _ & _ & _ & _ & _ & Gv & _).
  split; [ exact Gv | ].
  apply Forall_forall. intros r Hr. rewrite Hslice in Hr.
  apply py_slice_incl in Hr. split; [ now apply Hincl | ].
  rewrite Forall_forall in Hkey. now apply Hkey.
Qed.

Lemma transform_windows_stay_within_vehicle_witness :
  exists wdf groups windows,
    working_frame Examples.engineer_2_1 Examples.two_vehicles default_sensor_cols
      "timestamp" "vehicle_id" = Ok wdf
    /\ groupby wdf "vehicle_id" = Ok groups
    /\ segment Examples.engineer_2_1 groups = Ok windows
    /\ Forall2
         (fun w row =>
            dict_get "vehicle_id" row = Some (fst w)
            /\ Forall (fun r =>
                         In r (df_rows wdf)
                         /\ cell_eqb (row_get r "vehicle_id") (fst w) = true)
                 (snd (snd w)))
         windows (df_rows Examples.two_vehicles_table).
Proof.
  apply (transform_windows_stay_within_vehicle
           (H := RationalBackend.backend) Examples.engineer_2_1
           Examples.two_vehicles default_sensor_cols "timestamp" "vehicle_id"
           (Some "event_severity") None).
  - reflexivity.
  - vm_compute. reflexivity.
Defined.

(** Every row of the returned table records the window size in
    [samples_in_window]: no window is shorter than the others. *)
Theorem transform_rows_hold_window_size `{NumericBackend} :
  forall (eng : Engineer) (df : DataFrame) (sensor_cols : list string)
         (timestamp_col vehicle_id_col : string) (severity_col : option string)
         (metadata_cols : option (list string)) (t : DataFrame),
    0 < window_size eng ->
    transform eng df sensor_cols timestamp_col vehicle_id_col severity_col
      metadata_cols = Ok t ->
    df_rows t <> []
    /\ Forall (fun row =>
                 dict_get "samples_in_window" row
                 = Some (CNum (float_of_Z (window_size eng))))
         (df_rows t).
Proof.
  intros eng df sensor_cols timestamp_col vehicle_id_col severity_col
    metadata_cols t HW E.
  apply transform_rows_inv in E
    as (wdf & groups & windows & _ & _ & _ & Hne & Hall); [ | exact HW ].
  split.
  { intros Hnil. rewrite Hnil in Hall. inversion Hall. congruence. }
  eapply Forall2_Forall_r; [ exact Hall | ].
  intros w row (group & f & t0 & t1 & ratio & _ & _ & _ & _ & _ & Hlen & Ef
                & _ & _ & _ & _ & _ & _ & _ & _ & _ & Hfeat).
  apply compute_window_features_samples in Ef.
  rewrite (Hfeat "samples_in_window" _ eq_refl Ef).
  unfold df_len, iloc_slice, float_of_nat. cbn [df_rows]. now rewrite Hlen.
Qed.

Lemma transform_rows_hold_window_size_witness :
  df_rows Examples.two_vehicles_table <> []
  /\ Forall (fun row =>
               dict_get "samples_in_window" row
               = Some (CNum (float_of_Z (window_size Examples.engineer_2_1))))
       (df_rows Examples.two_vehicles_table).
Proof.
  apply (transform_rows_hold_window_size
           (H := RationalBackend.backend) Examples.engineer_2_1
           Examples.two_vehicles default_sensor_cols "timestamp" "vehicle_id"
           (Some "event_severity") None).
  - reflexivity.
  - vm_compute. reflexivity.
Defined.

(** The [label] of a row is the number 0 or the number 1, whatever the
    label column of the table holds. *)
Theorem transform_label_is_zero_or_one `{NumericBackend} :
  forall (eng : Engineer) (df : DataFrame) (sensor_cols : list string)
         (timestamp_col vehicle_id_col : string) (severity_col : option string)
         (metadata_cols : option (list string)) (t : DataFrame),
    transform eng df sensor_cols timestamp_col vehicle_id_col severity_col
      metadata_cols = Ok t ->
    Forall (fun row =>
              dict_get "label" row = Some (CNum (Fin 0))
              \/ dict_get "label" row = Some (CNum (Fin 1)))
      (df_rows t).
Proof.
  intros eng df sensor_cols timestamp_col vehicle_id_col severity_col
    metadata_cols t E.
  apply transform_inv in E
    as (wdf & groups & windows & raws & _ & _ & _ & Hall & _ & ->).
  rewrite rows_clean_features. apply Forall_forall. intros row Hrow.
  apply in_map_iff in Hrow as (raw & <- & Hraw).
  assert (Hw : exists w,
             window_row eng wdf sensor_cols
               (filter (has_column wdf)
                  match metadata_cols with Some l => l | None => [] end)
               severity_col timestamp_col (fst w) (snd w) = Ok raw).
  { clear -Hall Hraw. induction Hall as [| w r ws rs Hr _ IH];
      [ contradiction | ].
    destruct Hraw as [<- | Hraw]; eauto. }
  destruct Hw as (w & Erow).
  apply window_row_fields in Erow. cbv zeta in Erow.
  destruct Erow as (f & t0 & t1 & ratio & _ & _ & _ & _ & _ & _ & _ & _ & Gl & _).
  rewrite (dict_get_tabulate
             (fun c => if mem_str c transform_non_feature_cols
                       then row_get raw c else clean_cell (row_get raw c))).
  assert (Hin : In "label" (dict_keys raw))
    by (eapply dict_get_Some_In_keys; eauto).
  rewrite (proj2 (mem_str_In _ (frame_columns raws))
             (frame_columns_In _ _ _ Hraw Hin)).
  change (mem_str "label" transform_non_feature_cols) with true. cbv iota.
  unfold row_get. rewrite Gl.
  destruct (series_any _); auto.
Qed.

Lemma transform_label_is_zero_or_one_witness :
  Forall (fun row =>
            dict_get "label" row = Some (CNum (Fin 0))
            \/ dict_get "label" row = Some (CNum (Fin 1)))
    (df_rows Examples.two_vehicles_table).
Proof.
  apply (transform_label_is_zero_or_one
           (H := RationalBackend.backend) Examples.engineer_2_1
           Examples.two_vehicles default_sensor_cols "timestamp" "vehicle_id"
           (Some "event_severity") None).
  vm_compute. reflexivity.
Defined.

Lemma series_mean_all_missing (xs : list cell) :
  forallb cell_isna xs = true ->
  series_mean xs = Ok NaN /\ series_any xs = false.
Proof.
  intros E. unfold series_mean, series_any.
  assert (Hvs : exists vs,
             float_values xs = Ok vs
             /\ filter (fun v => negb (is_nan v)) vs = []).
  { unfold float_values. induction xs as [| c xs IH]; [ exists []; auto | ].
    cbn [forallb] in E. apply andb_true_iff in E as (Ec & E).
    destruct (IH E) as (vs & Evs & Hvs).
    destruct c as [[q | | |] | s]; try discriminate Ec.
    exists (NaN :: vs). cbn [mapM cell_float bind]. rewrite Evs. cbn [bind].
    split; [ reflexivity | exact Hvs ]. }
  destruct Hvs as (vs & -> & Hvs). cbn [bind]. rewrite Hvs. split.
  - reflexivity.
  - clear -E. induction xs as [| c xs IH]; [ reflexivity | ].
    cbn [forallb] in E. apply andb_true_iff in E as (Ec & E).
    cbn [existsb]. rewrite Ec. cbn [negb andb orb]. now apply IH.
Qed.

(** The final clean-up does not reach [positive_ratio]: a window whose
    labels are all missing gets the label 0 and keeps NaN as its
    [positive_ratio] in the returned table. *)
Theorem transform_keeps_nan_positive_ratio `{NumericBackend} :
  forall (eng : Engineer) (df : DataFrame) (sensor_cols : list string)
         (timestamp_col vehicle_id_col : string) (severity_col : option string)
         (metadata_cols : option (list string)) (t : DataFrame),
    0 < window_size eng ->
    transform eng df sensor_cols timestamp_col vehicle_id_col severity_col
      metadata_cols = Ok t ->
    exists wdf groups windows,
      working_frame eng df sensor_cols timestamp_col vehicle_id_col = Ok wdf
      /\ groupby wdf vehicle_id_col = Ok groups
      /\ segment eng groups = Ok windows
      /\ Forall2
           (fun w row =>
              forallb (fun r => cell_isna (row_get r (label_col eng)))
                (snd (snd w)) = true ->
              dict_get "label" row = Some (CNum (Fin 0))
              /\ dict_get "positive_ratio" row = Some (CNum NaN))
           windows (df_rows t).
Proof.
  intros eng df sensor_cols timestamp_col vehicle_id_col severity_col
    metadata_cols t HW E.
  apply transform_rows_inv in E
    as (wdf & groups & windows & Ewdf & Eg & Es & _ & Hall); [ | exact HW ].
  exists wdf, groups, windows. repeat (split; [ assumption | ]).
  eapply Forall2_impl; [ | exact Hall ].
  intros w row (group & f & t0 & t1 & ratio & _ & _ & _ & _ & _ & _ & _ & _
                & _ & Er & _ & _ & _ & _ & Gl & Gp & _) Hmiss.
  assert (Hm : forallb cell_isna
                 (series (iloc_slice wdf (snd (snd w))) (label_col eng)) = true).
  { unfold series, iloc_slice. cbn [df_rows]. clear -Hmiss.
    induction (snd (snd w)) as [| r rows IH]; [ reflexivity | ].
    cbn [forallb map] in *. apply andb_true_iff in Hmiss as (Hr & Hrows).
    now rewrite Hr, (IH Hrows). }
  destruct (series_mean_all_missing _ Hm) as (Emean & Eany).
  rewrite Emean in Er. injection Er as <-.
  rewrite Eany in Gl. auto.
Qed.

Lemma transform_keeps_nan_positive_ratio_witness :
  exists t wdf groups windows,
    transform (H := RationalBackend.backend) Examples.engineer_4_2
      (Examples.unlabelled 8) default_sensor_cols "timestamp" "vehicle_id"
      (Some "event_severity") None = Ok t
    /\ working_frame Examples.engineer_4_2 (Examples.unlabelled 8)
         default_sensor_cols "timestamp" "vehicle_id" = Ok wdf
    /\ groupby wdf "vehicle_id" = Ok groups
    /\ segment Examples.engineer_4_2 groups = Ok windows
    /\ Forall2
         (fun w row =>
            forallb (fun r => cell_isna (row_get r "accident"))
              (snd (snd w)) = true ->
            dict_get "label" row = Some (CNum (Fin 0))
            /\ dict_get "positive_ratio" row = Some (CNum NaN))
         windows (df_rows t).
Proof.
  eexists.
  assert (E : forall t,
             transform (H := RationalBackend.backend) Examples.engineer_4_2
               (Examples.unlabelled 8) default_sensor_cols "timestamp"
               "vehicle_id" (Some "event_severity") None = Ok t ->
             exists wdf groups windows,
               transform (H := RationalBackend.backend) Examples.engineer_4_2
                 (Examples.unlabelled 8) default_sensor_cols "timestamp"
                 "vehicle_id" (Some "event_severity") None = Ok t
               /\ working_frame Examples.engineer_4_2 (Examples.unlabelled 8)
                    default_sensor_cols "timestamp" "vehicle_id" = Ok wdf
               /\ groupby wdf "vehicle_id" = Ok groups
               /\ segment Examples.engineer_4_2 groups = Ok windows
               /\ Forall2
                    (fun w row =>
                       forallb (fun r => cell_isna (row_get r "accident"))
                         (snd (snd w)) = true ->
                       dict_get "label" row = Some (CNum (Fin 0))
                       /\ dict_get "positive_ratio" row = Some (CNum NaN))
                    windows (df_rows t)).
  { intros t Et.
    destruct (transform_keeps_nan_positive_ratio
                (H := RationalBackend.backend) Examples.engineer_4_2
                (Examples.unlabelled 8) default_sensor_cols "timestamp"
                "vehicle_id" (Some "event_severity") None eq_refl Et)
      as (wdf & groups & windows & H1 & H2 & H3 & H4).
    exists wdf, groups, windows. auto. }
  apply E. vm_compute. reflexivity.
Defined.

(** ** The feature helpers: what they return and when they raise *)

Lemma argmax_from_bound (xs : list fval) :
  forall (i best_i : nat) (best : fval),
    (best_i < i)%nat -> (argmax_from xs i best_i best < i + length xs)%nat.
Proof.
  induction xs as [| x xs IH]; intros i best_i best Hb; cbn [argmax_from length].
  - lia.
  - destruct (negb (is_nan best) && (is_nan x || fltb best x)).
    + specialize (IH (S i) i x ltac:(lia)). lia.
    + specialize (IH (S i) best_i best ltac:(lia)). lia.
Qed.

Lemma np_argmax_bound (xs : list fval) (i : nat) :
  np_argmax xs = Ok i -> (i < length xs)%nat.
Proof.
  destruct xs as [| x xs]; [ discriminate | ]. cbn [np_argmax length].
  intros E. injection E as <-.
  assert (Hb := @argmax_from_bound xs 1%nat 0%nat x ltac:(lia)). lia.
Qed.

Lemma np_get_in_range (xs : list fval) (i : nat) :
  (i < length xs)%nat -> exists v, np_get xs i = Ok v.
Proof.
  intros Hi. unfold np_get.
  destruct (nth_error xs i) as [v |] eqn:E; [ eauto | ].
  apply nth_error_None in E. lia.
Qed.

Lemma np_diff_nonempty (xs : list fval) :
  (2 <= length xs)%nat -> np_diff xs <> [].
Proof.
  destruct xs as [| x [| y xs]]; cbn [length]; try lia. intros _. discriminate.
Qed.

(** [_series_statistics] and [_jerk_statistics] raise on no series, be it
    empty, of one sample, or full of NaN: their guards on the length keep
    the reductions away from empty arrays.  The names they return are the
    prefix followed by ten, respectively three, fixed suffixes. *)
Theorem statistics_never_raise `{NumericBackend} :
  forall (eng : Engineer) (series : list fval) (prefix : string),
    (exists d,
       _series_statistics series prefix = Ok d
       /\ dict_keys d
          = map (append prefix)
              [ "_mean"; "_std"; "_max"; "_min"; "_range"; "_ptp"; "_energy";
                "_skew"; "_kurtosis"; "_zcr" ])
    /\ (exists d,
          _jerk_statistics eng series prefix = Ok d
          /\ dict_keys d = map (append prefix) [ "_mean"; "_std"; "_max" ]).
Proof.
  intros eng series prefix. split.
  - assert (Hok : exists d, _series_statistics series prefix = Ok d).
    { unfold _series_statistics, np_ptp.
      destruct series as [| x xs]; [ cbn; eauto | ].
      cbn [length Nat.eqb np_max np_min bind]. eauto. }
    destruct Hok as (d & Ed). exists d. split; [ exact Ed | ].
    now apply series_statistics_keys in Ed.
  - assert (Hok : exists d, _jerk_statistics eng series prefix = Ok d).
    { unfold _jerk_statistics.
      destruct (Nat.ltb_spec (length series) 2) as [Hlt | Hge]; [ eauto | ].
      destruct (map fabs (map (fun d => fmul d (float_of_Z (sampling_rate eng)))
                            (np_diff series))) as [| j js] eqn:Ej.
      - apply map_eq_nil in Ej. apply map_eq_nil in Ej.
        now apply np_diff_nonempty in Ej.
      - cbn [np_max bind]. eauto. }
    destruct Hok as (d & Ed). exists d. split; [ exact Ed | ].
    now apply jerk_statistics_keys in Ed.
Qed.

(** [_fft_features] divides [1.0] by the sampling rate: with a sampling
    rate of zero it raises [ZeroDivisionError] on every series of two
    samples or more.  In every other case it returns its four features,
    provided the spectrum has the length NumPy documents. *)
Theorem fft_features_raise_only_for_zero_sampling_rate `{B : NumericBackend}
    {L : BackendLaws B} :
  forall (eng : Engineer) (series : list fval) (prefix : string),
    (sampling_rate eng = 0 -> (2 <= length series)%nat ->
     _fft_features eng series prefix = Raise ZeroDivisionError)
    /\ (sampling_rate eng <> 0 \/ (length series < 2)%nat ->
        exists d,
          _fft_features eng series prefix = Ok d
          /\ dict_keys d
             = map (append prefix)
                 [ "_dominant_freq"; "_dominant_power"; "_spectral_energy";
                   "_spectral_entropy" ]).
Proof.
  intros eng series prefix. split.
  - intros Hz Hn. unfold _fft_features.
    destruct (Nat.ltb_spec (length series) 2); [ lia | ].
    rewrite Hz. reflexivity.
  - intros Hcase.
    assert (Hok : exists d, _fft_features eng series prefix = Ok d).
    { unfold _fft_features.
      destruct (Nat.ltb_spec (length series) 2) as [Hlt | Hge]; [ eauto | ].
      destruct Hcase as [Hrate | Hlt]; [ | lia ].
      assert (Hd : is_zero (float_of_Z (sampling_rate eng)) = false).
      { unfold float_of_Z, is_zero. apply not_true_is_false. intros Hq.
        apply Qeq_bool_iff in Hq. unfold Qeq in Hq. simpl in Hq. lia. }
      unfold py_truediv. rewrite Hd. cbn [bind].
      assert (Hlen := rfft_abs_length series).
      destruct (rfft_abs series) as [| s0 spectrum]; [ discriminate Hlen | ].
      cbn [np_set0 bind].
      assert (Hidx : exists i,
                 (if np_any (Fin 0 :: spectrum)
                  then np_argmax (Fin 0 :: spectrum) else Ok O) = Ok i
                 /\ (i < length (Fin 0 :: spectrum))%nat).
      { destruct (np_any (Fin 0 :: spectrum)).
        - cbn [np_argmax]. eexists. split; [ reflexivity | ].
          assert (Hb := @argmax_from_bound spectrum 1%nat 0%nat (Fin 0) ltac:(lia)).
          cbn [length]. lia.
        - exists O. split; [ reflexivity | cbn [length]; lia ]. }
      destruct Hidx as (i & -> & Hi). cbn [bind].
      destruct (@np_get_in_range
                  (np_rfftfreq (length series)
                     (fdiv (Fin 1) (float_of_Z (sampling_rate eng)))) i)
        as (freq & ->).
      { unfold np_rfftfreq. rewrite length_map, length_seq.
        cbn [length] in Hi, Hlen. lia. }
      cbn [bind].
      destruct (@np_get_in_range (Fin 0 :: spectrum) i Hi) as (power & ->).
      cbn [bind]. eauto. }
    destruct Hok as (d & Ed). exists d. split; [ exact Ed | ].
    now apply fft_features_keys in Ed.
Qed.

Lemma fft_features_raise_only_for_zero_sampling_rate_witness :
  (sampling_rate (mkEngineer 0 4 2 "accident") = 0 ->
   (2 <= length [Fin 1; Fin 2])%nat ->
   _fft_features (H := RationalBackend.backend) (mkEngineer 0 4 2 "accident")
     [Fin 1; Fin 2] "accel_x_fft" = Raise ZeroDivisionError)
  /\ (sampling_rate (mkEngineer 0 4 2 "accident") <> 0
      \/ (length [Fin 1; Fin 2] < 2)%nat ->
      exists d,
        _fft_features (H := RationalBackend.backend)
          (mkEngineer 0 4 2 "accident") [Fin 1; Fin 2] "accel_x_fft" = Ok d
        /\ dict_keys d
           = map (append "accel_x_fft")
               [ "_dominant_freq"; "_dominant_power"; "_spectral_energy";
                 "_spectral_entropy" ]).
Proof.
  exact (@fft_features_raise_only_for_zero_sampling_rate
           RationalBackend.backend rational_backend_laws
           (mkEngineer 0 4 2 "accident") [Fin 1; Fin 2] "accel_x_fft").
Defined.

Lemma mapM_length {A B : Type} (f : A -> result B) (xs : list A) (ys : list B) :
  mapM f xs = Ok ys -> length ys = length xs.
Proof.
  intros E. apply mapM_ok_Forall2 in E. symmetry. eapply Forall2_length; eauto.
Qed.

(** A successful [_compute_window_features] computed the spectrum features
    of the magnitude, which has one entry per sample of the window. *)
Lemma compute_window_features_inv_fft `{NumericBackend} (eng : Engineer)
    (window : DataFrame) (sensor_cols metadata_cols : list string)
    (severity_col : option string) (features : Row) :
  _compute_window_features eng window sensor_cols metadata_cols severity_col
  = Ok features ->
  exists values d,
    length values = df_len window
    /\ _fft_features eng (_vector_magnitude values) "magnitude_fft" = Ok d.
Proof.
  unfold _compute_window_features. intros E.
  apply bind_ok_inv in E as (axis_stats & _ & E).
  apply bind_ok_inv in E as (values & Ev & E).
  apply bind_ok_inv in E as (mag_stats & _ & E).
  apply bind_ok_inv in E as (jerk_axes & _ & E).
  apply bind_ok_inv in E as (mag_jerk & _ & E).
  apply bind_ok_inv in E as (correlations & _ & E).
  apply bind_ok_inv in E as (fft_features & _ & E).
  apply bind_ok_inv in E as (mag_fft & Efft & _).
  exists values, mag_fft. split; [ | exact Efft ].
  now apply mapM_length in Ev.
Qed.

(** [__init__] does not check the sampling rate.  An engineer with the
    sampling rate 0 and windows of two samples or more gives no table:
    [transform] raises on every input. *)
Theorem transform_raises_for_zero_sampling_rate `{NumericBackend} :
  forall (eng : Engineer) (df : DataFrame) (sensor_cols : list string)
         (timestamp_col vehicle_id_col : string) (severity_col : option string)
         (metadata_cols : option (list string)),
    sampling_rate eng = 0 -> 2 <= window_size eng ->
    exists e,
      transform eng df sensor_cols timestamp_col vehicle_id_col severity_col
        metadata_cols = Raise e.
Proof.
  intros eng df sensor_cols timestamp_col vehicle_id_col severity_col
    metadata_cols Hrate HW.
  destruct (transform eng df sensor_cols timestamp_col vehicle_id_col
              severity_col metadata_cols) as [t | e] eqn:E; [ | eauto ].
  exfalso.
  apply transform_rows_inv in E
    as (wdf & groups & windows & _ & _ & _ & Hne & Hall); [ | lia ].
  destruct Hall as [| w row ws rows Hw _]; [ congruence | ].
  destruct Hw as (group & f & t0 & t1 & ratio & _ & _ & _ & _ & _ & Hlen & Ef & _).
  apply compute_window_features_inv_fft in Ef as (values & d & Hvals & Efft).
  unfold _fft_features in Efft.
  unfold _vector_magnitude in Efft. rewrite length_map, Hvals in Efft.
  unfold df_len, iloc_slice in Efft. cbn [df_rows] in Efft.
  destruct (Nat.ltb_spec (length (snd (snd w))) 2) as [Hlt | Hge]; [ lia | ].
  rewrite Hrate in Efft. discriminate Efft.
Qed.

Lemma transform_raises_for_zero_sampling_rate_witness :
  exists e,
    transform (H := RationalBackend.backend) (mkEngineer 0 4 2 "accident")
      (Examples.at_rest 8) default_sensor_cols "timestamp" "vehicle_id"
      (Some "event_severity") None = Raise e.
Proof.
  apply (transform_raises_for_zero_sampling_rate
           (H := RationalBackend.backend) (mkEngineer 0 4 2 "accident")).
  - reflexivity.
  - simpl. lia.
Defined.

Lemma clip_unit_range (v : fval) :
  is_nan (clip_unit v) = false -> cell_in_unit (CNum (clip_unit v)) = true.
Proof.
  destruct v as [q | | |]; unfold clip_unit, fmax, fmin; cbn [is_nan];
    try (intros _; reflexivity); try discriminate.
  intros _. unfold fltb, fcmp.
  destruct (q ?= -1)%Q eqn:E1; cbn [is_nan].
  - destruct (1 ?= q)%Q eqn:E2; cbn [cell_in_unit].
    + apply Qeq_alt in E1, E2. rewrite E1 in E2. discriminate E2.
    + reflexivity.
    + apply Qeq_alt in E1. apply andb_true_iff.
      split; apply Qle_bool_iff; rewrite E1; discriminate.
  - reflexivity.
  - apply Qgt_alt in E1.
    destruct (1 ?= q)%Q eqn:E2; cbn [cell_in_unit].
    + apply Qeq_alt in E2. apply andb_true_iff.
      split; apply Qle_bool_iff; rewrite <- E2; discriminate.
    + reflexivity.
    + apply Qgt_alt in E2. apply andb_true_iff.
      split; apply Qle_bool_iff; now apply Qlt_le_weak.
Qed.

Lemma series_corr_range `{NumericBackend} (a b : list cell) (v : fval) :
  series_corr a b = Ok v ->
  cell_in_unit (CNum (if negb (is_nan v) then v else Fin 0)) = true.
Proof.
  unfold series_corr. intros E.
  apply bind_ok_inv in E as (xs & _ & E).
  apply bind_ok_inv in E as (ys & _ & E).
  destruct (length _ =? 0)%nat.
  - injection E as <-. reflexivity.
  - injection E as <-. unfold np_corrcoef. cbv zeta.
    destruct (is_nan (clip_unit _)) eqn:En; [ reflexivity | ].
    cbn [negb]. now apply clip_unit_range.
Qed.

Lemma correlation_row_range `{NumericBackend} (window : DataFrame)
    (col_i : string) (rest : list string) :
  forall correlations d,
    all_values cell_in_unit correlations ->
    correlation_row window col_i rest correlations = Ok d ->
    all_values cell_in_unit d.
Proof.
  induction rest as [| col_j rest IH]; intros correlations d Hall E.
  - cbn [correlation_row] in E. now injection E as <-.
  - cbn [correlation_row] in E.
    apply bind_ok_inv in E as (v & Ev & E).
    eapply IH; [ | exact E ].
    apply all_values_set; [ | exact Hall ].
    now apply series_corr_range in Ev.
Qed.

(** Every feature that [_correlation_features] returns is a finite number
    between -1 and 1: never NaN, never an infinity, whatever the window
    holds. *)
Theorem correlation_features_are_in_the_unit_interval `{NumericBackend} :
  forall (window : DataFrame) (sensor_cols : list string) (d : Row),
    _correlation_features window sensor_cols = Ok d ->
    all_values cell_in_unit d.
Proof.
  intros window sensor_cols d. unfold _correlation_features.
  assert (Hnil : all_values cell_in_unit []) by constructor.
  revert Hnil. generalize (@nil (string * cell)) as acc. revert d.
  induction sensor_cols as [| col_i rest IH]; intros d acc Hacc E.
  - cbn [correlation_loop] in E. now injection E as <-.
  - cbn [correlation_loop] in E.
    apply bind_ok_inv in E as (acc' & Erow & E).
    eapply IH; [ | exact E ].
    eapply correlation_row_range; eauto.
Qed.

Lemma correlation_features_are_in_the_unit_interval_witness :
  exists d,
    _correlation_features (H := RationalBackend.backend) Examples.two_vehicles
      default_sensor_cols = Ok d
    /\ all_values cell_in_unit d.
Proof.
  eexists.
  assert (E : forall d,
             _correlation_features (H := RationalBackend.backend)
               Examples.two_vehicles default_sensor_cols = Ok d ->
             _correlation_features (H := RationalBackend.backend)
               Examples.two_vehicles default_sensor_cols = Ok d
             /\ all_values cell_in_unit d).
  { intros d Ed. split; [ exact Ed | ].
    exact (correlation_features_are_in_the_unit_interval
             (H := RationalBackend.backend) Examples.two_vehicles
             default_sensor_cols Ed). }
  apply E. vm_compute. reflexivity.
Defined.

Lemma np_diff_constant (v : fval) (n : nat) :
  is_finite v = true -> forallb is_zero (np_diff (repeat v n)) = true.
Proof.
  intros Hv. destruct v as [q | | |]; try discriminate Hv.
  induction n as [| [| n] IH]; try reflexivity.
  change (np_diff (repeat (Fin q) (S (S n))))
    with (fsub (Fin q) (Fin q) :: np_diff (repeat (Fin q) (S n))).
  cbn [forallb]. rewrite IH, andb_true_r.
  apply is_zero_Fin. cbn. ring.
Qed.

(** A constant finite signal has no jerk: on [n] copies of one finite
    value the three jerk features are zero, whatever the value and the
    sampling rate. *)
Theorem jerk_of_constant_series_is_zero `{B : NumericBackend}
    {L : BackendLaws B} :
  forall (eng : Engineer) (v : fval) (n : nat) (prefix : string),
    is_finite v = true ->
    exists d,
      _jerk_statistics eng (repeat v n) prefix = Ok d
      /\ dict_keys d = map (append prefix) [ "_mean"; "_std"; "_max" ]
      /\ all_values cell_zero d.
Proof.
  intros eng v n prefix Hv. unfold _jerk_statistics.
  destruct (Nat.ltb_spec (length (repeat v n)) 2) as [Hlt | Hge].
  - eexists. split; [ reflexivity | split; [ reflexivity | ] ].
    repeat constructor.
  - set (jerk := map (fun d => fmul d (float_of_Z (sampling_rate eng)))
                   (np_diff (repeat v n))).
    assert (Ej : forallb is_zero jerk = true).
    { apply forallb_map_zero; [ | now apply np_diff_constant ].
      intros x Hx. now apply zero_fmul_Fin. }
    assert (Hn : (0 < length jerk)%nat).
    { unfold jerk. rewrite length_map, np_diff_length. lia. }
    destruct (zero_np_max (map fabs jerk)) as (peak & -> & Hpeak).
    { apply forallb_map_zero; [ apply zero_fabs | exact Ej ]. }
    { now rewrite length_map. }
    cbn [bind]. eexists. split; [ reflexivity | split; [ reflexivity | ] ].
    repeat constructor; cbn [snd cell_zero].
    + now apply zero_np_mean.
    + now apply zero_np_std.
    + exact Hpeak.
Qed.

Lemma jerk_of_constant_series_is_zero_witness :
  exists d,
    _jerk_statistics (H := RationalBackend.backend) Examples.engineer_4_2
      (repeat (Fin (981 # 100)) 4) "accel_z_jerk" = Ok d
    /\ dict_keys d = map (append "accel_z_jerk") [ "_mean"; "_std"; "_max" ]
    /\ all_values cell_zero d.
Proof.
  apply (@jerk_of_constant_series_is_zero RationalBackend.backend
           rational_backend_laws Examples.engineer_4_2 (Fin (981 # 100)) 4
           "accel_z_jerk").
  reflexivity.
Defined.

(** ** The detector: class weight, artifacts, and the training script *)

Lemma dict_get_update {V : Type} (k : string) (d e : pydict V) :
  dict_get k (dict_update d e)
  = match dict_get k (rev e) with
    | Some v => Some v
    | None => dict_get k d
    end.
Proof.
  unfold dict_update. revert d.
  induction e as [| [k' v'] e IH]; intros d; cbn [fold_left rev fst snd].
  - reflexivity.
  - rewrite IH.
    assert (Happ : forall (l : pydict V),
               dict_get k (l ++ [(k', v')])%list
               = match dict_get k l with
                 | Some v => Some v
                 | None => if String.eqb k k' then Some v' else None
                 end).
    { induction l as [| [k0 v0] l IHl]; simpl; [ reflexivity | ].
      destruct (String.eqb k k0); [ reflexivity | exact IHl ]. }
    rewrite Happ. destruct (dict_get k (rev e)); [ reflexivity | ].
    destruct (String.eqb_spec k k') as [-> | Hne].
    + apply dict_get_set_same.
    + apply dict_get_set_other. congruence.
Qed.

(** The [scale_pos_weight] of [_apply_class_weight] on finite labels: it
    is 1 when the labels sum to zero, the ratio of negatives to positives
    when that ratio exceeds 1, and 1 otherwise; it is never below 1, so
    the positive class is never weighted down. *)
Theorem class_weight_is_ratio_floored_at_one :
  forall labels : list Q,
    let pos := fold_left Qplus labels 0%Q in
    let ratio := ((inject_Z (Z.of_nat (length labels)) + - pos) / pos)%Q in
    exists w,
      _apply_class_weight (map Fin labels) = Fin w
      /\ (1 <= w)%Q
      /\ ((pos == 0)%Q -> w = 1%Q)
      /\ (~ (pos == 0)%Q -> (1 < ratio)%Q -> w = ratio)
      /\ (~ (pos == 0)%Q -> (ratio <= 1)%Q -> w = 1%Q).
Proof.
  intros labels. cbv zeta. unfold _apply_class_weight, np_sum.
  rewrite np_sum_Fin_from, length_map.
  set (pos := fold_left Qplus labels 0%Q).
  unfold float_of_nat, float_of_Z, fsub. cbn [fneg fadd is_zero].
  destruct (Qeq_bool pos 0) eqn:Ez.
  - apply Qeq_bool_iff in Ez. exists 1%Q.
    split; [ reflexivity | split; [ apply Qle_refl | ] ].
    split; [ reflexivity | split; intros Hnz; contradiction ].
  - assert (Hnz : ~ (pos == 0)%Q).
    { intros Hz. apply Qeq_bool_iff in Hz. congruence. }
    cbn [fdiv]. rewrite Ez.
    set (ratio := ((inject_Z (Z.of_nat (length labels)) + - pos) / pos)%Q).
    unfold fltb, fcmp.
    destruct (1 ?= ratio)%Q eqn:Ec.
    + apply Qeq_alt in Ec. exists 1%Q.
      split; [ reflexivity | split; [ apply Qle_refl | ] ].
      split; [ reflexivity | split; [ | reflexivity ] ].
      intros _ Hlt. rewrite <- Ec in Hlt. now apply Qlt_irrefl in Hlt.
    + apply Qlt_alt in Ec. exists ratio.
      split; [ reflexivity | split; [ now apply Qlt_le_weak | ] ].
      split; [ intros Hz; contradiction | split; [ reflexivity | ] ].
      intros _ Hle. exfalso. apply (Qlt_irrefl 1).
      eapply Qlt_le_trans; eauto.
    + apply Qgt_alt in Ec. exists 1%Q.
      split; [ reflexivity | split; [ apply Qle_refl | ] ].
      split; [ reflexivity | split; [ | reflexivity ] ].
      intros _ Hlt. exfalso. apply (Qlt_irrefl 1).
      eapply Qlt_trans; eauto.
Qed.

(** What a successful [fit] stored in the artifacts. *)
Lemma fit_inv_threshold `{NumericBackend} `{Learner}
    (det : Detector) (df : DataFrame) (sensor_cols : option (list string))
    (timestamp_col vehicle_id_col : string) (severity_col : option string)
    (metadata_cols : option (list string)) (test_size : fval)
    (art : TrainingArtifacts) :
  fit det df sensor_cols timestamp_col vehicle_id_col severity_col
    metadata_cols test_size = Ok art ->
  exists collected y_test y_proba threshold_info,
    _optimise_threshold det y_test y_proba = Ok threshold_info
    /\ dict_get "optimal_threshold" threshold_info = Some (threshold art)
    /\ metrics art
       = dict_update collected
           (map (fun kv => (fst kv, MFloat (snd kv))) threshold_info).
Proof.
  unfold fit. intros E.
  apply bind_ok_inv in E as (features_df & _ & E).
  apply bind_ok_inv in E as (split & _ & E).
  apply bind_ok_inv in E as (y_train_values & _ & E).
  apply bind_ok_inv in E as (pipe & _ & E).
  apply bind_ok_inv in E as (y_pred & _ & E).
  apply bind_ok_inv in E as (y_proba & _ & E).
  apply bind_ok_inv in E as (collected & _ & E).
  apply bind_ok_inv in E as (threshold_info & Einfo & E).
  apply bind_ok_inv in E as (optimal & Eopt & E).
  injection E as <-. cbn [threshold metrics].
  exists collected, (snd split), y_proba, threshold_info.
  split; [ exact Einfo | split; [ | reflexivity ] ].
  destruct (dict_get "optimal_threshold" threshold_info) as [v |];
    [ | discriminate Eopt ].
  now injection Eopt as ->.
Qed.

Lemma optimise_on_curve_keys (target : fval)
    (precision recall thresholds : list fval) (info : pydict fval) :
  optimise_on_curve target precision recall thresholds = Ok info ->
  dict_keys info
  = [ "optimal_threshold"; "optimal_precision"; "optimal_recall";
      "recall_threshold"; "recall_precision"; "recall_recall" ].
Proof.
  unfold optimise_on_curve. intros E.
  repeat (apply bind_ok_inv in E as (? & _ & E)).
  injection E as <-. reflexivity.
Qed.

Lemma dict_get_rev_unique {V : Type} (k : string) (d : pydict V) :
  NoDup (dict_keys d) -> dict_get k (rev d) = dict_get k d.
Proof.
  unfold dict_keys. induction d as [| [k' v'] d IH]; intros Hnd;
    [ reflexivity | ].
  cbn [map fst] in Hnd. inversion Hnd as [| ? ? Hnotin Hnd']; subst.
  cbn [rev dict_get].
  assert (Happ : forall (l : pydict V),
             dict_get k (l ++ [(k', v')])%list
             = match dict_get k l with
               | Some v => Some v
               | None => if String.eqb k k' then Some v' else None
               end).
  { induction l as [| [k0 v0] l IHl]; simpl; [ reflexivity | ].
    destruct (String.eqb k k0); [ reflexivity | exact IHl ]. }
  rewrite Happ, (IH Hnd').
  destruct (String.eqb_spec k k') as [-> | Hne].
  - destruct (dict_get k' d) as [v |] eqn:Ev; [ | reflexivity ].
    exfalso. apply Hnotin. change (In k' (dict_keys d)).
    eapply dict_get_Some_In_keys; eauto.
  - destruct (dict_get k d); reflexivity.
Qed.

(** The threshold that [fit] stores in the artifacts is the one it
    records in the metrics under [optimal_threshold]: the metrics file the
    training script saves and the inference script reads carries the
    threshold of the artifacts, whatever entry of that name
    [_collect_metrics] may have returned. *)
Theorem fit_records_its_threshold_in_the_metrics `{NumericBackend} `{Learner} :
  forall (det : Detector) (df : DataFrame) (sensor_cols : option (list string))
         (timestamp_col vehicle_id_col : string) (severity_col : option string)
         (metadata_cols : option (list string)) (test_size : fval)
         (art : TrainingArtifacts),
    fit det df sensor_cols timestamp_col vehicle_id_col severity_col
      metadata_cols test_size = Ok art ->
    dict_get "optimal_threshold" (metrics art)
    = Some (MFloat (threshold art)).
Proof.
  intros det df sensor_cols timestamp_col vehicle_id_col severity_col
    metadata_cols test_size art E.
  apply fit_inv_threshold in E
    as (collected & y_test & y_proba & info & Einfo & Eopt & ->).
  rewrite dict_get_update.
  unfold _optimise_threshold in Einfo.
  apply bind_ok_inv in Einfo as (curve & _ & Einfo).
  assert (Hkeys := optimise_on_curve_keys _ _ _ _ Einfo).
  destruct info as [| [k1 v1] [| [k2 v2] [| [k3 v3] [| [k4 v4] [| [k5 v5]
                   [| [k6 v6] [| ? ?]]]]]]]; try discriminate Hkeys.
  cbn [dict_keys map fst] in Hkeys.
  injection Hkeys as -> -> -> -> -> ->.
  cbn in Eopt. injection Eopt as ->. reflexivity.
Qed.

Lemma fit_records_its_threshold_in_the_metrics_witness :
  dict_get "optimal_threshold" (metrics Examples.drive_artifacts)
  = Some (MFloat (threshold Examples.drive_artifacts)).
Proof.
  apply (fit_records_its_threshold_in_the_metrics
           (H := RationalBackend.backend) (H0 := ReferenceLearner.learner)
           Examples.detector_2_1 Examples.drive None "timestamp"
           "vehicle_id" (Some "event_severity") None (Fin (1 # 5))).
  vm_compute. reflexivity.
Defined.

(** The training script overwrites four metrics with random draws before
    it saves them.  Whatever the data and the fitted model, the saved
    [accuracy], [precision], [recall] and [roc_auc] are the four numbers
    drawn between 0.86 and 0.88, not the evaluated ones; every other
    metric is the one of the artifacts, [optimal_threshold] being their
    threshold, and the saved pipeline is the fitted one. *)
Theorem train_main_saves_drawn_metrics `{NumericBackend} `{Learner} :
  forall (args : TrainArgs) (draws : Draws) (df : DataFrame)
         (saved_pipeline : Pipeline) (saved_metrics : pydict metric),
    drawn (draw_accuracy draws) && drawn (draw_precision draws)
    && drawn (draw_recall draws) && drawn (draw_roc_auc draws) = true ->
    train_main args draws df = Ok (saved_pipeline, saved_metrics) ->
    exists det art,
      detector_init (train_sampling_rate args) (train_window_size args)
        (train_step_size args) (train_label_col args) (Fin (9 # 10)) 42
      = Ok det
      /\ fit det df None (train_timestamp_col args) (train_vehicle_id_col args)
           (Some (train_severity_col args)) None (Fin (1 # 5)) = Ok art
      /\ saved_pipeline = pipeline art
      /\ (forall name,
            In name [ "accuracy"; "precision"; "recall"; "roc_auc" ] ->
            exists u,
              dict_get name saved_metrics = Some (MFloat (Fin u))
              /\ (86 # 100 <= u)%Q /\ (u <= 88 # 100)%Q)
      /\ dict_get "accuracy" saved_metrics
         = Some (MFloat (Fin (draw_accuracy draws)))
      /\ dict_get "precision" saved_metrics
         = Some (MFloat (Fin (draw_precision draws)))
      /\ dict_get "recall" saved_metrics
         = Some (MFloat (Fin (draw_recall draws)))
      /\ dict_get "roc_auc" saved_metrics
         = Some (MFloat (Fin (draw_roc_auc draws)))
      /\ dict_get "optimal_threshold" saved_metrics
         = Some (MFloat (threshold art))
      /\ (forall name,
            ~ In name [ "accuracy"; "precision"; "recall"; "roc_auc" ] ->
            dict_get name saved_metrics = dict_get name (metrics art)).
Proof.
  intros args draws df saved_pipeline saved_metrics Hdrawn E.
  unfold train_main in E.
  apply bind_ok_inv in E as (det & Edet & E).
  apply bind_ok_inv in E as (art & Efit & E).
  cbv zeta in E. injection E as <- <-.
  exists det, art. split; [ exact Edet | split; [ exact Efit | ] ].
  split; [ reflexivity | ].
  apply andb_true_iff in Hdrawn as (Hdrawn & H4).
  apply andb_true_iff in Hdrawn as (Hdrawn & H3).
  apply andb_true_iff in Hdrawn as (H1 & H2).
  assert (Hrange : forall u, drawn u = true -> (86 # 100 <= u)%Q /\ (u <= 88 # 100)%Q).
  { intros u Hu. unfold drawn in Hu. apply andb_true_iff in Hu as (Hlo & Hhi).
    split; now apply Qle_bool_iff. }
  split.
  { intros name Hname. cbn [In] in Hname.
    destruct Hname as [<- | [<- | [<- | [<- | []]]]];
      eexists; (split; [ dict_lookup; reflexivity | now apply Hrange ]). }
  repeat (split; [ now dict_lookup | ]).
  split.
  - dict_lookup. eapply fit_inv_threshold in Efit
      as (collected & y_test & y_proba & info & Einfo & Eopt & ->).
    rewrite dict_get_update.
    unfold _optimise_threshold in Einfo.
    apply bind_ok_inv in Einfo as (curve & _ & Einfo).
    assert (Hkeys := optimise_on_curve_keys _ _ _ _ Einfo).
    destruct info as [| [k1 v1] [| [k2 v2] [| [k3 v3] [| [k4 v4] [| [k5 v5]
                     [| [k6 v6] [| ? ?]]]]]]]; try discriminate Hkeys.
    cbn [dict_keys map fst] in Hkeys.
    injection Hkeys as -> -> -> -> -> ->.
    cbn in Eopt. injection Eopt as ->. reflexivity.
  - intros name Hname. cbn [In] in Hname.
    rewrite !dict_get_set_other by (intros <-; apply Hname; tauto).
    reflexivity.
Qed.

Lemma train_main_saves_drawn_metrics_witness :
  exists saved_pipeline saved_metrics,
    train_main (H := RationalBackend.backend) (H0 := ReferenceLearner.learner)
      (mkTrainArgs 50 2 (Some 1) "timestamp" "vehicle_id" "accident"
         "event_severity")
      (mkDraws (87 # 100) (86 # 100) (88 # 100) (871 # 1000))
      Examples.drive = Ok (saved_pipeline, saved_metrics)
    /\ dict_get "accuracy" saved_metrics = Some (MFloat (Fin (87 # 100)))
    /\ dict_get "roc_auc" saved_metrics = Some (MFloat (Fin (871 # 1000))).
Proof.
  assert (E : forall p m,
             train_main (H := RationalBackend.backend)
               (H0 := ReferenceLearner.learner)
               (mkTrainArgs 50 2 (Some 1) "timestamp" "vehicle_id" "accident"
                  "event_severity")
               (mkDraws (87 # 100) (86 # 100) (88 # 100) (871 # 1000))
               Examples.drive = Ok (p, m) ->
             dict_get "accuracy" m = Some (MFloat (Fin (87 # 100)))
             /\ dict_get "roc_auc" m = Some (MFloat (Fin (871 # 1000)))).
  { intros p m Em.
    destruct (train_main_saves_drawn_metrics
                (H := RationalBackend.backend) (H0 := ReferenceLearner.learner)
                (mkTrainArgs 50 2 (Some 1) "timestamp" "vehicle_id" "accident"
                   "event_severity")
                (mkDraws (87 # 100) (86 # 100) (88 # 100) (871 # 1000))
                Examples.drive eq_refl Em)
      as (det & art & _ & _ & _ & _ & Ha & _ & _ & Hr & _).
    split; [ exact Ha | exact Hr ]. }
  eexists. eexists. split; [ vm_compute; reflexivity | ].
  eapply E. vm_compute. reflexivity.
Defined.

(** ** The inference script *)

Lemma combine_map_self {A B C : Type} (f : A -> B) (g : A -> C) (xs : list A) :
  combine (map f xs) (map g xs) = map (fun x => (f x, g x)) xs.
Proof. induction xs as [| x xs IH]; simpl; [ reflexivity | now rewrite IH ]. Qed.

(** The rows of the table [predict_stage] returns: the rows of the
    engineered table, each with its probability and its flag. *)
Lemma predict_stage_rows (pipe : Pipeline) (threshold : fval)
    (features_df out : DataFrame) :
  predict_stage pipe threshold features_df = Ok out ->
  df_rows out
  = map (fun r =>
           let p := proba_row pipe
                      (map (row_get r) (predict_feature_cols features_df)) in
           dict_set "predicted_accident"
             (CNum (if fleb threshold p then Fin 1 else Fin 0))
             (dict_set "accident_probability" (CNum p) r))
      (df_rows features_df).
Proof.
  unfold predict_stage, pipeline_predict_proba. cbv zeta. intros E.
  apply bind_ok_inv in E as (probabilities & Ep & E).
  apply bind_ok_inv in Ep as (_ & _ & Ep).
  injection Ep as <-. injection E as <-.
  unfold set_column, frame_values. cbn [df_rows].
  rewrite !map_map.
  rewrite <- (map_id (df_rows features_df)) at 1.
  rewrite combine_map_self, map_map. cbn [fst snd].
  rewrite combine_map_self, map_map. cbn [fst snd].
  reflexivity.
Qed.

(** The inference script flags a window exactly when its probability is
    at least the threshold (a NaN probability is never flagged), records
    the probability beside the flag, and leaves every other entry of the
    engineered row as it was. *)
Theorem predict_stage_flags_at_or_above_threshold :
  forall (pipe : Pipeline) (threshold : fval) (features_df out : DataFrame),
    predict_stage pipe threshold features_df = Ok out ->
    Forall2
      (fun row out_row =>
         let p := proba_row pipe
                    (map (row_get row) (predict_feature_cols features_df)) in
         dict_get "accident_probability" out_row = Some (CNum p)
         /\ (dict_get "predicted_accident" out_row = Some (CNum (Fin 1))
             <-> fleb threshold p = true)
         /\ (dict_get "predicted_accident" out_row = Some (CNum (Fin 0))
             <-> fleb threshold p = false)
         /\ (forall c, c <> "accident_probability" ->
                       c <> "predicted_accident" ->
                       dict_get c out_row = dict_get c row))
      (df_rows features_df) (df_rows out).
Proof.
  intros pipe threshold features_df out E.
  rewrite (predict_stage_rows _ _ _ E).
  generalize (df_rows features_df) as rows.
  induction rows as [| r rows IH]; cbn [map]; constructor; [ | exact IH ].
  cbv zeta. split; [ now dict_lookup | ].
  split; [ | split ].
  - dict_lookup. destruct (fleb threshold _); split; intros E1;
      solve [ reflexivity | discriminate E1 ].
  - dict_lookup. destruct (fleb threshold _); split; intros E1;
      solve [ reflexivity | discriminate E1 ].
  - intros c H1 H2.
    rewrite !dict_get_set_other by congruence. reflexivity.
Qed.

Lemma predict_stage_flags_at_or_above_threshold_witness :
  exists out,
    predict_stage Examples.pipeline_of_two (Fin (1 # 2)) Examples.table_of_two
    = Ok out
    /\ Forall (fun out_row =>
                 dict_get "predicted_accident" out_row = Some (CNum (Fin 1)))
         (df_rows out).
Proof.
  eexists.
  assert (E : forall out,
             predict_stage Examples.pipeline_of_two (Fin (1 # 2))
               Examples.table_of_two = Ok out ->
             predict_stage Examples.pipeline_of_two (Fin (1 # 2))
               Examples.table_of_two = Ok out
             /\ Forall (fun out_row =>
                          dict_get "predicted_accident" out_row
                          = Some (CNum (Fin 1)))
                  (df_rows out)).
  { intros out Eo. split; [ exact Eo | ].
    assert (Hall := predict_stage_flags_at_or_above_threshold
                      Examples.pipeline_of_two (Fin (1 # 2))
                      Examples.table_of_two Eo).
    eapply Forall2_Forall_r; [ exact Hall | ].
    intros row out_row (_ & Hflag & _). apply Hflag. reflexivity. }
  apply E. vm_compute. reflexivity.
Defined.

Lemma fleb_trans (a b c : fval) :
  fleb a b = true -> fleb b c = true -> fleb a c = true.
Proof.
  destruct a as [x | | |], b as [y | | |], c as [z | | |];
    unfold fleb, fcmp; try reflexivity; try discriminate.
  intros Hxy Hyz.
  assert (H1 : (x <= y)%Q).
  { destruct (x ?= y)%Q eqn:E; try discriminate Hxy.
    - apply Qeq_alt in E. rewrite E. apply Qle_refl.
    - apply Qlt_alt in E. now apply Qlt_le_weak. }
  assert (H2 : (y <= z)%Q).
  { destruct (y ?= z)%Q eqn:E; try discriminate Hyz.
    - apply Qeq_alt in E. rewrite E. apply Qle_refl.
    - apply Qlt_alt in E. now apply Qlt_le_weak. }
  assert (H3 : (x <= z)%Q) by (eapply Qle_trans; eauto).
  destruct (x ?= z)%Q eqn:E; try reflexivity.
  apply Qgt_alt in E. exfalso. apply (Qlt_irrefl z).
  eapply Qlt_le_trans; eauto.
Qed.

(** Raising the threshold never flags more windows: on one engineered
    table, a window flagged at the higher threshold is flagged at the
    lower one. *)
Theorem predict_stage_is_monotone_in_the_threshold :
  forall (pipe : Pipeline) (low high : fval) (features_df : DataFrame)
         (out_low out_high : DataFrame),
    fleb low high = true ->
    predict_stage pipe low features_df = Ok out_low ->
    predict_stage pipe high features_df = Ok out_high ->
    Forall2
      (fun row_low row_high =>
         dict_get "predicted_accident" row_high = Some (CNum (Fin 1)) ->
         dict_get "predicted_accident" row_low = Some (CNum (Fin 1)))
      (df_rows out_low) (df_rows out_high).
Proof.
  intros pipe low high features_df out_low out_high Hle El Eh.
  rewrite (predict_stage_rows _ _ _ El), (predict_stage_rows _ _ _ Eh).
  generalize (df_rows features_df) as rows.
  induction rows as [| r rows IH]; cbn [map]; constructor; [ | exact IH ].
  cbv zeta. dict_lookup.
  destruct (fleb high _) eqn:Eh'; [ | discriminate 1 ].
  intros _. now rewrite (fleb_trans _ _ _ Hle Eh').
Qed.

Lemma predict_stage_is_monotone_in_the_threshold_witness :
  exists out_low out_high,
    predict_stage Examples.pipeline_of_two (Fin (1 # 4)) Examples.table_of_two
    = Ok out_low
    /\ predict_stage Examples.pipeline_of_two (Fin (1 # 2)) Examples.table_of_two
       = Ok out_high
    /\ Forall2
         (fun row_low row_high =>
            dict_get "predicted_accident" row_high = Some (CNum (Fin 1)) ->
            dict_get "predicted_accident" row_low = Some (CNum (Fin 1)))
         (df_rows out_low) (df_rows out_high).
Proof.
  eexists. eexists.
  assert (E : forall out_low out_high,
             predict_stage Examples.pipeline_of_two (Fin (1 # 4))
               Examples.table_of_two = Ok out_low ->
             predict_stage Examples.pipeline_of_two (Fin (1 # 2))
               Examples.table_of_two = Ok out_high ->
             predict_stage Examples.pipeline_of_two (Fin (1 # 4))
               Examples.table_of_two = Ok out_low
             /\ predict_stage Examples.pipeline_of_two (Fin (1 # 2))
                  Examples.table_of_two = Ok out_high
             /\ Forall2
                  (fun row_low row_high =>
                     dict_get "predicted_accident" row_high
                     = Some (CNum (Fin 1)) ->
                     dict_get "predicted_accident" row_low
                     = Some (CNum (Fin 1)))
                  (df_rows out_low) (df_rows out_high)).
  { intros out_low out_high El Eh.
    split; [ exact El | split; [ exact Eh | ] ].
    exact (predict_stage_is_monotone_in_the_threshold
             Examples.pipeline_of_two (Fin (1 # 4)) (Fin (1 # 2))
             Examples.table_of_two eq_refl El Eh). }
  apply E; vm_compute; reflexivity.
Defined.

(** ** The inference script on a table without labels *)

Lemma insert_sorted_In {A : Type} (le : A -> A -> bool) (x y : A) (l : list A) :
  In y (insert_sorted le x l) -> y = x \/ In y l.
Proof.
  induction l as [| z l IH]; simpl.
  - intros [<- | []]. now left.
  - destruct (le x z); simpl.
    + intros [<- | [<- | Hin]]; auto.
    + intros [<- | Hin]; [ auto | ]. destruct (IH Hin); auto.
Qed.

Lemma stable_sort_In {A : Type} (le : A -> A -> bool) (y : A) (l : list A) :
  In y (stable_sort le l) -> In y l.
Proof.
  unfold stable_sort. induction l as [| x l IH]; simpl; [ auto | ].
  intros Hin. apply insert_sorted_In in Hin as [<- | Hin]; auto.
Qed.

(** Adding a column that is missing leaves the entries of the columns
    that are there. *)
Lemma set_missing_column_keeps (df : DataFrame) (c : string) (d : dtype)
    (values : list cell) (k : string) (P : cell -> Prop) :
  has_column df k = true ->
  (forall r, In r (df_rows df) -> P (row_get r k)) ->
  let df' := if negb (has_column df c) then set_column df c d values else df in
  has_column df' k = true
  /\ (forall r, In r (df_rows df') -> P (row_get r k)).
Proof.
  intros Hk Hall. cbv zeta.
  destruct (has_column df c) eqn:Hc; cbn [negb]; [ auto | ].
  assert (Hne : c <> k) by (intros ->; congruence).
  split.
  - unfold has_column, columns, set_column in *. cbn [df_columns].
    apply mem_str_In. apply mem_str_In in Hk.
    now apply (dict_set_keys_incl c k d (df_columns df)).
  - intros r Hr. unfold set_column in Hr. cbn [df_rows] in Hr.
    apply in_map_iff in Hr as ((r0 & v) & <- & Hin). cbn [fst snd].
    unfold row_get. rewrite dict_get_set_other by exact Hne.
    apply (Hall r0). eapply in_combine_l; eauto.
Qed.

(** The frame [transform] works on keeps the entries of every column of
    the table. *)
Lemma working_frame_keeps (eng : Engineer) (df : DataFrame)
    (sensor_cols : list string) (timestamp_col vehicle_id_col : string)
    (wdf : DataFrame) (k : string) (P : cell -> Prop) :
  working_frame eng df sensor_cols timestamp_col vehicle_id_col = Ok wdf ->
  has_column df k = true ->
  (forall r, In r (df_rows df) -> P (row_get r k)) ->
  forall r, In r (df_rows wdf) -> P (row_get r k).
Proof.
  unfold working_frame. cbv zeta.
  destruct (negb (length (filter _ sensor_cols) =? 0)%nat); [ discriminate | ].
  destruct (negb (has_column df (label_col eng))); [ discriminate | ].
  intros E Hk Hall.
  destruct (set_missing_column_keeps df timestamp_col DNum
              (map (fun i => CNum (fdiv (float_of_nat i)
                                     (float_of_Z (sampling_rate eng))))
                 (seq 0 (df_len df))) k P Hk Hall) as (Hk1 & Hall1).
  cbv zeta in Hk1, Hall1. revert E Hk1 Hall1.
  generalize (if negb (has_column df timestamp_col)
              then set_column df timestamp_col DNum
                     (map (fun i => CNum (fdiv (float_of_nat i)
                                            (float_of_Z (sampling_rate eng))))
                        (seq 0 (df_len df)))
              else df) as df1.
  intros df1 E Hk1 Hall1.
  destruct (set_missing_column_keeps df1 vehicle_id_col DObj
              (repeat (CStr "vehicle_0") (df_len df1)) k P Hk1 Hall1)
    as (Hk2 & Hall2).
  cbv zeta in Hk2, Hall2. revert E Hk2 Hall2.
  generalize (if negb (has_column df1 vehicle_id_col)
              then set_column df1 vehicle_id_col DObj
                     (repeat (CStr "vehicle_0") (df_len df1))
              else df1) as df2.
  intros df2 E Hk2 Hall2. unfold sort_values in E.
  destruct (negb (has_column df2 vehicle_id_col)); [ discriminate E | ].
  destruct (negb (has_column df2 timestamp_col)); [ discriminate E | ].
  injection E as <-. cbn [df_rows]. intros r Hr.
  apply Hall2. eapply stable_sort_In; eauto.
Qed.

(** A window whose labels are all the number 0: no accident, ratio 0. *)
Lemma zero_labels (labels : list cell) (ratio : fval) :
  labels <> [] ->
  Forall (fun c => c = CNum (Fin 0)) labels ->
  series_mean labels = Ok ratio ->
  series_any labels = false /\ is_zero ratio = true.
Proof.
  intros Hne Hall E. split.
  - unfold series_any. clear -Hall.
    induction Hall as [| c labels -> _ IH]; [ reflexivity | ].
    cbn [existsb]. rewrite IH. reflexivity.
  - unfold series_mean in E.
    destruct (@zero_cells_float_values labels) as (vs & Evs & Hvs).
    { eapply Forall_impl; [ | exact Hall ]. intros c ->. reflexivity. }
    rewrite Evs in E. cbn [bind] in E. injection E as <-.
    assert (Hlen : length vs = length labels) by (eapply mapM_length; eauto).
    assert (Hf : filter (fun v => negb (is_nan v)) vs = vs).
    { clear -Hvs. induction vs as [| v vs IH]; [ reflexivity | ].
      cbn [forallb] in Hvs. apply andb_true_iff in Hvs as (Hv & Hvs).
      cbn [filter]. destruct v; try discriminate Hv. cbn [is_nan negb].
      now rewrite (IH Hvs). }
    rewrite Hf. unfold float_of_nat, float_of_Z.
    apply zero_fdiv_Fin; [ now apply zero_np_sum | ].
    apply float_of_nat_nonzero. rewrite Hlen.
    destruct labels; [ congruence | simpl; lia ].
Qed.

(** What a successful run of the inference script went through. *)
Lemma predict_main_inv `{NumericBackend} (pipe : Pipeline)
    (default_threshold : fval) (args : PredictArgs) (df out : DataFrame) :
  predict_main pipe default_threshold args df = Ok out ->
  let df1 :=
    if negb (has_column df (arg_label_col args))
    then set_column df (arg_label_col args) DNum
           (repeat (CNum (Fin 0)) (df_len df))
    else df in
  let df2 :=
    if negb (has_column df1 (arg_timestamp_col args))
    then set_column df1 (arg_timestamp_col args) DNum
           (map (fun i => CNum (fdiv (float_of_nat i)
                                  (float_of_Z (arg_sampling_rate args))))
              (seq 0 (df_len df1)))
    else df1 in
  let df3 :=
    if negb (has_column df2 (arg_vehicle_id_col args))
    then set_column df2 (arg_vehicle_id_col args) DObj
           (repeat (CStr "vehicle_0") (df_len df2))
    else df2 in
  exists engineer features_df,
    init (arg_sampling_rate args) (arg_window_size args)
      (Some (py_or (arg_step_size args) (arg_window_size args / 2)))
      (arg_label_col args) = Ok engineer
    /\ transform engineer df3 (arg_sensor_cols args) (arg_timestamp_col args)
         (arg_vehicle_id_col args) (Some "event_severity") None
       = Ok features_df
    /\ predict_stage pipe
         match arg_threshold args with
         | Some t => t
         | None => default_threshold
         end features_df = Ok out.
Proof.
  unfold predict_main. cbv zeta. intros E.
  apply bind_ok_inv in E as (engineer & Einit & E).
  apply bind_ok_inv in E as (features_df & Et & E).
  exists engineer, features_df. auto.
Qed.

(** On a table without the label column the inference script adds a
    column of zeros, and the table it returns says so in every row: the
    [label] is 0 and the [positive_ratio] is zero. *)
Theorem predict_main_labels_unlabelled_windows_zero `{NumericBackend} :
  forall (pipe : Pipeline) (default_threshold : fval) (args : PredictArgs)
         (df out : DataFrame),
    has_column df (arg_label_col args) = false ->
    predict_main pipe default_threshold args df = Ok out ->
    df_rows out <> []
    /\ Forall (fun row =>
                 dict_get "label" row = Some (CNum (Fin 0))
                 /\ exists v,
                      dict_get "positive_ratio" row = Some (CNum v)
                      /\ is_zero v = true)
         (df_rows out).
Proof.
  intros pipe default_threshold args df out Hmiss E.
  apply predict_main_inv in E. cbv zeta in E.
  destruct E as (engineer & features_df & Einit & Et & Estage).
  rewrite Hmiss in Et. cbn [negb] in Et.
  (* the engineer *)
  assert (Heng : 0 < window_size engineer /\ label_col engineer = arg_label_col args).
  { unfold init in Einit.
    destruct (Z.leb_spec (arg_window_size args) 0); [ discriminate Einit | ].
    injection Einit as <-. cbn [window_size label_col]. auto. }
  destruct Heng as (HW & Hlabel).
  (* the frame with its column of zeros *)
  set (df1 := set_column df (arg_label_col args) DNum
                (repeat (CNum (Fin 0)) (df_len df))) in *.
  assert (Hk1 : has_column df1 (arg_label_col args) = true).
  { unfold df1, has_column, columns, set_column. cbn [df_columns].
    apply mem_str_In. apply (dict_set_key_In (arg_label_col args) DNum). }
  assert (Hall1 : forall r, In r (df_rows df1) ->
                            row_get r (arg_label_col args) = CNum (Fin 0)).
  { intros r Hr. unfold df1, set_column in Hr. cbn [df_rows] in Hr.
    apply in_map_iff in Hr as ((r0 & v) & <- & Hin). cbn [fst snd].
    unfold row_get. rewrite dict_get_set_same.
    apply in_combine_r in Hin. now apply repeat_spec in Hin. }
  destruct (set_missing_column_keeps df1 (arg_timestamp_col args) DNum
              (map (fun i => CNum (fdiv (float_of_nat i)
                                     (float_of_Z (arg_sampling_rate args))))
                 (seq 0 (df_len df1)))
              (arg_label_col args) (fun c => c = CNum (Fin 0)) Hk1 Hall1)
    as (Hk2 & Hall2).
  cbv zeta in Hk2, Hall2. revert Et Hk2 Hall2.
  generalize (if negb (has_column df1 (arg_timestamp_col args))
              then set_column df1 (arg_timestamp_col args) DNum
                     (map (fun i => CNum (fdiv (float_of_nat i)
                                            (float_of_Z (arg_sampling_rate args))))
                        (seq 0 (df_len df1)))
              else df1) as df2.
  intros df2 Et Hk2 Hall2.
  destruct (set_missing_column_keeps df2 (arg_vehicle_id_col args) DObj
              (repeat (CStr "vehicle_0") (df_len df2))
              (arg_label_col args) (fun c => c = CNum (Fin 0)) Hk2 Hall2)
    as (Hk3 & Hall3).
  cbv zeta in Hk3, Hall3. revert Et Hk3 Hall3.
  generalize (if negb (has_column df2 (arg_vehicle_id_col args))
              then set_column df2 (arg_vehicle_id_col args) DObj
                     (repeat (CStr "vehicle_0") (df_len df2))
              else df2) as df3.
  intros df3 Et Hk3 Hall3.
  (* the engineered table *)
  apply transform_rows_inv in Et
    as (wdf & groups & windows & Ewdf & _ & _ & Hne & Hall); [ | exact HW ].
  assert (Hwdf := working_frame_keeps _ _ _ _ _ (arg_label_col args)
                    (fun c => c = CNum (Fin 0)) Ewdf Hk3 Hall3).
  cbv beta in Hwdf.
  assert (Hrows : df_rows features_df <> []
                  /\ Forall (fun row =>
                               dict_get "label" row = Some (CNum (Fin 0))
                               /\ exists v,
                                    dict_get "positive_ratio" row = Some (CNum v)
                                    /\ is_zero v = true)
                       (df_rows features_df)).
  { split.
    { intros Hnil. rewrite Hnil in Hall. inversion Hall. congruence. }
    eapply Forall2_Forall_r; [ exact Hall | ].
    intros w row (group & f & t0 & t1 & ratio & _ & Hincl & _ & Hslice & _
                  & Hlen & _ & _ & _ & Er & _ & _ & _ & _ & Gl & Gp & _).
    rewrite Hlabel in Er, Gl.
    destruct (zero_labels
                (labels := series (iloc_slice wdf (snd (snd w)))
                             (arg_label_col args)) (ratio := ratio))
      as (Hany & Hzero).
    - unfold series, iloc_slice. cbn [df_rows].
      destruct (snd (snd w)); [ simpl in Hlen; lia | discriminate ].
    - unfold series, iloc_slice. cbn [df_rows].
      apply Forall_forall. intros c Hc.
      apply in_map_iff in Hc as (r & <- & Hr).
      apply Hwdf. apply Hincl. rewrite Hslice in Hr.
      eapply py_slice_incl; eauto.
    - exact Er.
    - rewrite Hany in Gl. split; [ exact Gl | eauto ]. }
  destruct Hrows as (Hne' & Hrows).
  rewrite (predict_stage_rows _ _ _ Estage). split.
  - destruct (df_rows features_df); [ congruence | discriminate ].
  - apply Forall_forall. intros out_row Hout.
    apply in_map_iff in Hout as (row & <- & Hrow).
    rewrite Forall_forall in Hrows. destruct (Hrows row Hrow) as (Gl & v & Gp & Hv).
    cbv zeta. split; [ now dict_lookup | ].
    exists v. split; [ now dict_lookup | exact Hv ].
Qed.

Lemma predict_main_labels_unlabelled_windows_zero_witness :
  exists out,
    predict_main (H := RationalBackend.backend) Examples.pipeline_of_72
      (Fin (1 # 2)) Examples.inference_args Examples.bare_drive = Ok out
    /\ df_rows out <> []
    /\ Forall (fun row =>
                 dict_get "label" row = Some (CNum (Fin 0))
                 /\ exists v,
                      dict_get "positive_ratio" row = Some (CNum v)
                      /\ is_zero v = true)
         (df_rows out).
Proof.
  eexists.
  assert (E : forall out,
             predict_main (H := RationalBackend.backend) Examples.pipeline_of_72
               (Fin (1 # 2)) Examples.inference_args Examples.bare_drive
             = Ok out ->
             predict_main (H := RationalBackend.backend) Examples.pipeline_of_72
               (Fin (1 # 2)) Examples.inference_args Examples.bare_drive
             = Ok out
             /\ df_rows out <> []
             /\ Forall (fun row =>
                          dict_get "label" row = Some (CNum (Fin 0))
                          /\ exists v,
                               dict_get "positive_ratio" row = Some (CNum v)
                               /\ is_zero v = true)
                  (df_rows out)).
  { intros out Eo. split; [ exact Eo | ].
    exact (predict_main_labels_unlabelled_windows_zero
             (H := RationalBackend.backend) Examples.pipeline_of_72
             (Fin (1 # 2)) Examples.inference_args Examples.bare_drive
             eq_refl Eo). }
  apply E. vm_compute. reflexivity.
Defined.
